(** * Merchant risk scoring pipeline

    A shallow embedding of the scoring-and-analytics core of the repository
    (governance, enrichment, rule engine, hybrid scorer, metrics, insight
    agent) together with the properties its specification states.

    The Python sources work on pandas tables of IEEE-754 binary64 numbers.
    Numbers are modelled bit-exactly with the Standard Library's
    [spec_float] at precision 53 and maximal exponent 1024, so that sums
    such as [0.4 + 0.2] have the value the interpreter computes.

    Layout: part I holds the definitions, one module per source file;
    part II holds the lemmas and theorems. *)

From Stdlib Require Import ZArith List String Ascii Bool Lia Permutation Sorted.
From Stdlib Require Import DecimalString.
From Stdlib Require Import Floats.SpecFloat.
Import ListNotations.

Set Implicit Arguments.

(* ================================================================== *)
(** * Part I: definitions                                              *)
(* ================================================================== *)

(** ** binary64 arithmetic (numpy float64) *)

Module F64.

Definition float : Type := spec_float.

Definition prec : Z := 53.
Definition emax : Z := 1024.

Definition nan : float := S754_nan.
Definition zero : float := S754_zero false.

(** The double nearest to an integer (exact below [2^53]). *)
Definition of_Z (n : Z) : float := binary_normalize prec emax n 0 false.

Definition add (x y : float) : float := SFadd prec emax x y.
Definition mul (x y : float) : float := SFmul prec emax x y.
Definition div (x y : float) : float := SFdiv prec emax x y.

(** The value of the decimal literal [p/q] for exactly representable
    [p] and [q]: one correctly rounded division, which is what the
    Python parser yields for literals such as [0.35]. *)
Definition decimal (p q : Z) : float := div (of_Z p) (of_Z q).

Definition ltb (x y : float) : bool := SFltb x y.
Definition leb (x y : float) : bool := SFleb x y.
Definition eqb (x y : float) : bool := SFeqb x y.
Definition gtb (x y : float) : bool := SFltb y x.
Definition geb (x y : float) : bool := SFleb y x.

Definition is_nan (x : float) : bool :=
  match x with S754_nan => true | _ => false end.

(** [numpy.rint]: nearest integer, halves to the even neighbour. *)
Definition rint (x : float) : float :=
  match x with
  | S754_finite s m e =>
      if (0 <=? e)%Z then x
      else
        let d := (2 ^ (- e))%Z in
        let q := (Zpos m / d)%Z in
        let r := (Zpos m mod d)%Z in
        let n := match (2 * r ?= d)%Z with
                 | Lt => q
                 | Gt => (q + 1)%Z
                 | Eq => if Z.even q then q else (q + 1)%Z
                 end in
        binary_normalize prec emax (if s then (- n)%Z else n) 0 s
  | _ => x
  end.

(** [numpy.round(x, decimals)] for [decimals >= 0]: scale, [rint],
    scale back. *)
Definition round (x : float) (decimals : nat) : float :=
  let factor := of_Z (10 ^ Z.of_nat decimals) in
  div (rint (mul x factor)) factor.

(** [x] is a normal binary64 number and no binary64 number is nearer to
    the fraction [p/q]: with [x = m * 2^e] and one unit in the last
    place equal to [2^e], the distance to [p/q] is at most [2^e / 2]. *)
Definition nearest_to (x : float) (p q : Z) : bool :=
  match x with
  | S754_finite false m e =>
      valid_binary prec emax x
      && (Zpos (digits2_pos m) =? prec)%Z
      && (e <? 0)%Z
      && (2 * Z.abs (Zpos m * q - p * 2 ^ (- e)) <=? q)%Z
  | _ => false
  end.

(** Python's [min(a, b)]: [b] when [b < a], otherwise [a]. *)
Definition min (a b : float) : float := if ltb b a then b else a.

End F64.

Declare Scope f64_scope.
Delimit Scope f64_scope with f64.
Bind Scope f64_scope with F64.float.
Infix "+" := F64.add : f64_scope.
Infix "*" := F64.mul : f64_scope.
Infix "/" := F64.div : f64_scope.
Infix "<?" := F64.ltb : f64_scope.
Infix "<=?" := F64.leb : f64_scope.
Infix ">?" := F64.gtb : f64_scope.
Infix ">=?" := F64.geb : f64_scope.
Infix "=?" := F64.eqb : f64_scope.

Abbreviation float := F64.float.

(** ** pandas Series of float64 values with the default positional index *)

Module Series.

Definition t : Type := list float.

(** [pd.Series(v, index=df.index)] *)
Definition full (n : nat) (v : float) : t := repeat v n.

(** [scores[mask] = v] *)
Fixpoint assign_where (mask : list bool) (v : float) (scores : t) : t :=
  match mask, scores with
  | b :: mask', s :: scores' =>
      (if b then v else s) :: assign_where mask' v scores'
  | _, _ => scores
  end.

(** [a + b]: aligned on the index; a label present on one side only
    yields NaN. *)
Fixpoint add (a b : t) : t :=
  match a, b with
  | x :: a', y :: b' => (x + y)%f64 :: add a' b'
  | [], _ => map (fun _ => F64.nan) b
  | _, [] => map (fun _ => F64.nan) a
  end.

(** [c * a] for a scalar [c] *)
Definition scale (c : float) (a : t) : t := map (fun x => (c * x)%f64) a.

(** One cell of [Series.clip(lower, upper)]: missing values stay
    missing, values below [lower] become [lower], values above [upper]
    become [upper]. *)
Definition clip1 (lower upper x : float) : float :=
  if F64.is_nan x then x
  else
    let y := if (x >=? lower)%f64 then x else lower in
    if (y <=? upper)%f64 then y else upper.

Definition clip (a : t) (lower upper : float) : t :=
  map (clip1 lower upper) a.

End Series.

(** ** Rows of the enriched working table *)

(** [datetime64[ns]]: nanoseconds since the Unix epoch. *)
Definition Timestamp : Type := Z.

Definition NANOS_PER_HOUR : Z := 3600 * 1000000000.
Definition NANOS_PER_DAY : Z := 86400 * 1000000000.

(** [Series.dt.hour] *)
Definition dt_hour (ts : Timestamp) : Z := ((ts / NANOS_PER_HOUR) mod 24)%Z.

(** [Series.dt.date], as the number of days since the epoch. *)
Definition dt_date (ts : Timestamp) : Z := (ts / NANOS_PER_DAY)%Z.

(** The columns of the enriched table that the rule engine and the
    metrics read.  [Class_] is the ground-truth label column [Class]
    (int64 in the data set). *)
Record Txn : Type := mkTxn {
  Amount : float;
  Class_ : Z;
  merchant_id : string;
  customer_id : string;
  transaction_time : Timestamp
}.

(** A table of transactions.  [has_transaction_time] records whether
    ["transaction_time" in df.columns]; when it is [false] the field of
    that name in the rows is never read. *)
Record TxnFrame : Type := mkTxnFrame {
  has_transaction_time : bool;
  txns : list Txn
}.

(** ** rule_engine.py *)

Module RuleEngine.

Definition AMOUNT_MODERATE : float := Eval vm_compute in F64.of_Z 200.
Definition AMOUNT_HIGH : float := Eval vm_compute in F64.of_Z 1000.
Definition AMOUNT_VERY_HIGH : float := Eval vm_compute in F64.of_Z 3000.

Definition HIGH_VELOCITY_CUTOFF : Z := 10.

Definition OFF_HOURS_START : Z := 0.
Definition OFF_HOURS_END : Z := 5.

(** The literals [0.2], [0.4], [0.6] and [1.0]. *)
Definition f0_2 : float := Eval vm_compute in F64.decimal 2 10.
Definition f0_4 : float := Eval vm_compute in F64.decimal 4 10.
Definition f0_6 : float := Eval vm_compute in F64.decimal 6 10.
Definition f1_0 : float := Eval vm_compute in F64.of_Z 1.

Definition _score_amount (df : TxnFrame) : Series.t :=
  let amount := map Amount (txns df) in
  let scores := Series.full (List.length (txns df)) F64.zero in
  let scores :=
    Series.assign_where
      (map (fun a => (a >=? AMOUNT_MODERATE)%f64) amount) f0_2 scores in
  let scores :=
    Series.assign_where
      (map (fun a => (a >=? AMOUNT_HIGH)%f64) amount) f0_4 scores in
  let scores :=
    Series.assign_where
      (map (fun a => (a >=? AMOUNT_VERY_HIGH)%f64) amount) f0_6 scores in
  scores.

(** [Series.value_counts()] looked up at one key. *)
Definition value_counts (ids : list string) (id : string) : Z :=
  Z.of_nat (count_occ string_dec ids id).

Definition _score_customer_velocity (df : TxnFrame) : Series.t :=
  let ids := map customer_id (txns df) in
  let freq := map (value_counts ids) ids in
  let scores := Series.full (List.length (txns df)) F64.zero in
  Series.assign_where
    (map (fun f => (f >=? HIGH_VELOCITY_CUTOFF)%Z) freq) f0_2 scores.

Definition _score_off_hours (df : TxnFrame) : Series.t :=
  let scores := Series.full (List.length (txns df)) F64.zero in
  if has_transaction_time df then
    let hour := map (fun t => dt_hour (transaction_time t)) (txns df) in
    Series.assign_where
      (map (fun h => (h >=? OFF_HOURS_START)%Z && (h <=? OFF_HOURS_END)%Z)
           hour)
      f0_2 scores
  else scores.

Definition apply_rules (df : TxnFrame) : Series.t :=
  let combined :=
    Series.add
      (Series.add (_score_amount df) (_score_customer_velocity df))
      (_score_off_hours df) in
  Series.clip combined F64.zero f1_0.

End RuleEngine.

(** ** risk_engine.py *)

Module RiskEngine.

Definition RULE_WEIGHT : float := Eval vm_compute in F64.decimal 35 100.
Definition ML_WEIGHT : float := Eval vm_compute in F64.decimal 65 100.

Definition THRESHOLD_HIGH : float := Eval vm_compute in F64.decimal 70 100.
Definition THRESHOLD_MEDIUM : float := Eval vm_compute in F64.decimal 40 100.

Definition _compute_hybrid_score (rule_risk ml_probability : Series.t)
  : Series.t :=
  Series.clip
    (Series.add (Series.scale RULE_WEIGHT rule_risk)
                (Series.scale ML_WEIGHT ml_probability))
    F64.zero RuleEngine.f1_0.

(** One cell of [np.select(conditions, choices, default)]: the choice
    of the first condition that holds. *)
Fixpoint np_select (cases : list (bool * string)) (default : string)
  : string :=
  match cases with
  | [] => default
  | (c, choice) :: rest => if c then choice else np_select rest default
  end.

Definition _assign_risk_label (score : Series.t) : list string :=
  map (fun s =>
         np_select [ ((s >=? THRESHOLD_HIGH)%f64, "HIGH"%string);
                     ((s >=? THRESHOLD_MEDIUM)%f64, "MEDIUM"%string) ]
                   "LOW"%string)
      score.

End RiskEngine.

(** ** governance.py *)

Module Governance.

(** The raw table: named float64 columns (integer columns embed
    exactly); a missing value is NaN.  Rows hold one cell per column,
    in column order. *)
Record DataFrame : Type := mkDataFrame {
  columns : list string;
  rows : list (list float)
}.

Inductive Exception : Type :=
| ValueError (missing : list string)   (* schema violation *)
| KeyError (column : string)
| DuplicateLabels   (* ValueError: cannot reindex on an axis with
                       duplicate labels *)
| TypeError         (* to_timedelta: arg must be 1-d *)
| OutOfBoundsTimedelta
| OverflowError.    (* overflow in int64 addition *)

(** What the stages print. *)
Inductive Event : Type :=
| DroppedNulls (removed : nat)
| RemovedDuplicates (removed : nat)
| FilteredAmounts (removed : nat)
| ValidationComplete (records : nat).

(** Computations that print and may raise. *)
Definition M (A : Type) : Type := (list Event * (Exception + A))%type.

Definition ret {A : Type} (a : A) : M A := ([], inr a).

Definition bind {A B : Type} (m : M A) (k : A -> M B) : M B :=
  match m with
  | (out, inl e) => (out, inl e)
  | (out, inr a) => let (out', r) := k a in (out ++ out', r)
  end.

Definition raise {A : Type} (e : Exception) : M A := ([], inl e).

Definition print (e : Event) : M unit := ([e], inr tt).

Definition when (b : bool) (m : M unit) : M unit :=
  if b then m else ret tt.

Definition REQUIRED_COLUMNS : list string :=
  Eval vm_compute in
    (["Time"%string; "Amount"%string; "Class"%string]
     ++ map (fun i => ("V" ++ NilZero.string_of_uint (Nat.to_uint i))%string)
            (seq 1 28)).

Definition AMOUNT_CEILING : float := Eval vm_compute in F64.of_Z 50000.

Definition has_column (df : DataFrame) (col : string) : bool :=
  existsb (String.eqb col) (columns df).

Fixpoint index_of (col : string) (cols : list string) : option nat :=
  match cols with
  | [] => None
  | c :: cols' =>
      if String.eqb col c then Some O
      else option_map S (index_of col cols')
  end.

(** The cell of a row in the column at position [k]. *)
Definition cell (k : nat) (row : list float) : float := nth k row F64.nan.

(** How often the label [col] occurs among the columns. *)
Definition occurrences (col : string) (cols : list string) : nat :=
  count_occ string_dec cols col.

(** The cells of a row in the columns labelled [col]. *)
Definition cells_labelled (col : string) (cols : list string)
           (row : list float) : list float :=
  map snd (filter (fun lc : string * float => String.eqb col (fst lc))
                  (combine cols row)).

(** What [df[col]] yields: the column, when the label occurs once;
    the table made of the columns of that label, when it is
    repeated. *)
Inductive Selection : Type :=
| OneColumn (values : list float)
| SubFrame (labels : list string) (cells : list (list float)).

(** [df[col]] *)
Definition getitem (df : DataFrame) (col : string) : M Selection :=
  match index_of col (columns df) with
  | None => raise (KeyError col)
  | Some k =>
      if (occurrences col (columns df) =? 1)%nat
      then ret (OneColumn (map (cell k) (rows df)))
      else ret (SubFrame (filter (String.eqb col) (columns df))
                         (map (cells_labelled col (columns df)) (rows df)))
  end.

(** [df[mask]] for a boolean column [mask] *)
Fixpoint select_rows (mask : list bool) (rs : list (list float))
  : list (list float) :=
  match mask, rs with
  | b :: mask', r :: rs' =>
      if b then r :: select_rows mask' rs' else select_rows mask' rs'
  | _, _ => []
  end.

Definition boolean_index (df : DataFrame) (mask : list bool) : DataFrame :=
  mkDataFrame (columns df) (select_rows mask (rows df)).

(** [df.dropna()]: keep the rows without a missing cell. *)
Definition dropna (df : DataFrame) : DataFrame :=
  mkDataFrame (columns df)
    (filter (fun row => negb (existsb F64.is_nan row)) (rows df)).

(** Equality of cells as [drop_duplicates] sees it: equal numbers,
    or both missing. *)
Definition cell_eqb (x y : float) : bool :=
  (F64.is_nan x && F64.is_nan y) || (x =? y)%f64.

Fixpoint row_eqb (r1 r2 : list float) : bool :=
  match r1, r2 with
  | [], [] => true
  | x :: r1', y :: r2' => cell_eqb x y && row_eqb r1' r2'
  | _, _ => false
  end.

(** Keep the first occurrence of every row; [seen] holds the rows
    kept so far. *)
Fixpoint drop_duplicates_from (seen rs : list (list float))
  : list (list float) :=
  match rs with
  | [] => []
  | r :: rs' =>
      if existsb (row_eqb r) seen then drop_duplicates_from seen rs'
      else r :: drop_duplicates_from (r :: seen) rs'
  end.

(** [df.drop_duplicates()] *)
Definition drop_duplicates (df : DataFrame) : DataFrame :=
  mkDataFrame (columns df) (drop_duplicates_from [] (rows df)).

(** [Series.isin([0, 1])] *)
Definition isin_0_1 (x : float) : bool :=
  (x =? F64.of_Z 0)%f64 || (x =? F64.of_Z 1)%f64.

Notation "x <- c ;; k" := (bind c (fun x => k))
  (at level 61, c at next level, right associativity).

Definition _validate_schema (df : DataFrame) : M unit :=
  let missing :=
    filter (fun col => negb (has_column df col)) REQUIRED_COLUMNS in
  match missing with
  | [] => ret tt
  | _ :: _ => raise (ValueError missing)
  end.

Definition _drop_nulls (df : DataFrame) : M DataFrame :=
  let before := List.length (rows df) in
  let df := dropna df in
  let removed := (before - List.length (rows df))%nat in
  _ <- when (negb (removed =? 0)%nat) (print (DroppedNulls removed)) ;;
  ret df.

Definition _remove_duplicates (df : DataFrame) : M DataFrame :=
  let before := List.length (rows df) in
  let df := drop_duplicates df in
  let removed := (before - List.length (rows df))%nat in
  _ <- when (negb (removed =? 0)%nat) (print (RemovedDuplicates removed)) ;;
  ret df.

(** For a repeated label the comparisons (and [isin]) give a table
    of booleans, and [df[table]] aligns that table with [df] on the
    repeated label, which raises. *)
Definition _filter_invalid_amounts (df : DataFrame) : M DataFrame :=
  let before := List.length (rows df) in
  amount <- getitem df "Amount" ;;
  match amount with
  | OneColumn amount =>
      let mask :=
        map (fun a => (a >=? F64.zero)%f64 && (a <=? AMOUNT_CEILING)%f64)
            amount in
      let df := boolean_index df mask in
      let removed := (before - List.length (rows df))%nat in
      _ <- when (negb (removed =? 0)%nat) (print (FilteredAmounts removed)) ;;
      ret df
  | SubFrame _ _ => raise DuplicateLabels
  end.

Definition _filter_invalid_labels (df : DataFrame) : M DataFrame :=
  label <- getitem df "Class" ;;
  match label with
  | OneColumn label => ret (boolean_index df (map isin_0_1 label))
  | SubFrame _ _ => raise DuplicateLabels
  end.

Definition clean (df : DataFrame) : M DataFrame :=
  _ <- _validate_schema df ;;
  df <- _drop_nulls df ;;
  df <- _remove_duplicates df ;;
  df <- _filter_invalid_amounts df ;;
  df <- _filter_invalid_labels df ;;
  _ <- print (ValidationComplete (List.length (rows df))) ;;
  ret df.

(** *** The four row predicates, read off a row of a table whose
    columns are [cols] *)

Definition no_missing_value (row : list float) : bool :=
  negb (existsb F64.is_nan row).

Definition column_cell (cols : list string) (col : string)
           (row : list float) : float :=
  match index_of col cols with
  | Some k => cell k row
  | None => F64.nan
  end.

Definition amount_in_range (cols : list string) (row : list float) : bool :=
  let a := column_cell cols "Amount" row in
  (F64.zero <=? a)%f64 && (a <=? F64.of_Z 50000)%f64.

Definition label_is_binary (cols : list string) (row : list float) : bool :=
  let c := column_cell cols "Class" row in
  (c =? F64.of_Z 0)%f64 || (c =? F64.of_Z 1)%f64.

(** The four drop stages in the order of the specification: rows
    with a missing value, then duplicates, then amounts out of range,
    then labels outside {0,1}. *)
Definition staged_rows (cols : list string) (rs : list (list float))
  : list (list float) :=
  filter (label_is_binary cols)
    (filter (amount_in_range cols)
       (drop_duplicates_from []
          (filter no_missing_value rs))).

(** What the stage functions print when [before] rows shrink to
    [after] rows. *)
Definition removal_event (mk : nat -> Event) (before after : nat)
  : list Event :=
  if negb (before - after =? 0)%nat then [mk (before - after)%nat] else [].

(** No row of [rs] equals a row of [seen] or an earlier row of [rs]. *)
Fixpoint distinct_from (seen rs : list (list float)) : Prop :=
  match rs with
  | [] => True
  | r :: rs' =>
      existsb (row_eqb r) seen = false /\ distinct_from (r :: seen) rs'
  end.

End Governance.

(** ** Row-wise reading of the rule engine

    The rule engine is written with whole-column operations.  The
    functions below give the value it computes for one row from the
    row's amount, the frequency of its customer in the table and the
    hour of its timestamp; [apply_rules_rowwise] in part II relates the
    two. *)

Module RuleRow.

Import RuleEngine.

Definition amount_component (a : float) : float :=
  if (a >=? AMOUNT_VERY_HIGH)%f64 then f0_6
  else if (a >=? AMOUNT_HIGH)%f64 then f0_4
  else if (a >=? AMOUNT_MODERATE)%f64 then f0_2
  else F64.zero.

Definition velocity_component (freq : Z) : float :=
  if (freq >=? HIGH_VELOCITY_CUTOFF)%Z then f0_2 else F64.zero.

Definition off_hours_component (has_time : bool) (hour : Z) : float :=
  if has_time && ((hour >=? OFF_HOURS_START)%Z && (hour <=? OFF_HOURS_END)%Z)
  then f0_2 else F64.zero.

(** The sum the rule engine forms before clamping. *)
Definition raw_sum (has_time : bool) (a : float) (freq hour : Z) : float :=
  (amount_component a + velocity_component freq
   + off_hours_component has_time hour)%f64.

Definition rule_score (has_time : bool) (a : float) (freq hour : Z) : float :=
  Series.clip1 F64.zero f1_0 (raw_sum has_time a freq hour).

(** Frequency of the customer of row [t] in table [df]. *)
Definition customer_frequency (df : TxnFrame) (t : Txn) : Z :=
  value_counts (map customer_id (txns df)) (customer_id t).

Definition row_score (df : TxnFrame) (t : Txn) : float :=
  rule_score (has_transaction_time df) (Amount t)
             (customer_frequency df t) (dt_hour (transaction_time t)).

(** [0.4 + 0.2] in binary64, one unit in the last place above [0.6]. *)
Definition f0_6_up : float := Eval vm_compute in (f0_4 + f0_2)%f64.
Definition f0_8 : float := Eval vm_compute in F64.decimal 8 10.

End RuleRow.

(** ** The scored table *)

Record ScoredTxn : Type := mkScoredTxn {
  base : Txn;
  rule_risk : float;
  ml_probability : float;
  final_risk_score : float;
  risk_label : string
}.

Record ScoredFrame : Type := mkScoredFrame {
  scored_has_transaction_time : bool;
  scored : list ScoredTxn
}.

(** ** Grouping and sorting of rows *)

Section Sorting.

Variable A : Type.
Variable leb : A -> A -> bool.

Fixpoint insert_sorted (x : A) (l : list A) : list A :=
  match l with
  | [] => [x]
  | y :: l' => if leb x y then x :: l else y :: insert_sorted x l'
  end.

(** Insertion sort: ascending for [leb], stable. *)
Definition isort (l : list A) : list A := fold_right insert_sorted [] l.

End Sorting.

Section GroupBy.

Variables K R : Type.
Variable K_eq_dec : forall x y : K, {x = y} + {x <> y}.
Variable K_leb : K -> K -> bool.
Variable key : R -> K.

(** [df.groupby(key)]: the distinct keys in ascending order, each with
    its rows in table order. *)
Definition groupby (rs : list R) : list (K * list R) :=
  map (fun k => (k, filter (fun r => if K_eq_dec (key r) k then true else false)
                           rs))
      (isort K_leb (nodup K_eq_dec (map key rs))).

End GroupBy.

(** ** risk_metrics.py *)

Module RiskMetrics.

(** One row of the grouped table before the derived columns: merchant
    identifier, [total_transactions], [avg_risk], [fraud_count],
    [avg_amount]. *)
Record MerchantAgg : Type := mkMerchantAgg {
  agg_merchant_id : string;
  agg_total_transactions : Z;
  agg_avg_risk : float;
  agg_fraud_count : Z;
  agg_avg_amount : float
}.

(** One row of the merchant ranking. *)
Record MerchantRank : Type := mkMerchantRank {
  mr_merchant_id : string;
  mr_total_transactions : Z;
  mr_avg_risk : float;
  mr_fraud_count : Z;
  mr_avg_amount : float;
  mr_fraud_rate : float
}.

(** One row of the daily trend; [tr_date] counts days since the epoch. *)
Record TrendPoint : Type := mkTrendPoint {
  tr_date : Z;
  tr_avg_risk : float;
  tr_fraud_count : Z;
  tr_transaction_count : Z
}.

(** The returned trend table: column names and rows. *)
Record TrendFrame : Type := mkTrendFrame {
  trend_columns : list string;
  trend_rows : list TrendPoint
}.

(** [count]: the number of values that are not missing. *)
Definition count (xs : list float) : Z :=
  Z.of_nat (List.length (filter (fun x => negb (F64.is_nan x)) xs)).

(** [sum] of an int64 column *)
Definition sum (xs : list Z) : Z := fold_right Z.add 0%Z xs.

Section Aggregations.

(** [mean] of a float64 column as pandas computes it; the summation
    order is the library's. *)
Variable mean : list float -> float.

(** [sort_values("avg_risk", ascending=False)]; the routine is the
    library's, and [stable_sort_descending] below is the order it
    produces. *)
Variable sort_by_avg_risk_descending : list MerchantAgg -> list MerchantAgg.

Definition merchant_groups (df : ScoredFrame)
  : list (string * list ScoredTxn) :=
  groupby string_dec String.leb (fun r => merchant_id (base r)) (scored df).

Definition merchant_agg (g : string * list ScoredTxn) : MerchantAgg :=
  mkMerchantAgg (fst g)
    (count (map final_risk_score (snd g)))
    (mean (map final_risk_score (snd g)))
    (sum (map (fun r => Class_ (base r)) (snd g)))
    (mean (map (fun r => Amount (base r)) (snd g))).

Definition merchant_ranking (df : ScoredFrame) : list MerchantRank :=
  let ranking :=
    sort_by_avg_risk_descending (map merchant_agg (merchant_groups df)) in
  let ranking :=
    map (fun r =>
           mkMerchantRank (agg_merchant_id r) (agg_total_transactions r)
             (agg_avg_risk r) (agg_fraud_count r) (agg_avg_amount r)
             (F64.round (F64.of_Z (agg_fraud_count r)
                         / F64.of_Z (agg_total_transactions r))%f64 4))
        ranking in
  map (fun r =>
         mkMerchantRank (mr_merchant_id r) (mr_total_transactions r)
           (F64.round (mr_avg_risk r) 4) (mr_fraud_count r)
           (F64.round (mr_avg_amount r) 2) (mr_fraud_rate r))
      ranking.

Definition date_groups (df : ScoredFrame) : list (Z * list ScoredTxn) :=
  groupby Z.eq_dec Z.leb
    (fun r => dt_date (transaction_time (base r))) (scored df).

Definition trend_point (g : Z * list ScoredTxn) : TrendPoint :=
  mkTrendPoint (fst g)
    (mean (map final_risk_score (snd g)))
    (sum (map (fun r => Class_ (base r)) (snd g)))
    (count (map final_risk_score (snd g))).

(** [sort_values("date")]: the dates of the grouped table are pairwise
    distinct, so every sorting routine returns the same table;
    insertion sort stands for it. *)
Definition sort_by_date (rows : list TrendPoint) : list TrendPoint :=
  isort (fun a b => (tr_date a <=? tr_date b)%Z) rows.

Definition TREND_COLUMNS : list string :=
  ["date"; "avg_risk"; "fraud_count"; "transaction_count"]%string.

Definition daily_risk_trend (df : ScoredFrame) : TrendFrame :=
  let _empty := mkTrendFrame TREND_COLUMNS [] in
  if negb (scored_has_transaction_time df) then _empty
  else
    let trend := sort_by_date (map trend_point (date_groups df)) in
    mkTrendFrame TREND_COLUMNS
      (map (fun p =>
              mkTrendPoint (tr_date p) (F64.round (tr_avg_risk p) 4)
                (tr_fraud_count p) (tr_transaction_count p))
           trend).

End Aggregations.


(** The rows of calendar date [d], in table order. *)
Definition rows_of_date (df : ScoredFrame) (d : Z) : list ScoredTxn :=
  filter (fun r => if Z.eq_dec (dt_date (transaction_time (base r))) d
                   then true else false)
         (scored df).

(** The ranking row made from a grouped row: derived fraud rate and
    rounded display columns. *)
Definition ranking_row (a : MerchantAgg) : MerchantRank :=
  mkMerchantRank (agg_merchant_id a) (agg_total_transactions a)
    (F64.round (agg_avg_risk a) 4) (agg_fraud_count a)
    (F64.round (agg_avg_amount a) 2)
    (F64.round (F64.of_Z (agg_fraud_count a)
                / F64.of_Z (agg_total_transactions a))%f64 4).

(** A summation order for [mean], used where a concrete table is
    evaluated: left to right over the values that are not missing. *)
Definition naive_mean (xs : list float) : float :=
  let present := filter (fun x => negb (F64.is_nan x)) xs in
  (fold_left F64.add present F64.zero
   / F64.of_Z (Z.of_nat (List.length present)))%f64.

(** The order [sort_values("avg_risk", ascending=False)] produces:
    pandas sets the rows whose [avg_risk] is missing aside and places
    them last, in the order they had; the other rows come in
    descending order of [avg_risk], rows of equal [avg_risk] in the
    order they had. *)
Definition by_risk_descending (a b : MerchantAgg) : bool :=
  (agg_avg_risk a >=? agg_avg_risk b)%f64.

Definition has_avg_risk (a : MerchantAgg) : bool :=
  negb (F64.is_nan (agg_avg_risk a)).

Definition lacks_avg_risk (a : MerchantAgg) : bool :=
  F64.is_nan (agg_avg_risk a).

Definition stable_sort_descending (rows : list MerchantAgg)
  : list MerchantAgg :=
  isort by_risk_descending (filter has_avg_risk rows)
  ++ filter lacks_avg_risk rows.




End RiskMetrics.

(** ** agent.py *)

Module Agent.

(** The keys of the metrics dictionary that the agent reads; [None]
    stands for an absent key. *)
Record Metrics : Type := mkMetrics {
  fraud_rate : option float;
  avg_risk : option float;
  merchant_ranking : option (list RiskMetrics.MerchantRank);
  daily_risk_trend : option RiskMetrics.TrendFrame
}.

(** [metrics.get(key, default)] *)
Definition get {A : Type} (entry : option A) (default : A) : A :=
  match entry with
  | Some v => v
  | None => default
  end.

(** [pd.DataFrame()] *)
Definition empty_ranking : list RiskMetrics.MerchantRank := [].
Definition empty_trend : RiskMetrics.TrendFrame :=
  RiskMetrics.mkTrendFrame [] [].

(** [df.empty]: no column or no row. *)
Definition trend_is_empty (df : RiskMetrics.TrendFrame) : bool :=
  (List.length (RiskMetrics.trend_columns df) =? 0)%nat
  || (List.length (RiskMetrics.trend_rows df) =? 0)%nat.

(** [df.tail(n)] and [df.head(n)] on rows *)
Definition tail {A : Type} (n : nat) (l : list A) : list A :=
  skipn (List.length l - n) l.
Definition head {A : Type} (n : nat) (l : list A) : list A := firstn n l.

Section Formatting.

(** Python's [format(x, ".Nf")] and [format(n, ",")], and pandas'
    [Series.mean]: library functions whose results are only placed into
    the messages or compared. *)
Variable format_fixed : nat -> float -> string.
Variable format_grouped : Z -> string.
Variable mean : list float -> float.

Definition _pct (value : float) : string :=
  (format_fixed 2 (value * F64.of_Z 100)%f64 ++ "%")%string.

Definition _score (value : float) : string := format_fixed 4 value.

Definition _insight_fraud_rate (fraud_rate : float) : string :=
  if (fraud_rate >? F64.decimal 5 100)%f64 then
    ("ALERT: Fraud rate is critically elevated at " ++ _pct fraud_rate ++ ". "
     ++ "Immediate escalation and manual case review are recommended.")%string
  else if (fraud_rate >? F64.decimal 1 100)%f64 then
    ("WARNING: Fraud rate is above normal at " ++ _pct fraud_rate ++ ". "
     ++ "Increase monitoring frequency and review flagged merchants.")%string
  else
    ("Fraud rate is within acceptable bounds at " ++ _pct fraud_rate ++ ". "
     ++ "No systemic fraud pattern detected.")%string.

Definition _insight_avg_risk (avg_risk : float) : string :=
  if (avg_risk >? F64.decimal 70 100)%f64 then
    ("ALERT: Portfolio-wide average risk score is HIGH ("
     ++ _score avg_risk ++ "). "
     ++ "Review top-ranked merchants and consider tightening transaction limits."
    )%string
  else if (avg_risk >? F64.decimal 40 100)%f64 then
    ("WARNING: Portfolio average risk score is MODERATE ("
     ++ _score avg_risk ++ "). "
     ++ "Monitor borderline merchants proactively.")%string
  else
    ("Portfolio average risk score is LOW (" ++ _score avg_risk ++ "). "
     ++ "System operating within normal risk parameters.")%string.

Definition _insight_top_merchant (merchant_df : list RiskMetrics.MerchantRank)
  : string :=
  match merchant_df with
  | [] => "No merchant data available for analysis."%string
  | top :: _ =>
      ("Highest-risk merchant: " ++ RiskMetrics.mr_merchant_id top ++ " — "
       ++ "avg risk score " ++ _score (RiskMetrics.mr_avg_risk top) ++ ", "
       ++ format_grouped (RiskMetrics.mr_total_transactions top)
       ++ " transactions, "
       ++ "fraud rate " ++ _pct (RiskMetrics.mr_fraud_rate top) ++ ".")%string
  end.

Definition _insight_risk_trend (trend_df : RiskMetrics.TrendFrame) : string :=
  let rows := RiskMetrics.trend_rows trend_df in
  if trend_is_empty trend_df || (List.length rows <? 2)%nat then
    "Insufficient time-series data for trend analysis."%string
  else
    let recent_avg := mean (map RiskMetrics.tr_avg_risk (tail 3 rows)) in
    let baseline_avg := mean (map RiskMetrics.tr_avg_risk (head 3 rows)) in
    if (recent_avg >? baseline_avg * F64.decimal 110 100)%f64 then
      ("WARNING: Risk trend is INCREASING. "
       ++ "Recent avg: " ++ _score recent_avg
       ++ " vs baseline: " ++ _score baseline_avg ++ ". "
       ++ "Investigate recent activity spikes and new merchant patterns."
      )%string
    else if (recent_avg <? baseline_avg * F64.decimal 90 100)%f64 then
      ("Risk trend is DECREASING. "
       ++ "Recent avg: " ++ _score recent_avg
       ++ " vs baseline: " ++ _score baseline_avg ++ ". "
       ++ "Risk controls appear to be working effectively.")%string
    else
      ("Risk trend is STABLE. "
       ++ "Recent avg: " ++ _score recent_avg
       ++ " is consistent with baseline: " ++ _score baseline_avg ++ "."
      )%string.

Definition generate_insights (metrics : Metrics) : list string :=
  [ _insight_fraud_rate (get (fraud_rate metrics) F64.zero);
    _insight_avg_risk (get (avg_risk metrics) F64.zero);
    _insight_top_merchant (get (merchant_ranking metrics) empty_ranking);
    _insight_risk_trend (get (daily_risk_trend metrics) empty_trend) ].

End Formatting.

(** Stand-ins for the formatting functions where a concrete snapshot is
    evaluated; the properties proved do not depend on them. *)
Definition blank_fixed (digits : nat) (x : float) : string := "?"%string.
Definition blank_grouped (n : Z) : string := "?"%string.

End Agent.

(** ** schema.py *)

Module Schema.

Definition NUM_MERCHANTS : nat := 20.
Definition NUM_CUSTOMERS : nat := 200.
Definition RANDOM_SEED : Z := 42.

(** [pd.Timestamp("2024-01-01 00:00:00")] *)
Definition BASE_DATETIME : Timestamp := (1704067200 * 1000000000)%Z.

(** Cells of the enriched table: float64, str, datetime64 and the
    missing timestamp. *)
Inductive cell : Type :=
| Num (x : float)
| Str (s : string)
| Stamp (t : Timestamp)
| NaT.

(** The enriched table, held as pandas holds it: by column, in column
    order. *)
Record DataFrame : Type := mkDataFrame {
  nrows : nat;
  data : list (string * list cell)
}.

Definition columns (df : DataFrame) : list string := map fst (data df).

(** The column [c] carries the label [name]. *)
Definition labelled (name : string) (c : string * list cell) : bool :=
  String.eqb name (fst c).

(** The columns labelled [name], in column order: none, one, or
    several when the label is repeated. *)
Definition columns_labelled (name : string) (df : DataFrame)
  : list (list cell) :=
  map snd (filter (labelled name) (data df)).

Definition assign (name : string) (values : list cell)
           (cols : list (string * list cell)) : list (string * list cell) :=
  if existsb (labelled name) cols
  then map (fun c => if labelled name c then (fst c, values) else c) cols
  else cols ++ [(name, values)].

(** [df[name] = values] for an array of values: every column labelled
    [name] takes the values; without such a column the values become a
    new last column. *)
Definition setitem (name : string) (values : list cell) (df : DataFrame)
  : DataFrame :=
  mkDataFrame (nrows df) (assign name values (data df)).

(** [df.copy()] of the cleaned table. *)
Definition copy (df : Governance.DataFrame) : DataFrame :=
  mkDataFrame (List.length (Governance.rows df))
    (map (fun kn : nat * string =>
            (snd kn,
             map (fun row => Num (Governance.cell (fst kn) row))
                 (Governance.rows df)))
         (combine (seq 0 (List.length (Governance.columns df)))
                  (Governance.columns df))).

(** [str(i)] *)
Definition str (i : nat) : string := NilZero.string_of_uint (Nat.to_uint i).

Fixpoint zeros (n : nat) : string :=
  match n with
  | O => EmptyString
  | S n' => String "0" (zeros n')
  end.

(** [s.zfill(width)] for a string of digits *)
Definition zfill (width : nat) (s : string) : string :=
  (zeros (width - String.length s) ++ s)%string.

(** What the conversion of one number of seconds gives: a duration in
    nanoseconds, NaT for a missing number, or the
    [OutOfBoundsTimedelta] error. *)
Inductive Conversion : Type :=
| Nanoseconds (d : Z)
| Missing
| OutOfBounds.

Definition INT64_MIN : Z := (- 2 ^ 63)%Z.
Definition INT64_MAX : Z := (2 ^ 63 - 1)%Z.

(** An operation on every element of a column, in order; the first
    error is the one raised. *)
Fixpoint each {A B : Type} (f : A -> Governance.Exception + B) (l : list A)
  : Governance.Exception + list B :=
  match l with
  | [] => inr []
  | x :: l' =>
      match f x with
      | inl e => inl e
      | inr y =>
          match each f l' with
          | inl e => inl e
          | inr ys => inr (y :: ys)
          end
      end
  end.

Definition merchants : list string :=
  Eval vm_compute in
    map (fun i => ("MRC_" ++ zfill 3 (str i))%string) (seq 1 NUM_MERCHANTS).

Definition customers : list string :=
  Eval vm_compute in
    map (fun i => ("CUST_" ++ zfill 4 (str i))%string) (seq 1 NUM_CUSTOMERS).

Section Library.

(** numpy's generator: [np.random.default_rng(seed)] builds a state,
    [rng.choice(pool, size=n)] draws [n] elements and advances it. *)
Variable Generator : Type.
Variable default_rng : Z -> Generator.
Variable choice : Generator -> list string -> nat -> list string * Generator.

(** [pd.to_timedelta(x, unit="s")] of one number, as the library
    converts it. *)
Variable to_timedelta_seconds : float -> Conversion.

Definition _assign_merchant_ids (df : DataFrame) (rng : Generator)
  : DataFrame * Generator :=
  let (ids, rng) := choice rng merchants (nrows df) in
  (setitem "merchant_id" (map Str ids) df, rng).

Definition _assign_customer_ids (df : DataFrame) (rng : Generator)
  : DataFrame * Generator :=
  let (ids, rng) := choice rng customers (nrows df) in
  (setitem "customer_id" (map Str ids) df, rng).

(** One cell of [pd.to_timedelta(df["Time"], unit="s")]: a duration
    in nanoseconds or NaT ([None]); the conversion of the column raises
    at a number outside the range of durations.  (The offset column
    holds numbers.) *)
Definition to_timedelta (c : cell) : Governance.Exception + option Z :=
  match c with
  | Num x =>
      match to_timedelta_seconds x with
      | Nanoseconds d => inr (Some d)
      | Missing => inr None
      | OutOfBounds => inl Governance.OutOfBoundsTimedelta
      end
  | _ => inr None
  end.

(** One cell of [BASE_DATETIME + durations]: NaT stays NaT, and the
    addition of two int64 numbers of nanoseconds raises when the sum is
    not an int64. *)
Definition add_to_base (d : option Z) : Governance.Exception + cell :=
  match d with
  | None => inr NaT
  | Some d =>
      let t := (BASE_DATETIME + d)%Z in
      if (INT64_MIN <=? t)%Z && (t <=? INT64_MAX)%Z then inr (Stamp t)
      else inl Governance.OverflowError
  end.

(** [df["Time"]] is the column when the label occurs once; when the
    label is repeated it is a table, which [pd.to_timedelta]
    refuses. *)
Definition _add_transaction_time (df : DataFrame)
  : Governance.Exception + DataFrame :=
  match columns_labelled "Time" df with
  | [] => inl (Governance.KeyError "Time")
  | [time] =>
      match each to_timedelta time with
      | inl e => inl e
      | inr durations =>
          match each add_to_base durations with
          | inl e => inl e
          | inr stamps => inr (setitem "transaction_time" stamps df)
          end
      end
  | _ :: _ :: _ => inl Governance.TypeError
  end.

Definition enrich_schema (df : Governance.DataFrame)
  : Governance.Exception + DataFrame :=
  let df := copy df in
  let rng := default_rng RANDOM_SEED in
  let (df, rng) := _assign_merchant_ids df rng in
  let (df, rng) := _assign_customer_ids df rng in
  _add_transaction_time df.

(** The timestamp of a row with offset [x], where the conversion of
    the column succeeds. *)
Definition stamp_of_offset (x : float) : cell :=
  match to_timedelta_seconds x with
  | Nanoseconds d => Stamp (BASE_DATETIME + d)%Z
  | _ => NaT
  end.

(** The library converts the offset [x] (to a duration or to NaT). *)
Definition offset_in_bounds (x : float) : bool :=
  match to_timedelta_seconds x with
  | OutOfBounds => false
  | _ => true
  end.

(** The library converts the offset [x], and the reference instant
    plus the duration is an int64 number of nanoseconds. *)
Definition offset_in_range (x : float) : bool :=
  match to_timedelta_seconds x with
  | Nanoseconds d =>
      (INT64_MIN <=? BASE_DATETIME + d)%Z && (BASE_DATETIME + d <=? INT64_MAX)%Z
  | Missing => true
  | OutOfBounds => false
  end.

(** The two draws [enrich_schema] makes on a table of [n] rows. *)
Definition merchant_draw (n : nat) : list string * Generator :=
  choice (default_rng RANDOM_SEED) merchants n.

Definition customer_draw (n : nat) : list string * Generator :=
  choice (snd (merchant_draw n)) customers n.

End Library.

(** The three columns that enrichment writes. *)
Definition ENRICHED_COLUMNS : list string :=
  ["merchant_id"; "customer_id"; "transaction_time"]%string.

(** A generator used where a concrete table is evaluated: a counter,
    and draws that walk the pool cyclically from it. *)
Definition counter_rng (seed : Z) : nat := Z.to_nat seed.

Definition cyclic_choice (rng : nat) (pool : list string) (n : nat)
  : list string * nat :=
  (map (fun i => nth ((rng + i) mod List.length pool) pool EmptyString)
       (seq 0 n),
   (rng + n)%nat).

(** A conversion used where a concrete table is evaluated, exact for
    offsets of whole seconds: the offset in nanoseconds (fractions of a
    nanosecond cut off), out of bounds when that is not an int64 above
    the NaT value or the offset is infinite. *)
Definition whole_seconds (x : float) : Conversion :=
  match x with
  | S754_zero _ => Nanoseconds 0%Z
  | S754_finite s m e =>
      let magnitude :=
        if (0 <=? e)%Z then (Zpos m * 2 ^ e * 1000000000)%Z
        else (Zpos m * 1000000000 / 2 ^ (- e))%Z in
      if (magnitude <=? INT64_MAX)%Z
      then Nanoseconds (if s then - magnitude else magnitude)%Z
      else OutOfBounds
  | S754_infinity _ => OutOfBounds
  | S754_nan => Missing
  end.

End Schema.

(** ** Example tables used by the witnesses and counterexamples *)

(** A table of fifteen transactions of one customer, each of amount
    5000 at 03:00 on 2024-01-01. *)
Definition all_signals_row : Txn :=
  mkTxn (F64.of_Z 5000) 0 "MRC_001" "CUST_0001"
        (1704067200 * 1000000000 + 3 * NANOS_PER_HOUR)%Z.

Definition all_signals_frame : TxnFrame :=
  mkTxnFrame true (repeat all_signals_row 15).

(** The same fifteen transactions with amount 100. *)
Definition small_amount_row : Txn :=
  mkTxn (F64.of_Z 100) 0 "MRC_001" "CUST_0001"
        (1704067200 * 1000000000 + 3 * NANOS_PER_HOUR)%Z.

Definition small_amount_frame : TxnFrame :=
  mkTxnFrame true (repeat small_amount_row 15).

(** A single transaction of amount 5000 at 03:00. *)
Definition single_row_frame : TxnFrame :=
  mkTxnFrame true [all_signals_row].

(** A single transaction of amount 1000 at 03:00: the amount tier 0.4
    and the off-hours signal 0.2 fire. *)
Definition tier_and_off_hours_frame : TxnFrame :=
  mkTxnFrame true
    [mkTxn (F64.of_Z 1000) 0 "MRC_001" "CUST_0001"
           (1704067200 * 1000000000 + 3 * NANOS_PER_HOUR)%Z].

(** The value set the specification gives for the rule score. *)
Definition specified_rule_values : list float :=
  [F64.zero; RuleEngine.f0_2; RuleEngine.f0_4; RuleEngine.f0_6;
   RuleRow.f0_8; RuleEngine.f1_0].

(** The values the rule score takes in binary64. *)
Definition rule_values : list float :=
  [F64.zero; RuleEngine.f0_2; RuleEngine.f0_4; RuleEngine.f0_6;
   RuleRow.f0_6_up; RuleRow.f0_8; RuleEngine.f1_0].

(** Membership up to numeric equality. *)
Definition f64_mem (x : float) (l : list float) : bool :=
  existsb (fun y => (x =? y)%f64) l.

(** A raw row: time offset, amount, label and 28 features equal to
    [v]. *)
Definition raw_row (time amount label v : float) : list float :=
  time :: amount :: label :: repeat v 28.

(** A raw table with the required columns and six rows: a valid row,
    its duplicate, a row with a missing feature, a row with a negative
    amount, a row with label 2 and a second valid row. *)
Definition raw_frame : Governance.DataFrame :=
  Governance.mkDataFrame Governance.REQUIRED_COLUMNS
    [ raw_row (F64.of_Z 0) (F64.of_Z 100) (F64.of_Z 0) F64.zero;
      raw_row (F64.of_Z 0) (F64.of_Z 100) (F64.of_Z 0) F64.zero;
      raw_row (F64.of_Z 1) (F64.of_Z 100) (F64.of_Z 0) F64.nan;
      raw_row (F64.of_Z 2) (F64.of_Z (-5)) (F64.of_Z 0) F64.zero;
      raw_row (F64.of_Z 3) (F64.of_Z 100) (F64.of_Z 2) F64.zero;
      raw_row (F64.of_Z 4) (F64.of_Z 4000) (F64.of_Z 1) F64.zero ].

(** The table [raw_frame] with one more column, labelled Amount and
    holding the amounts once more. *)
Definition raw_frame_repeated_amount : Governance.DataFrame :=
  Governance.mkDataFrame (Governance.REQUIRED_COLUMNS ++ ["Amount"%string])
    (map (fun r => r ++ [Governance.cell 1 r]) (Governance.rows raw_frame)).

(** The table [raw_frame] with one more column, labelled Class and
    holding the labels once more. *)
Definition raw_frame_repeated_class : Governance.DataFrame :=
  Governance.mkDataFrame (Governance.REQUIRED_COLUMNS ++ ["Class"%string])
    (map (fun r => r ++ [Governance.cell 2 r]) (Governance.rows raw_frame)).

(** The same rows in a table that lacks the label column. *)
Definition raw_frame_without_label : Governance.DataFrame :=
  Governance.mkDataFrame
    (filter (fun c => negb (String.eqb c "Class")) Governance.REQUIRED_COLUMNS)
    (map (fun r => firstn 2 r ++ skipn 3 r) (Governance.rows raw_frame)).

(** A scored transaction of merchant [m] with label [c] and final score
    [s], at midnight of 2024-01-01. *)
Definition scored_row (m : string) (c : Z) (s : float) : ScoredTxn :=
  mkScoredTxn
    (mkTxn (F64.of_Z 100) c m "CUST_0001" (1704067200 * 1000000000)%Z)
    F64.zero s s "LOW".

(** One merchant, three transactions, one of them fraudulent. *)
Definition one_in_three_frame : ScoredFrame :=
  mkScoredFrame true
    [ scored_row "MRC_001" 1 (F64.decimal 1 2);
      scored_row "MRC_001" 0 (F64.decimal 1 2);
      scored_row "MRC_001" 0 (F64.decimal 1 2) ].

(** One transaction whose final score is the double nearest to 1/3. *)
Definition one_third_frame : ScoredFrame :=
  mkScoredFrame true [ scored_row "MRC_001" 0 (F64.decimal 1 3) ].

(** The same table without the timestamp column. *)
Definition untimed_frame : ScoredFrame :=
  mkScoredFrame false [ scored_row "MRC_001" 0 (F64.decimal 1 3) ].





(** Transactions on 2024-01-02 and 2024-01-01, in that order. *)
Definition two_day_frame : ScoredFrame :=
  mkScoredFrame true
    [ mkScoredTxn
        (mkTxn (F64.of_Z 100) 1 "MRC_001" "CUST_0001"
               (1704067200 * 1000000000 + NANOS_PER_DAY)%Z)
        F64.zero F64.zero (F64.decimal 1 2) "MEDIUM";
      scored_row "MRC_001" 0 (F64.decimal 1 4);
      scored_row "MRC_002" 0 (F64.decimal 1 4) ].


(** A column is none of the three that enrichment writes. *)
Definition not_enriched (c : string * list Schema.cell) : bool :=
  negb (existsb (String.eqb (fst c)) Schema.ENRICHED_COLUMNS).

(** A cleaned table of two rows with offsets of 3 and 7200 seconds. *)
Definition cleaned_frame : Governance.DataFrame :=
  Governance.mkDataFrame Governance.REQUIRED_COLUMNS
    [ raw_row (F64.of_Z 3) (F64.of_Z 100) (F64.of_Z 0) F64.zero;
      raw_row (F64.of_Z 7200) (F64.of_Z 4000) (F64.of_Z 1) F64.zero ].

(* ================================================================== *)
(** * Part I, continued: the remaining functions of the sources        *)
(* ================================================================== *)

(** [l1] is [l2] with some elements left out, the others in order. *)
Inductive Subsequence {A : Type} : list A -> list A -> Prop :=
| Subsequence_nil : Subsequence [] []
| Subsequence_skip (x : A) (l1 l2 : list A) :
    Subsequence l1 l2 -> Subsequence l1 (x :: l2)
| Subsequence_keep (x : A) (l1 l2 : list A) :
    Subsequence l1 l2 -> Subsequence (x :: l1) (x :: l2).

(** ** governance.py: what a run prints *)

Module GovernanceLog.

Import Governance.

(** The number of rows a printed message reports as removed. *)
Definition removed_rows (e : Event) : nat :=
  match e with
  | DroppedNulls n => n
  | RemovedDuplicates n => n
  | FilteredAmounts n => n
  | ValidationComplete _ => 0
  end.

Definition is_completion (e : Event) : bool :=
  match e with
  | ValidationComplete _ => true
  | _ => false
  end.

Definition total_removed (printed : list Event) : nat :=
  fold_right Nat.add 0%nat (map removed_rows printed).

End GovernanceLog.

(** ** rule_engine.py: tables used to evaluate the rule engine *)

(** The table [df] with the rows [more] appended. *)
Definition append_rows (df : TxnFrame) (more : list Txn) : TxnFrame :=
  mkTxnFrame (has_transaction_time df) (txns df ++ more).

(** A transaction of customer [c] with amount [a] at 12:00. *)
Definition noon_row (c : string) (a : Z) : Txn :=
  mkTxn (F64.of_Z a) 0 "MRC_001" c
        (1704067200 * 1000000000 + 12 * NANOS_PER_HOUR)%Z.

(** Two customers, three rows. *)
Definition two_customer_frame : TxnFrame :=
  mkTxnFrame true
    [noon_row "CUST_0001" 100; noon_row "CUST_0002" 2500;
     noon_row "CUST_0001" 5000].

(** The same rows in another order. *)
Definition two_customer_frame_reordered : TxnFrame :=
  mkTxnFrame true
    [noon_row "CUST_0001" 5000; noon_row "CUST_0001" 100;
     noon_row "CUST_0002" 2500].

(** Nine rows of one customer, without the timestamp column. *)
Definition nine_row_frame : TxnFrame :=
  mkTxnFrame false (repeat (noon_row "CUST_0001" 5000) 9).

(** ** risk_engine.py: the public entry point *)

Module Scoring.

Import RiskEngine.

(** [ValueError: Length of values (values) does not match length of
    index (index)], raised by [df[name] = array]. *)
Inductive ValueError : Type :=
| LengthMismatch (values index : nat).

(** The four risk columns, for a returned table whose original columns
    hold no value. *)
Record RiskColumns : Type := mkRiskColumns {
  rc_rule_risk : Series.t;
  rc_ml_probability : Series.t;
  rc_final_risk_score : Series.t;
  rc_risk_label : list string
}.

(** What a call does: it returns the table with the risk columns
    attached; or, for a table without rows, a table that took its index
    from the arrays and whose original columns are all missing; or it
    raises. *)
Inductive Outcome : Type :=
| Returned (out : ScoredFrame)
| Reindexed (has_time : bool) (risk : RiskColumns)
| Raised (e : ValueError).

(** The rows of the table with one value of each new column. *)
Definition attach (rows : list Txn) (rule ml final : Series.t)
           (label : list string) : list ScoredTxn :=
  map (fun x : Txn * (float * (float * (float * string))) =>
         let '(t, (r, (m, (f, l)))) := x in mkScoredTxn t r m f l)
      (combine rows (combine rule (combine ml (combine final label)))).

(** [df = df.copy()] followed by the four column assignments.  An
    assignment [df[name] = array] requires one value per row of [df];
    a table without rows and a non-empty array is the exception: the
    table takes the array's positions as its index, and the columns it
    had are filled with missing values. *)
Definition score_transactions (df : TxnFrame)
           (rule_risk ml_probability : Series.t) : Outcome :=
  let n := List.length (txns df) in
  let r := List.length rule_risk in
  let m := List.length ml_probability in
  let final := _compute_hybrid_score rule_risk ml_probability in
  let label := _assign_risk_label final in
  if (0 <? n)%nat || ((r =? 0)%nat && (m =? 0)%nat) then
    if negb (r =? n)%nat then Raised (LengthMismatch r n)
    else if negb (m =? n)%nat then Raised (LengthMismatch m n)
    else Returned (mkScoredFrame (has_transaction_time df)
                     (attach (txns df) rule_risk ml_probability final label))
  else if (0 <? r)%nat then
    if negb (m =? r)%nat then Raised (LengthMismatch m r)
    else Reindexed (has_transaction_time df)
           (mkRiskColumns rule_risk ml_probability final label)
  else
    Reindexed (has_transaction_time df)
      (mkRiskColumns (Series.full m F64.nan) ml_probability final label).

(** The label the ladder gives one score. *)
Definition label_of (s : float) : string :=
  np_select [ ((s >=? THRESHOLD_HIGH)%f64, "HIGH"%string);
              ((s >=? THRESHOLD_MEDIUM)%f64, "MEDIUM"%string) ]
            "LOW"%string.

(** The hybrid score of one row. *)
Definition hybrid_of (r m : float) : float :=
  Series.clip1 F64.zero RuleEngine.f1_0 (RULE_WEIGHT * r + ML_WEIGHT * m)%f64.

End Scoring.

(** ** risk_metrics.py: scalar metrics, the flagged listing and the
    payload *)

Module RiskMetricsMore.

Import RiskMetrics.

(** The table [high_risk_transactions] returns. *)
Record Listing : Type := mkListing {
  listing_columns : list string;
  listing_rows : list ScoredTxn
}.

(** The dictionary [compute_all] returns. *)
Record Payload : Type := mkPayload {
  p_avg_risk : float;
  p_fraud_rate : float;
  p_high_risk_count : Z;
  p_total_transactions : Z;
  p_merchant_ranking : list MerchantRank;
  p_daily_risk_trend : TrendFrame;
  p_high_risk_transactions : Listing
}.

(** The default [threshold=0.70]. *)
Definition DEFAULT_THRESHOLD : float := Eval vm_compute in F64.decimal 70 100.

(** [int(mask.sum())] for a boolean column *)
Definition count_true (mask : list bool) : Z :=
  sum (map (fun b : bool => if b then 1%Z else 0%Z) mask).

Definition high_risk_count (df : ScoredFrame) (threshold : float) : Z :=
  count_true (map (fun r => (final_risk_score r >=? threshold)%f64)
                  (scored df)).

Definition DISPLAY_COLS : list string :=
  ["transaction_time"; "merchant_id"; "customer_id"; "Amount"; "rule_risk";
   "ml_probability"; "final_risk_score"; "risk_label"; "Class"]%string.

(** [c in df.columns] for the columns the scored table holds. *)
Definition in_columns (df : ScoredFrame) (c : string) : bool :=
  if String.eqb c "transaction_time" then scored_has_transaction_time df
  else existsb (String.eqb c)
         ["Amount"; "Class"; "merchant_id"; "customer_id"; "rule_risk";
          "ml_probability"; "final_risk_score"; "risk_label"]%string.

Section Metrics.

(** [mean] of a float64 column and of the int64 column [Class], and
    the two [sort_values(..., ascending=False)] calls, as the library
    computes them. *)
Variable mean : list float -> float.
Variable mean_int : list Z -> float.
Variable sort_by_avg_risk_descending : list MerchantAgg -> list MerchantAgg.
Variable sort_by_score_descending : list ScoredTxn -> list ScoredTxn.

Definition avg_risk (df : ScoredFrame) : float :=
  mean (map final_risk_score (scored df)).

Definition fraud_rate (df : ScoredFrame) : float :=
  mean_int (map (fun r => Class_ (base r)) (scored df)).

Definition high_risk_transactions (df : ScoredFrame) (threshold : float)
  : Listing :=
  let available := filter (in_columns df) DISPLAY_COLS in
  mkListing available
    (sort_by_score_descending
       (filter (fun r => (final_risk_score r >=? threshold)%f64)
               (scored df))).

Definition compute_all (df : ScoredFrame) (threshold : float) : Payload :=
  mkPayload (avg_risk df) (fraud_rate df) (high_risk_count df threshold)
    (Z.of_nat (List.length (scored df)))
    (merchant_ranking mean sort_by_avg_risk_descending df)
    (daily_risk_trend mean df)
    (high_risk_transactions df threshold).

End Metrics.

(** A sorting routine for the listing, used where a concrete table is
    evaluated: stable insertion sort on descending score. *)
Definition stable_by_score (rows : list ScoredTxn) : list ScoredTxn :=
  isort (fun a b => (final_risk_score a >=? final_risk_score b)%f64) rows.

(** A mean of the label column, used where a concrete table is
    evaluated. *)
Definition naive_mean_int (xs : list Z) : float :=
  naive_mean (map F64.of_Z xs).

(** The number of rows labelled [lbl]. *)
Definition label_count (lbl : string) (rows : list ScoredTxn) : Z :=
  Z.of_nat (List.length
              (filter (fun r => String.eqb (risk_label r) lbl) rows)).

End RiskMetricsMore.

(** ** analytics_service.py and the insight panel of dashboard.py *)

Module AnalyticsService.

Import RiskMetrics RiskMetricsMore.

(** The keys of the payload that the agent reads. *)
Definition as_metrics (p : Payload) : Agent.Metrics :=
  Agent.mkMetrics (Some (p_fraud_rate p)) (Some (p_avg_risk p))
                  (Some (p_merchant_ranking p)) (Some (p_daily_risk_trend p)).

Section Service.

Variable format_fixed : nat -> float -> string.
Variable format_grouped : Z -> string.
Variable mean : list float -> float.
Variable mean_int : list Z -> float.
Variable sort_by_avg_risk_descending : list MerchantAgg -> list MerchantAgg.
Variable sort_by_score_descending : list ScoredTxn -> list ScoredTxn.

Definition get_ai_insights (df : ScoredFrame) (threshold : float)
  : list string :=
  let all_metrics :=
    compute_all mean mean_int sort_by_avg_risk_descending
                sort_by_score_descending df threshold in
  Agent.generate_insights format_fixed format_grouped mean
                          (as_metrics all_metrics).

End Service.

End AnalyticsService.

Module Dashboard.

(** The Streamlit alert components. *)
Inductive Widget : Type :=
| st_error
| st_warning
| st_info.

(** The component [render_ai_panel] chooses for one insight. *)
Definition widget_of (insight : string) : Widget :=
  if String.prefix "ALERT" insight then st_error
  else if String.prefix "WARNING" insight then st_warning
  else st_info.

(** The calls [render_ai_panel] makes, in order, for the insights it
    obtained: the component and the text shown in it. *)
Definition render_ai_panel (insights : list string)
  : list (Widget * string) :=
  map (fun insight =>
         if String.prefix "ALERT" insight
         then (st_error, "🚨 " ++ insight)
         else if String.prefix "WARNING" insight
         then (st_warning, "⚠️  " ++ insight)
         else (st_info, "ℹ️  " ++ insight))%string
      insights.

End Dashboard.

(** Scored tables used to evaluate the metrics. *)

(** Three rows with scores 0.25, NaN and 0.75. *)
Definition mixed_score_frame : ScoredFrame :=
  mkScoredFrame true
    [ scored_row "MRC_001" 0 (F64.decimal 1 4);
      scored_row "MRC_002" 1 F64.nan;
      scored_row "MRC_001" 1 (F64.decimal 3 4) ].

(** A scored table without rows. *)
Definition no_rows_frame : ScoredFrame := mkScoredFrame true [].

(** The table [two_customer_frame] scored with model probabilities 0,
    0.5 and 1. *)
Definition scored_two_customer_frame : ScoredFrame :=
  Eval vm_compute in
    match Scoring.score_transactions two_customer_frame
            (RuleEngine.apply_rules two_customer_frame)
            [F64.zero; F64.decimal 1 2; F64.of_Z 1] with
    | Scoring.Returned out => out
    | _ => mkScoredFrame false []
    end.

(** ** schema.py and rule_engine.py: offsets and the off-hours window *)

(** The first six hours of a day, in nanoseconds. *)
Definition OFF_HOURS_SPAN : Z := (6 * NANOS_PER_HOUR)%Z.

(** A table with one row, [d] nanoseconds after the reference instant. *)
Definition offset_frame (d : Z) : TxnFrame :=
  mkTxnFrame true
    [mkTxn (F64.of_Z 100) 0 "MRC_001" "CUST_0001" (Schema.BASE_DATETIME + d)%Z].

(** A table that [clean] returns unchanged, whose one row has the
    offset 10^19 seconds. *)
Definition far_offset_frame : Governance.DataFrame :=
  Governance.mkDataFrame Governance.REQUIRED_COLUMNS
    [ raw_row (F64.of_Z (10 ^ 19)) (F64.of_Z 100) (F64.of_Z 0) F64.zero ].
(* ================================================================== *)
(** * Part II: lemmas and theorems                                     *)
(* ================================================================== *)

(** ** Order on binary64 numbers *)

Ltac fold_pos_compare :=
  repeat match goal with
  | |- context [Pos.compare_cont Eq ?a ?b] =>
      change (Pos.compare_cont Eq a b) with (Pos.compare a b)
  | H : context [Pos.compare_cont Eq ?a ?b] |- _ =>
      change (Pos.compare_cont Eq a b) with (Pos.compare a b) in H
  end.

Ltac cmp_cases :=
  fold_pos_compare;
  repeat match goal with
  | |- context [Z.compare ?a ?b] => destruct (Z.compare_spec a b)
  | |- context [Pos.compare ?a ?b] => destruct (Pos.compare_spec a b)
  | H : context [Z.compare ?a ?b] |- _ => destruct (Z.compare_spec a b)
  | H : context [Pos.compare ?a ?b] |- _ => destruct (Pos.compare_spec a b)
  end; simpl in *; try reflexivity; try discriminate; try lia.

Ltac float_cases x := destruct x as [[]|[]| |[] ? ?].

Ltac f64_unfold :=
  unfold F64.geb, F64.gtb, F64.leb, F64.ltb, F64.eqb, SFleb, SFltb, SFeqb in *.

Lemma f64_leb_trans (x y z : float) :
  (x <=? y)%f64 = true -> (y <=? z)%f64 = true -> (x <=? z)%f64 = true.
Proof.
  f64_unfold.
  float_cases x; float_cases y; float_cases z;
    simpl; try reflexivity; try discriminate; intros H1 H2; cmp_cases.
Qed.

Lemma f64_ltb_leb_trans (x y z : float) :
  (x <? y)%f64 = true -> (y <=? z)%f64 = true -> (x <? z)%f64 = true.
Proof.
  f64_unfold.
  float_cases x; float_cases y; float_cases z;
    simpl; try reflexivity; try discriminate; intros H1 H2; cmp_cases.
Qed.

Lemma f64_ltb_not_geb (x y : float) :
  (x <? y)%f64 = true -> (x >=? y)%f64 = false.
Proof.
  f64_unfold.
  float_cases x; float_cases y;
    simpl; try reflexivity; try discriminate; intros H1; cmp_cases.
Qed.

Lemma f64_not_geb_ltb (x y : float) :
  F64.is_nan x = false -> F64.is_nan y = false ->
  (x >=? y)%f64 = false -> (x <? y)%f64 = true.
Proof.
  f64_unfold.
  float_cases x; float_cases y;
    simpl; try reflexivity; try discriminate; intros H1 H2 H3; cmp_cases.
Qed.

Lemma f64_leb_not_nan (x y : float) :
  (x <=? y)%f64 = true -> F64.is_nan x = false /\ F64.is_nan y = false.
Proof.
  f64_unfold. float_cases x; float_cases y; simpl; intros H;
    try discriminate; split; reflexivity.
Qed.

Lemma f64_leb_refl (x : float) : F64.is_nan x = false -> (x <=? x)%f64 = true.
Proof.
  f64_unfold. float_cases x; simpl; intros H; try discriminate;
    try reflexivity; cmp_cases.
Qed.

(** The constants of the sources are the binary64 values of their
    decimal literals. *)
Lemma literals_nearest :
  F64.nearest_to RuleEngine.f0_2 2 10 = true /\
  F64.nearest_to RuleEngine.f0_4 4 10 = true /\
  F64.nearest_to RuleEngine.f0_6 6 10 = true /\
  F64.nearest_to RuleRow.f0_8 8 10 = true /\
  F64.nearest_to RiskEngine.RULE_WEIGHT 35 100 = true /\
  F64.nearest_to RiskEngine.ML_WEIGHT 65 100 = true /\
  F64.nearest_to RiskEngine.THRESHOLD_HIGH 70 100 = true /\
  F64.nearest_to RiskEngine.THRESHOLD_MEDIUM 40 100 = true /\
  F64.nearest_to (F64.decimal 5 100) 5 100 = true /\
  F64.nearest_to (F64.decimal 1 100) 1 100 = true.
Proof. vm_compute. repeat split; reflexivity. Qed.

(** The binary64 sum [0.4 + 0.2] is the successor of the literal [0.6]:
    it prints as 0.6000000000000001. *)
Lemma f0_6_up_is_successor :
  SFsucc F64.prec F64.emax RuleEngine.f0_6 = RuleRow.f0_6_up /\
  F64.nearest_to RuleRow.f0_6_up 6000000000000001 10000000000000000 = true.
Proof. vm_compute. split; reflexivity. Qed.

(** ** Column operations over a common row list *)

Section SeriesOverRows.

Variable A : Type.
Variable l : list A.

Lemma series_full_map (v : float) :
  Series.full (List.length l) v = map (fun _ => v) l.
Proof.
  unfold Series.full. induction l as [|x xs IH]; simpl; [reflexivity|].
  now rewrite IH.
Qed.

Lemma series_assign_where_map (p : A -> bool) (v : float) (f : A -> float) :
  Series.assign_where (map p l) v (map f l)
  = map (fun x => if p x then v else f x) l.
Proof.
  induction l as [|x xs IH]; simpl; [reflexivity|]. now rewrite IH.
Qed.

Lemma series_add_map (f g : A -> float) :
  Series.add (map f l) (map g l) = map (fun x => (f x + g x)%f64) l.
Proof.
  induction l as [|x xs IH]; simpl; [reflexivity|]. now rewrite IH.
Qed.

End SeriesOverRows.

(** ** Rule engine *)

Lemma _score_amount_rowwise (df : TxnFrame) :
  RuleEngine._score_amount df
  = map (fun t => RuleRow.amount_component (Amount t)) (txns df).
Proof.
  unfold RuleEngine._score_amount, RuleRow.amount_component.
  rewrite series_full_map, !map_map.
  rewrite !series_assign_where_map. reflexivity.
Qed.

Lemma _score_customer_velocity_rowwise (df : TxnFrame) :
  RuleEngine._score_customer_velocity df
  = map (fun t => RuleRow.velocity_component (RuleRow.customer_frequency df t))
        (txns df).
Proof.
  unfold RuleEngine._score_customer_velocity, RuleRow.velocity_component,
    RuleRow.customer_frequency.
  rewrite series_full_map, !map_map.
  rewrite series_assign_where_map. reflexivity.
Qed.

Lemma _score_off_hours_rowwise (df : TxnFrame) :
  RuleEngine._score_off_hours df
  = map (fun t => RuleRow.off_hours_component (has_transaction_time df)
                    (dt_hour (transaction_time t)))
        (txns df).
Proof.
  unfold RuleEngine._score_off_hours, RuleRow.off_hours_component.
  rewrite series_full_map.
  destruct (has_transaction_time df); simpl; [|reflexivity].
  rewrite !map_map, series_assign_where_map. reflexivity.
Qed.

Lemma apply_rules_rowwise (df : TxnFrame) :
  RuleEngine.apply_rules df = map (RuleRow.row_score df) (txns df).
Proof.
  unfold RuleEngine.apply_rules.
  rewrite _score_amount_rowwise, _score_customer_velocity_rowwise,
    _score_off_hours_rowwise.
  rewrite !series_add_map. unfold Series.clip. rewrite map_map. reflexivity.
Qed.

(** The three components take finitely many values, so facts about
    their sum are settled by evaluating the sixteen combinations. *)

Lemma amount_component_cases (a : float) :
  RuleRow.amount_component a = F64.zero \/
  RuleRow.amount_component a = RuleEngine.f0_2 \/
  RuleRow.amount_component a = RuleEngine.f0_4 \/
  RuleRow.amount_component a = RuleEngine.f0_6.
Proof.
  unfold RuleRow.amount_component.
  destruct (a >=? RuleEngine.AMOUNT_VERY_HIGH)%f64; [tauto|].
  destruct (a >=? RuleEngine.AMOUNT_HIGH)%f64; [tauto|].
  destruct (a >=? RuleEngine.AMOUNT_MODERATE)%f64; tauto.
Qed.

Lemma velocity_component_cases (freq : Z) :
  RuleRow.velocity_component freq = F64.zero \/
  RuleRow.velocity_component freq = RuleEngine.f0_2.
Proof.
  unfold RuleRow.velocity_component.
  destruct (freq >=? RuleEngine.HIGH_VELOCITY_CUTOFF)%Z; tauto.
Qed.

Lemma off_hours_component_cases (has_time : bool) (hour : Z) :
  RuleRow.off_hours_component has_time hour = F64.zero \/
  RuleRow.off_hours_component has_time hour = RuleEngine.f0_2.
Proof.
  unfold RuleRow.off_hours_component.
  destruct (has_time && _); tauto.
Qed.

Ltac rule_components h a f hr :=
  unfold RuleRow.rule_score, RuleRow.raw_sum;
  destruct (amount_component_cases a) as [Ha|[Ha|[Ha|Ha]]];
  destruct (velocity_component_cases f) as [Hv|Hv];
  destruct (off_hours_component_cases h hr) as [Ho|Ho];
  rewrite Ha, Hv, Ho.

(** The clamp written as [min(1.0, .)]: on the sums that can occur the
    two agree. *)
Lemma rule_score_is_min (h : bool) (a : float) (f hr : Z) :
  RuleRow.rule_score h a f hr
  = F64.min RuleEngine.f1_0 (RuleRow.raw_sum h a f hr).
Proof.
  rule_components h a f hr; vm_compute; reflexivity.
Qed.

Lemma amount_component_mono (a a' : float) :
  (a <=? a')%f64 = true ->
  (RuleRow.amount_component a <=? RuleRow.amount_component a')%f64 = true.
Proof.
  intros Hle. unfold RuleRow.amount_component.
  assert (T : forall c, (a >=? c)%f64 = true -> (a' >=? c)%f64 = true).
  { intros c Hc. unfold F64.geb in *. fold (F64.leb c a) in Hc.
    fold (F64.leb c a'). eapply f64_leb_trans; eassumption. }
  destruct (a >=? RuleEngine.AMOUNT_VERY_HIGH)%f64 eqn:E3.
  { rewrite (T _ E3). reflexivity. }
  destruct (a >=? RuleEngine.AMOUNT_HIGH)%f64 eqn:E2.
  { rewrite (T _ E2).
    destruct (a' >=? RuleEngine.AMOUNT_VERY_HIGH)%f64; reflexivity. }
  destruct (a >=? RuleEngine.AMOUNT_MODERATE)%f64 eqn:E1.
  { rewrite (T _ E1).
    destruct (a' >=? RuleEngine.AMOUNT_VERY_HIGH)%f64; [reflexivity|].
    destruct (a' >=? RuleEngine.AMOUNT_HIGH)%f64; reflexivity. }
  destruct (a' >=? RuleEngine.AMOUNT_VERY_HIGH)%f64; [reflexivity|].
  destruct (a' >=? RuleEngine.AMOUNT_HIGH)%f64; [reflexivity|].
  destruct (a' >=? RuleEngine.AMOUNT_MODERATE)%f64; reflexivity.
Qed.

Lemma velocity_component_mono (f f' : Z) :
  (f <= f')%Z ->
  (RuleRow.velocity_component f <=? RuleRow.velocity_component f')%f64 = true.
Proof.
  intros Hle. unfold RuleRow.velocity_component,
    RuleEngine.HIGH_VELOCITY_CUTOFF.
  rewrite !Z.geb_leb.
  destruct (10 <=? f)%Z eqn:E; destruct (10 <=? f')%Z eqn:E';
    try reflexivity.
  apply Z.leb_le in E. apply Z.leb_gt in E'. lia.
Qed.

(** Raising one component never lowers the clamped sum. *)
Lemma rule_score_mono_amount (h : bool) (a a' : float) (f hr : Z) :
  (a <=? a')%f64 = true ->
  (RuleRow.rule_score h a f hr <=? RuleRow.rule_score h a' f hr)%f64 = true.
Proof.
  intros Hle. apply amount_component_mono in Hle. revert Hle.
  unfold RuleRow.rule_score, RuleRow.raw_sum.
  destruct (amount_component_cases a) as [Ha|[Ha|[Ha|Ha]]];
  destruct (amount_component_cases a') as [Ha'|[Ha'|[Ha'|Ha']]];
  destruct (velocity_component_cases f) as [Hv|Hv];
  destruct (off_hours_component_cases h hr) as [Ho|Ho];
  rewrite Ha, Ha', Hv, Ho; vm_compute; intros E;
    first [reflexivity | discriminate E].
Qed.

Lemma rule_score_mono_frequency (h : bool) (a : float) (f f' hr : Z) :
  (f <= f')%Z ->
  (RuleRow.rule_score h a f hr <=? RuleRow.rule_score h a f' hr)%f64 = true.
Proof.
  intros Hle. apply velocity_component_mono in Hle. revert Hle.
  unfold RuleRow.rule_score, RuleRow.raw_sum.
  destruct (amount_component_cases a) as [Ha|[Ha|[Ha|Ha]]];
  destruct (velocity_component_cases f) as [Hv|Hv];
  destruct (velocity_component_cases f') as [Hv'|Hv'];
  destruct (off_hours_component_cases h hr) as [Ho|Ho];
  rewrite Ha, Hv, Hv', Ho; vm_compute; intros E;
    first [reflexivity | discriminate E].
Qed.

Lemma rule_score_le_one (h : bool) (a : float) (f hr : Z) :
  (RuleRow.rule_score h a f hr <=? RuleEngine.f1_0)%f64 = true.
Proof. rule_components h a f hr; vm_compute; reflexivity. Qed.

Lemma rule_score_values (h : bool) (a : float) (f hr : Z) :
  In (RuleRow.rule_score h a f hr) rule_values /\
  RuleRow.rule_score h a f hr = RuleRow.raw_sum h a f hr /\
  (F64.zero <=? RuleRow.raw_sum h a f hr)%f64 = true /\
  (RuleRow.raw_sum h a f hr <=? RuleEngine.f1_0)%f64 = true.
Proof.
  rule_components h a f hr; vm_compute; intuition.
Qed.

Lemma apply_rules_nth (df : TxnFrame) (i : nat) (t : Txn) :
  nth_error (txns df) i = Some t ->
  nth_error (RuleEngine.apply_rules df) i = Some (RuleRow.row_score df t).
Proof.
  intros H. rewrite apply_rules_rowwise. now apply map_nth_error.
Qed.

Lemma amount_component_tiers (x : float) :
  ((x <? RuleEngine.AMOUNT_MODERATE)%f64 = true ->
     RuleRow.amount_component x = F64.zero) /\
  ((x >=? RuleEngine.AMOUNT_MODERATE)%f64 = true ->
   (x <? RuleEngine.AMOUNT_HIGH)%f64 = true ->
     RuleRow.amount_component x = RuleEngine.f0_2) /\
  ((x >=? RuleEngine.AMOUNT_HIGH)%f64 = true ->
   (x <? RuleEngine.AMOUNT_VERY_HIGH)%f64 = true ->
     RuleRow.amount_component x = RuleEngine.f0_4) /\
  ((x >=? RuleEngine.AMOUNT_VERY_HIGH)%f64 = true ->
     RuleRow.amount_component x = RuleEngine.f0_6).
Proof.
  assert (L12 : (RuleEngine.AMOUNT_MODERATE <=? RuleEngine.AMOUNT_HIGH)%f64
                = true) by reflexivity.
  assert (L23 : (RuleEngine.AMOUNT_HIGH <=? RuleEngine.AMOUNT_VERY_HIGH)%f64
                = true) by reflexivity.
  unfold RuleRow.amount_component. repeat split.
  - intros H1.
    pose proof (f64_ltb_leb_trans _ _ _ H1 L12) as H2.
    pose proof (f64_ltb_leb_trans _ _ _ H2 L23) as H3.
    now rewrite (f64_ltb_not_geb _ _ H1), (f64_ltb_not_geb _ _ H2),
      (f64_ltb_not_geb _ _ H3).
  - intros H1 H2.
    pose proof (f64_ltb_leb_trans _ _ _ H2 L23) as H3.
    now rewrite (f64_ltb_not_geb _ _ H2), (f64_ltb_not_geb _ _ H3), H1.
  - intros H2 H3. now rewrite (f64_ltb_not_geb _ _ H3), H2.
  - intros H3. now rewrite H3.
Qed.

(** C2: for every row of the table, [apply_rules] returns
    [min(1.0, amount + velocity + off_hours)].  The amount component is
    0.0 below 200, 0.2 on [200,1000), 0.4 on [1000,3000) and 0.6 from
    3000 on; the velocity component is 0.2 exactly when the row's
    customer identifier occurs at least 10 times in the table; the
    off-hours component is 0.2 exactly when the timestamp column is
    present and its hour lies in 0..5, and 0.0 for every row when the
    column is absent.  Sums are binary64 sums, formed left to right. *)
Theorem apply_rules_formula :
  forall (df : TxnFrame) (i : nat) (t : Txn),
    nth_error (txns df) i = Some t ->
    let x := Amount t in
    let n := count_occ string_dec (map customer_id (txns df)) (customer_id t) in
    let hour := dt_hour (transaction_time t) in
    exists a v o : float,
      nth_error (RuleEngine.apply_rules df) i
      = Some (F64.min RuleEngine.f1_0 (a + v + o)%f64) /\
      ((x <? F64.of_Z 200)%f64 = true -> a = F64.zero) /\
      ((F64.of_Z 200 <=? x)%f64 = true -> (x <? F64.of_Z 1000)%f64 = true ->
         a = F64.decimal 2 10) /\
      ((F64.of_Z 1000 <=? x)%f64 = true -> (x <? F64.of_Z 3000)%f64 = true ->
         a = F64.decimal 4 10) /\
      ((F64.of_Z 3000 <=? x)%f64 = true -> a = F64.decimal 6 10) /\
      v = (if (10 <=? n)%nat then F64.decimal 2 10 else F64.zero) /\
      o = (if has_transaction_time df
           then if ((0 <=? hour)%Z && (hour <=? 5)%Z)
                then F64.decimal 2 10 else F64.zero
           else F64.zero).
Proof.
  intros df i t Hi x n hour.
  exists (RuleRow.amount_component x),
         (RuleRow.velocity_component (RuleRow.customer_frequency df t)),
         (RuleRow.off_hours_component (has_transaction_time df) hour).
  destruct (amount_component_tiers x) as (T0 & T1 & T2 & T3).
  repeat split.
  - rewrite (apply_rules_nth _ _ Hi). unfold RuleRow.row_score.
    now rewrite rule_score_is_min.
  - exact T0.
  - exact T1.
  - exact T2.
  - exact T3.
  - unfold RuleRow.velocity_component, RuleRow.customer_frequency,
      RuleEngine.value_counts, RuleEngine.HIGH_VELOCITY_CUTOFF. fold n.
    rewrite Z.geb_leb.
    destruct (10 <=? n)%nat eqn:E.
    + apply Nat.leb_le in E.
      replace (10 <=? Z.of_nat n)%Z with true; [reflexivity|].
      symmetry. apply Z.leb_le. lia.
    + apply Nat.leb_gt in E.
      replace (10 <=? Z.of_nat n)%Z with false; [reflexivity|].
      symmetry. apply Z.leb_gt. lia.
  - unfold RuleRow.off_hours_component, RuleEngine.OFF_HOURS_START,
      RuleEngine.OFF_HOURS_END.
    rewrite Z.geb_leb. destruct (has_transaction_time df); reflexivity.
Qed.

Lemma apply_rules_formula_witness :
  exists a v o : float,
    nth_error (RuleEngine.apply_rules all_signals_frame) 0
    = Some (F64.min RuleEngine.f1_0 (a + v + o)%f64) /\
    a = F64.decimal 6 10 /\ v = F64.decimal 2 10 /\ o = F64.decimal 2 10.
Proof.
  destruct (apply_rules_formula all_signals_frame 0 (t := all_signals_row)
              eq_refl) as (a & v & o & H & _ & _ & _ & Ha & Hv & Ho).
  exists a, v, o. repeat split.
  - exact H.
  - apply Ha. vm_compute. reflexivity.
  - exact Hv.
  - exact Ho.
Defined.

(** C7: the rule score of a row never decreases when the row's amount
    grows with customer frequency and timestamp held fixed, never
    decreases when the customer frequency grows with amount and
    timestamp held fixed, and never exceeds 1.0; a row with amount 5000,
    a customer occurring 15 times and a timestamp at hour 3 scores
    exactly 1.0. *)
Theorem apply_rules_monotone_bounded :
  (forall (df df' : TxnFrame) (i j : nat) (t t' : Txn),
      nth_error (txns df) i = Some t ->
      nth_error (txns df') j = Some t' ->
      has_transaction_time df = has_transaction_time df' ->
      transaction_time t = transaction_time t' ->
      RuleRow.customer_frequency df t = RuleRow.customer_frequency df' t' ->
      (Amount t <=? Amount t')%f64 = true ->
      exists s s' : float,
        nth_error (RuleEngine.apply_rules df) i = Some s /\
        nth_error (RuleEngine.apply_rules df') j = Some s' /\
        (s <=? s')%f64 = true) /\
  (forall (df df' : TxnFrame) (i j : nat) (t t' : Txn),
      nth_error (txns df) i = Some t ->
      nth_error (txns df') j = Some t' ->
      has_transaction_time df = has_transaction_time df' ->
      transaction_time t = transaction_time t' ->
      Amount t = Amount t' ->
      (RuleRow.customer_frequency df t
       <= RuleRow.customer_frequency df' t')%Z ->
      exists s s' : float,
        nth_error (RuleEngine.apply_rules df) i = Some s /\
        nth_error (RuleEngine.apply_rules df') j = Some s' /\
        (s <=? s')%f64 = true) /\
  (forall (df : TxnFrame) (s : float),
      In s (RuleEngine.apply_rules df) -> (s <=? F64.of_Z 1)%f64 = true) /\
  (forall (df : TxnFrame) (i : nat) (t : Txn),
      nth_error (txns df) i = Some t ->
      Amount t = F64.of_Z 5000 ->
      count_occ string_dec (map customer_id (txns df)) (customer_id t)
      = 15%nat ->
      has_transaction_time df = true ->
      dt_hour (transaction_time t) = 3%Z ->
      nth_error (RuleEngine.apply_rules df) i = Some (F64.of_Z 1)).
Proof.
  repeat split.
  - intros df df' i j t t' Hi Hj Hh Ht Hf Ha.
    exists (RuleRow.row_score df t), (RuleRow.row_score df' t').
    rewrite (apply_rules_nth _ _ Hi), (apply_rules_nth _ _ Hj).
    repeat split. unfold RuleRow.row_score. rewrite Hh, Ht, Hf.
    now apply rule_score_mono_amount.
  - intros df df' i j t t' Hi Hj Hh Ht Ha Hf.
    exists (RuleRow.row_score df t), (RuleRow.row_score df' t').
    rewrite (apply_rules_nth _ _ Hi), (apply_rules_nth _ _ Hj).
    repeat split. unfold RuleRow.row_score. rewrite Hh, Ht, Ha.
    now apply rule_score_mono_frequency.
  - intros df s Hs. rewrite apply_rules_rowwise in Hs.
    apply in_map_iff in Hs. destruct Hs as (t & <- & _).
    apply rule_score_le_one.
  - intros df i t Hi Ha Hn Hh Hhr.
    rewrite (apply_rules_nth _ _ Hi). unfold RuleRow.row_score.
    unfold RuleRow.customer_frequency, RuleEngine.value_counts.
    rewrite Ha, Hn, Hh, Hhr. reflexivity.
Qed.

Lemma apply_rules_monotone_bounded_witness :
  (exists s s' : float,
      nth_error (RuleEngine.apply_rules small_amount_frame) 0 = Some s /\
      nth_error (RuleEngine.apply_rules all_signals_frame) 0 = Some s' /\
      (s <=? s')%f64 = true) /\
  (exists s s' : float,
      nth_error (RuleEngine.apply_rules single_row_frame) 0 = Some s /\
      nth_error (RuleEngine.apply_rules all_signals_frame) 0 = Some s' /\
      (s <=? s')%f64 = true) /\
  (RuleRow.f0_8 <=? F64.of_Z 1)%f64 = true /\
  nth_error (RuleEngine.apply_rules all_signals_frame) 0 = Some (F64.of_Z 1).
Proof.
  destruct apply_rules_monotone_bounded as (MA & MF & B & E).
  split; [|split; [|split]].
  - apply (MA small_amount_frame all_signals_frame 0%nat 0%nat
              small_amount_row all_signals_row);
      vm_compute; reflexivity.
  - apply (MF single_row_frame all_signals_frame 0%nat 0%nat
              all_signals_row all_signals_row);
      vm_compute; first [reflexivity | discriminate].
  - apply (B single_row_frame). vm_compute. left. reflexivity.
  - apply (E all_signals_frame 0%nat all_signals_row); vm_compute; reflexivity.
Defined.

(** C10, as the code has it: every value returned by [apply_rules] is
    one of 0.0, 0.2, 0.4, 0.6, 0.6000000000000001 (the binary64 sum
    0.4 + 0.2), 0.8 and 1.0; the raw sum of the three components is
    never negative and never exceeds 1.0, so the clamp changes no
    value. *)
Theorem apply_rules_value_set :
  forall df : TxnFrame,
    (forall s : float, In s (RuleEngine.apply_rules df) ->
        In s rule_values /\ f64_mem s rule_values = true) /\
    RuleEngine.apply_rules df
    = Series.add
        (Series.add (RuleEngine._score_amount df)
                    (RuleEngine._score_customer_velocity df))
        (RuleEngine._score_off_hours df) /\
    (forall s : float,
        In s (Series.add
                (Series.add (RuleEngine._score_amount df)
                            (RuleEngine._score_customer_velocity df))
                (RuleEngine._score_off_hours df)) ->
        (F64.zero <=? s)%f64 = true /\ (s <=? F64.of_Z 1)%f64 = true).
Proof.
  intros df.
  assert (R : Series.add
                (Series.add (RuleEngine._score_amount df)
                            (RuleEngine._score_customer_velocity df))
                (RuleEngine._score_off_hours df)
              = map (fun t => RuleRow.raw_sum (has_transaction_time df)
                                (Amount t) (RuleRow.customer_frequency df t)
                                (dt_hour (transaction_time t)))
                    (txns df)).
  { rewrite _score_amount_rowwise, _score_customer_velocity_rowwise,
      _score_off_hours_rowwise, !series_add_map. reflexivity. }
  split; [|split].
  - intros s H. rewrite apply_rules_rowwise in H. apply in_map_iff in H.
    destruct H as (t & <- & _). split; [apply rule_score_values|].
    unfold RuleRow.row_score.
    rule_components (has_transaction_time df) (Amount t)
      (RuleRow.customer_frequency df t) (dt_hour (transaction_time t));
      vm_compute; reflexivity.
  - rewrite R, apply_rules_rowwise. apply map_ext. intros t.
    apply rule_score_values.
  - intros s H. rewrite R in H. apply in_map_iff in H.
    destruct H as (t & <- & _).
    split; apply (rule_score_values (has_transaction_time df) (Amount t)).
Qed.

Lemma apply_rules_value_set_witness :
  In RuleRow.f0_6_up rule_values /\ f64_mem RuleRow.f0_6_up rule_values = true.
Proof.
  apply (apply_rules_value_set tier_and_off_hours_frame).
  vm_compute. left. reflexivity.
Defined.

(** C10 as stated fails: a transaction of amount 1000 at 03:00 scores
    0.4 + 0.2, which in binary64 is 0.6000000000000001 and is none of
    0.0, 0.2, 0.4, 0.6, 0.8, 1.0. *)
Lemma apply_rules_value_set_counterexample :
  RuleEngine.apply_rules tier_and_off_hours_frame = [RuleRow.f0_6_up] /\
  ~ In RuleRow.f0_6_up specified_rule_values /\
  f64_mem RuleRow.f0_6_up specified_rule_values = false /\
  (RuleEngine.f0_6 <? RuleRow.f0_6_up)%f64 = true.
Proof.
  repeat split; try (vm_compute; reflexivity).
  unfold specified_rule_values. simpl. intros H.
  repeat (destruct H as [H|H]; [discriminate H|]). exact H.
Qed.

(** ** Hybrid scorer *)

Lemma series_add_nth (a b : Series.t) (i : nat) (x y : float) :
  nth_error a i = Some x -> nth_error b i = Some y ->
  nth_error (Series.add a b) i = Some (x + y)%f64.
Proof.
  revert a b. induction i as [|i IH]; intros [|x' a] [|y' b] Ha Hb;
    simpl in *; try discriminate.
  - now inversion Ha; inversion Hb.
  - now apply IH.
Qed.

Lemma _compute_hybrid_score_nth (rule ml : Series.t) (i : nat) (r m : float) :
  nth_error rule i = Some r -> nth_error ml i = Some m ->
  nth_error (RiskEngine._compute_hybrid_score rule ml) i
  = Some (Series.clip1 F64.zero RuleEngine.f1_0
            (RiskEngine.RULE_WEIGHT * r + RiskEngine.ML_WEIGHT * m)%f64).
Proof.
  intros Hr Hm. unfold RiskEngine._compute_hybrid_score, Series.clip.
  apply map_nth_error. apply series_add_nth; unfold Series.scale.
  - now apply (map_nth_error (fun x => (RiskEngine.RULE_WEIGHT * x)%f64)).
  - now apply (map_nth_error (fun x => (RiskEngine.ML_WEIGHT * x)%f64)).
Qed.

(** The label of one score, as [_assign_risk_label] computes it. *)
Lemma risk_label_ladder (s : float) :
  let lbl :=
    RiskEngine.np_select
      [ ((s >=? RiskEngine.THRESHOLD_HIGH)%f64, "HIGH"%string);
        ((s >=? RiskEngine.THRESHOLD_MEDIUM)%f64, "MEDIUM"%string) ]
      "LOW"%string in
  (lbl = "HIGH"%string <-> (s >=? RiskEngine.THRESHOLD_HIGH)%f64 = true) /\
  (lbl = "MEDIUM"%string <->
     (s >=? RiskEngine.THRESHOLD_MEDIUM)%f64 = true /\
     (s <? RiskEngine.THRESHOLD_HIGH)%f64 = true) /\
  (lbl = "LOW"%string <-> (s >=? RiskEngine.THRESHOLD_MEDIUM)%f64 = false).
Proof.
  assert (L : (RiskEngine.THRESHOLD_MEDIUM <=? RiskEngine.THRESHOLD_HIGH)%f64
              = true) by reflexivity.
  simpl.
  destruct (s >=? RiskEngine.THRESHOLD_HIGH)%f64 eqn:EH.
  - assert (EM : (s >=? RiskEngine.THRESHOLD_MEDIUM)%f64 = true).
    { unfold F64.geb in *. fold (F64.leb RiskEngine.THRESHOLD_MEDIUM s).
      eapply f64_leb_trans; [exact L|exact EH]. }
    rewrite EM. repeat split; try discriminate; try reflexivity.
    + intros [_ Hlt]. apply f64_ltb_not_geb in Hlt. congruence.
  - destruct (s >=? RiskEngine.THRESHOLD_MEDIUM)%f64 eqn:EM.
    + repeat split; try discriminate; try reflexivity.
      apply f64_not_geb_ltb; [|reflexivity|exact EH].
      unfold F64.geb in EM. fold (F64.leb RiskEngine.THRESHOLD_MEDIUM s) in EM.
      now apply f64_leb_not_nan in EM.
    + repeat split; try discriminate; try reflexivity.
      intros [H _]. discriminate H.
Qed.

(** C1: for every row, [final_risk_score] is
    [clip(0.35 * rule_risk + 0.65 * ml_probability, 0, 1)]; its label is
    HIGH exactly when the score is at least 0.70, MEDIUM exactly when it
    is at least 0.40 and below 0.70, and LOW otherwise; a score equal to
    a threshold receives the higher tier.  This holds for all binary64
    inputs, in particular for those in [0,1]. *)
Theorem hybrid_score_and_label :
  (forall (rule_risk ml_probability : Series.t) (i : nat) (r m : float),
      nth_error rule_risk i = Some r ->
      nth_error ml_probability i = Some m ->
      exists (s : float) (lbl : string),
        s = Series.clip1 F64.zero (F64.of_Z 1)
              (F64.decimal 35 100 * r + F64.decimal 65 100 * m)%f64 /\
        nth_error (RiskEngine._compute_hybrid_score rule_risk ml_probability) i
        = Some s /\
        nth_error
          (RiskEngine._assign_risk_label
             (RiskEngine._compute_hybrid_score rule_risk ml_probability)) i
        = Some lbl /\
        (lbl = "HIGH"%string <-> (s >=? F64.decimal 70 100)%f64 = true) /\
        (lbl = "MEDIUM"%string <->
           (F64.decimal 40 100 <=? s)%f64 = true /\
           (s <? F64.decimal 70 100)%f64 = true) /\
        (lbl = "LOW"%string <->
           lbl <> "HIGH"%string /\ lbl <> "MEDIUM"%string)) /\
  RiskEngine._assign_risk_label [F64.decimal 70 100; F64.decimal 40 100]
  = ["HIGH"%string; "MEDIUM"%string].
Proof.
  split; [|reflexivity].
  intros rule ml i r m Hr Hm.
  pose proof (_compute_hybrid_score_nth _ _ _ Hr Hm) as Hs.
  set (s := Series.clip1 F64.zero RuleEngine.f1_0
              (RiskEngine.RULE_WEIGHT * r + RiskEngine.ML_WEIGHT * m)%f64) in *.
  destruct (risk_label_ladder s) as (LH & LM & LL).
  eexists s, _. split; [reflexivity|]. split; [exact Hs|].
  split.
  { unfold RiskEngine._assign_risk_label. apply map_nth_error. exact Hs. }
  split; [exact LH|]. split; [exact LM|].
  rewrite LH, LM, LL.
  destruct (s >=? RiskEngine.THRESHOLD_MEDIUM)%f64 eqn:EM.
  - split; [discriminate|]. intros [NH NM]. exfalso.
    destruct (s >=? RiskEngine.THRESHOLD_HIGH)%f64 eqn:EH;
      [now apply NH|].
    apply NM. split; [reflexivity|].
    apply f64_not_geb_ltb; [|reflexivity|exact EH].
    unfold F64.geb in EM. fold (F64.leb RiskEngine.THRESHOLD_MEDIUM s) in EM.
    now apply f64_leb_not_nan in EM.
  - split; [|reflexivity]. intros _. split.
    + intros EH. apply LH in EH.
      assert (EL : RiskEngine.np_select
                     [((s >=? RiskEngine.THRESHOLD_HIGH)%f64, "HIGH"%string);
                      (false, "MEDIUM"%string)] "LOW"%string = "LOW"%string)
        by now apply LL.
      rewrite EH in EL. discriminate EL.
    + intros [H _]. discriminate H.
Qed.

Lemma hybrid_score_and_label_witness :
  exists (s : float) (lbl : string),
    nth_error (RiskEngine._compute_hybrid_score [F64.of_Z 1] [F64.of_Z 1]) 0
    = Some s /\
    nth_error
      (RiskEngine._assign_risk_label
         (RiskEngine._compute_hybrid_score [F64.of_Z 1] [F64.of_Z 1])) 0
    = Some lbl /\
    s = F64.of_Z 1 /\ lbl = "HIGH"%string.
Proof.
  destruct (proj1 hybrid_score_and_label [F64.of_Z 1] [F64.of_Z 1] 0%nat
              (F64.of_Z 1) (F64.of_Z 1) eq_refl eq_refl)
    as (s & lbl & Es & Hs & Hl & LH & _).
  exists s, lbl. split; [exact Hs|]. split; [exact Hl|].
  assert (E1 : s = F64.of_Z 1) by (rewrite Es; vm_compute; reflexivity).
  split; [exact E1|]. apply LH. rewrite E1. vm_compute. reflexivity.
Defined.

(** ** Governance *)

Section GovernanceFacts.

Import Governance.

Lemma has_column_In (df : DataFrame) (c : string) :
  has_column df c = true <-> In c (columns df).
Proof.
  unfold has_column. rewrite existsb_exists. split.
  - intros (c' & Hin & Heq). apply String.eqb_eq in Heq. now subst.
  - intros Hin. exists c. split; [assumption|apply String.eqb_refl].
Qed.

Lemma index_of_In (c : string) (cols : list string) :
  In c cols -> exists k, index_of c cols = Some k.
Proof.
  induction cols as [|c' cols IH]; simpl; [tauto|]. intros Hin.
  destruct (String.eqb c c') eqn:E; [now exists O|].
  destruct Hin as [->|Hin]; [now rewrite String.eqb_refl in E|].
  destruct (IH Hin) as (k & ->). now exists (S k).
Qed.

Lemma select_rows_filter (p : float -> bool) (k : nat)
      (rs : list (list float)) :
  select_rows (map p (map (cell k) rs)) rs
  = filter (fun r => p (cell k r)) rs.
Proof.
  induction rs as [|r rs IH]; simpl; [reflexivity|].
  rewrite IH. reflexivity.
Qed.

(** The schema check passes exactly on the tables that have every
    required column. *)
Lemma _validate_schema_ok (df : DataFrame) :
  (forall c, In c REQUIRED_COLUMNS -> In c (columns df)) ->
  _validate_schema df = ret tt.
Proof.
  intros H. unfold _validate_schema.
  replace (filter _ REQUIRED_COLUMNS) with (@nil string); [reflexivity|].
  symmetry. induction REQUIRED_COLUMNS as [|c cs IH]; [reflexivity|].
  simpl. assert (Hc : has_column df c = true).
  { apply has_column_In, H. now left. }
  rewrite Hc. simpl. apply IH. intros c' Hc'. apply H. now right.
Qed.

Lemma _validate_schema_missing (df : DataFrame) (c : string) :
  In c REQUIRED_COLUMNS -> ~ In c (columns df) ->
  exists missing,
    In c missing /\ _validate_schema df = raise (ValueError missing).
Proof.
  intros Hreq Hnot. unfold _validate_schema.
  set (missing := filter _ REQUIRED_COLUMNS).
  assert (Hin : In c missing).
  { apply filter_In. split; [assumption|].
    destruct (has_column df c) eqn:E; [|reflexivity].
    apply has_column_In in E. contradiction. }
  exists missing. split; [assumption|].
  destruct missing; [destruct Hin|reflexivity].
Qed.

Lemma bind_when_ret (A : Type) (b : bool) (e : Event) (x : A) :
  bind (when b (print e)) (fun _ => ret x)
  = ((if b then [e] else []), inr x).
Proof. destruct b; reflexivity. Qed.

Lemma _drop_nulls_run (df : DataFrame) :
  _drop_nulls df
  = (removal_event DroppedNulls (List.length (rows df))
       (List.length (filter no_missing_value (rows df))),
     inr (mkDataFrame (columns df) (filter no_missing_value (rows df)))).
Proof. unfold _drop_nulls. now rewrite bind_when_ret. Qed.

Lemma _remove_duplicates_run (df : DataFrame) :
  _remove_duplicates df
  = (removal_event RemovedDuplicates (List.length (rows df))
       (List.length (drop_duplicates_from [] (rows df))),
     inr (mkDataFrame (columns df) (drop_duplicates_from [] (rows df)))).
Proof. unfold _remove_duplicates. now rewrite bind_when_ret. Qed.

Lemma occurrences_In (c : string) (cols : list string) :
  occurrences c cols = 1%nat -> In c cols.
Proof.
  intros H. apply (count_occ_In string_dec). unfold occurrences in H. lia.
Qed.

Lemma getitem_once (df : DataFrame) (c : string) :
  occurrences c (columns df) = 1%nat ->
  exists k, index_of c (columns df) = Some k /\
            getitem df c = ret (OneColumn (map (cell k) (rows df))).
Proof.
  intros H. destruct (index_of_In _ _ (occurrences_In _ _ H)) as (k & Hk).
  exists k. split; [exact Hk|]. unfold getitem. now rewrite Hk, H.
Qed.

Lemma getitem_repeated (df : DataFrame) (c : string) :
  In c (columns df) -> occurrences c (columns df) <> 1%nat ->
  exists labels cells, getitem df c = ret (SubFrame labels cells).
Proof.
  intros Hin H. destruct (index_of_In _ _ Hin) as (k & Hk).
  unfold getitem. rewrite Hk. apply Nat.eqb_neq in H. rewrite H. eauto.
Qed.

Lemma _filter_invalid_amounts_run (df : DataFrame) :
  occurrences "Amount" (columns df) = 1%nat ->
  _filter_invalid_amounts df
  = (removal_event FilteredAmounts (List.length (rows df))
       (List.length (filter (amount_in_range (columns df)) (rows df))),
     inr (mkDataFrame (columns df)
            (filter (amount_in_range (columns df)) (rows df)))).
Proof.
  intros Hocc. destruct (getitem_once df _ Hocc) as (k & Hk & E).
  unfold _filter_invalid_amounts. rewrite E.
  unfold bind at 1. unfold ret at 1. unfold boolean_index.
  rewrite bind_when_ret. simpl rows.
  rewrite (select_rows_filter
             (fun a => (a >=? F64.zero)%f64 && (a <=? AMOUNT_CEILING)%f64)).
  unfold amount_in_range at 1 2, column_cell. rewrite Hk. reflexivity.
Qed.

Lemma _filter_invalid_amounts_repeated (df : DataFrame) :
  In "Amount"%string (columns df) ->
  occurrences "Amount" (columns df) <> 1%nat ->
  _filter_invalid_amounts df = raise DuplicateLabels.
Proof.
  intros Hin H. destruct (getitem_repeated df _ Hin H) as (l & c & E).
  unfold _filter_invalid_amounts. rewrite E. reflexivity.
Qed.

Lemma _filter_invalid_labels_run (df : DataFrame) :
  occurrences "Class" (columns df) = 1%nat ->
  _filter_invalid_labels df
  = ([], inr (mkDataFrame (columns df)
                (filter (label_is_binary (columns df)) (rows df)))).
Proof.
  intros Hocc. destruct (getitem_once df _ Hocc) as (k & Hk & E).
  unfold _filter_invalid_labels. rewrite E.
  unfold bind, ret, boolean_index. simpl.
  rewrite (select_rows_filter isin_0_1).
  unfold label_is_binary, column_cell. rewrite Hk. reflexivity.
Qed.

Lemma _filter_invalid_labels_repeated (df : DataFrame) :
  In "Class"%string (columns df) ->
  occurrences "Class" (columns df) <> 1%nat ->
  _filter_invalid_labels df = raise DuplicateLabels.
Proof.
  intros Hin H. destruct (getitem_repeated df _ Hin H) as (l & c & E).
  unfold _filter_invalid_labels. rewrite E. reflexivity.
Qed.

(** The run of [clean] on a table that passes the schema check and
    repeats neither the Amount nor the Class label. *)
Lemma clean_run (df : DataFrame) :
  (forall c, In c REQUIRED_COLUMNS -> In c (columns df)) ->
  occurrences "Amount" (columns df) = 1%nat ->
  occurrences "Class" (columns df) = 1%nat ->
  let cols := columns df in
  let r0 := rows df in
  let r1 := filter no_missing_value r0 in
  let r2 := drop_duplicates_from [] r1 in
  let r3 := filter (amount_in_range cols) r2 in
  let r4 := filter (label_is_binary cols) r3 in
  clean df
  = (removal_event DroppedNulls (List.length r0) (List.length r1)
     ++ removal_event RemovedDuplicates (List.length r1) (List.length r2)
     ++ removal_event FilteredAmounts (List.length r2) (List.length r3)
     ++ [ValidationComplete (List.length r4)],
     inr (mkDataFrame cols r4)).
Proof.
  intros Hreq Ha Hc cols r0 r1 r2 r3 r4. unfold clean.
  rewrite (_validate_schema_ok _ Hreq).
  unfold ret at 1. cbn [bind].
  rewrite _drop_nulls_run. cbn [bind].
  rewrite _remove_duplicates_run. cbn [bind rows columns].
  rewrite _filter_invalid_amounts_run by exact Ha. cbn [bind rows columns].
  rewrite _filter_invalid_labels_run by exact Hc.
  cbn [bind rows columns print ret app].
  rewrite <- ?app_assoc. reflexivity.
Qed.

(** The run of [clean] on a table that passes the schema check and
    repeats the Amount label: the amount filter raises. *)
Lemma clean_run_repeated_amount (df : DataFrame) :
  (forall c, In c REQUIRED_COLUMNS -> In c (columns df)) ->
  occurrences "Amount" (columns df) <> 1%nat ->
  let r0 := rows df in
  let r1 := filter no_missing_value r0 in
  let r2 := drop_duplicates_from [] r1 in
  clean df
  = (removal_event DroppedNulls (List.length r0) (List.length r1)
     ++ removal_event RemovedDuplicates (List.length r1) (List.length r2),
     inl DuplicateLabels).
Proof.
  intros Hreq Ha r0 r1 r2. unfold clean.
  rewrite (_validate_schema_ok _ Hreq).
  assert (Hin : In "Amount"%string (columns df)).
  { apply Hreq. vm_compute. tauto. }
  unfold ret at 1. cbn [bind].
  rewrite _drop_nulls_run. cbn [bind].
  rewrite _remove_duplicates_run. cbn [bind rows columns].
  rewrite _filter_invalid_amounts_repeated by assumption.
  unfold raise. cbn [bind]. rewrite app_nil_r. reflexivity.
Qed.

(** The run of [clean] on a table that passes the schema check and
    repeats the Class label only: the label filter raises. *)
Lemma clean_run_repeated_class (df : DataFrame) :
  (forall c, In c REQUIRED_COLUMNS -> In c (columns df)) ->
  occurrences "Amount" (columns df) = 1%nat ->
  occurrences "Class" (columns df) <> 1%nat ->
  let cols := columns df in
  let r0 := rows df in
  let r1 := filter no_missing_value r0 in
  let r2 := drop_duplicates_from [] r1 in
  let r3 := filter (amount_in_range cols) r2 in
  clean df
  = (removal_event DroppedNulls (List.length r0) (List.length r1)
     ++ removal_event RemovedDuplicates (List.length r1) (List.length r2)
     ++ removal_event FilteredAmounts (List.length r2) (List.length r3),
     inl DuplicateLabels).
Proof.
  intros Hreq Ha Hc cols r0 r1 r2 r3. unfold clean.
  rewrite (_validate_schema_ok _ Hreq).
  assert (Hin : In "Class"%string (columns df)).
  { apply Hreq. vm_compute. tauto. }
  unfold ret at 1. cbn [bind].
  rewrite _drop_nulls_run. cbn [bind].
  rewrite _remove_duplicates_run. cbn [bind rows columns].
  rewrite _filter_invalid_amounts_run by exact Ha. cbn [bind rows columns].
  rewrite _filter_invalid_labels_repeated by assumption.
  unfold raise. cbn [bind]. rewrite app_nil_r, <- ?app_assoc. reflexivity.
Qed.

(** *** Duplicates *)

Lemma drop_duplicates_from_In (seen rs : list (list float)) (r : list float) :
  In r (drop_duplicates_from seen rs) -> In r rs.
Proof.
  revert seen. induction rs as [|r' rs IH]; simpl; [tauto|]. intros seen.
  destruct (existsb (row_eqb r') seen).
  - intros H. right. eapply IH, H.
  - intros [->|H]; [now left|]. right. eapply IH, H.
Qed.

Lemma drop_duplicates_from_distinct (seen rs : list (list float)) :
  distinct_from seen (drop_duplicates_from seen rs).
Proof.
  revert seen. induction rs as [|r rs IH]; simpl; [tauto|]. intros seen.
  destruct (existsb (row_eqb r) seen) eqn:E; [apply IH|].
  simpl. split; [exact E|apply IH].
Qed.

Lemma distinct_from_fixed (seen rs : list (list float)) :
  distinct_from seen rs -> drop_duplicates_from seen rs = rs.
Proof.
  revert seen. induction rs as [|r rs IH]; simpl; [reflexivity|].
  intros seen [E H]. rewrite E. f_equal. now apply IH.
Qed.

Lemma distinct_from_weaken (seen seen' rs : list (list float)) :
  (forall r, In r seen' -> In r seen) ->
  distinct_from seen rs -> distinct_from seen' rs.
Proof.
  revert seen seen'. induction rs as [|r rs IH]; simpl; [tauto|].
  intros seen seen' Hsub [E H]. split.
  - destruct (existsb (row_eqb r) seen') eqn:E'; [|reflexivity].
    apply existsb_exists in E'. destruct E' as (x & Hx & Hxr).
    assert (existsb (row_eqb r) seen = true).
    { apply existsb_exists. exists x. split; [apply Hsub, Hx|exact Hxr]. }
    congruence.
  - apply (IH (r :: seen)); [|exact H].
    intros x [->|Hx]; [now left|right; apply Hsub, Hx].
Qed.

Lemma distinct_from_filter (p : list float -> bool)
      (seen rs : list (list float)) :
  distinct_from seen rs -> distinct_from seen (filter p rs).
Proof.
  revert seen. induction rs as [|r rs IH]; simpl; [tauto|].
  intros seen [E H]. destruct (p r); simpl.
  - split; [exact E|now apply IH].
  - apply distinct_from_weaken with (seen := r :: seen).
    + intros x Hx. now right.
    + now apply IH.
Qed.

Lemma filter_fixed (A : Type) (p : A -> bool) (l : list A) :
  (forall x, In x l -> p x = true) -> filter p l = l.
Proof.
  induction l as [|x l IH]; simpl; [reflexivity|]. intros H.
  rewrite (H x) by now left. f_equal. apply IH. intros y Hy. apply H.
  now right.
Qed.

(** The staged rows are a fixed point of each of the four stages. *)
Lemma staged_rows_fixed (cols : list string) (rs : list (list float)) :
  let out := staged_rows cols rs in
  filter no_missing_value out = out /\
  drop_duplicates_from [] out = out /\
  filter (amount_in_range cols) out = out /\
  filter (label_is_binary cols) out = out.
Proof.
  unfold staged_rows. repeat split.
  - apply filter_fixed. intros r Hr.
    apply filter_In in Hr. destruct Hr as [Hr _].
    apply filter_In in Hr. destruct Hr as [Hr _].
    apply drop_duplicates_from_In in Hr.
    apply filter_In in Hr. tauto.
  - apply distinct_from_fixed. do 2 apply distinct_from_filter.
    apply drop_duplicates_from_distinct.
  - apply filter_fixed. intros r Hr.
    apply filter_In in Hr. destruct Hr as [Hr _].
    apply filter_In in Hr. tauto.
  - apply filter_fixed. intros r Hr. apply filter_In in Hr. tauto.
Qed.

Lemma required_or_missing (df : DataFrame) :
  (forall c, In c REQUIRED_COLUMNS -> In c (columns df)) \/
  (exists c, In c REQUIRED_COLUMNS /\ ~ In c (columns df)).
Proof.
  destruct (forallb (has_column df) REQUIRED_COLUMNS) eqn:E.
  - left. rewrite forallb_forall in E.
    intros c Hc. apply has_column_In, E, Hc.
  - right.
    assert (X : exists c, In c REQUIRED_COLUMNS
                          /\ has_column df c = false).
    { clear -E. induction REQUIRED_COLUMNS as [|c cs IH];
        simpl in E; [discriminate|].
      destruct (has_column df c) eqn:Ec.
      - destruct (IH E) as (c' & Hin & Hc'). exists c'. split;
          [now right|assumption].
      - exists c. split; [now left|assumption]. }
    destruct X as (c & Hin & Hc). exists c. split; [exact Hin|].
    intros Habs. apply has_column_In in Habs. congruence.
Qed.

Lemma clean_missing (df : DataFrame) (c : string) :
  In c REQUIRED_COLUMNS -> ~ In c (columns df) ->
  exists missing,
    In c missing /\ clean df = ([], inl (ValueError missing)).
Proof.
  intros Hreq Hnot.
  destruct (_validate_schema_missing df Hreq Hnot) as (missing & Hin & E).
  exists missing. split; [exact Hin|]. unfold clean. rewrite E.
  reflexivity.
Qed.

(** What a run of [clean] that returns tells about its input. *)
Lemma clean_returned (df out : DataFrame) :
  snd (clean df) = inr out ->
  (forall c, In c REQUIRED_COLUMNS -> In c (columns df)) /\
  occurrences "Amount" (columns df) = 1%nat /\
  occurrences "Class" (columns df) = 1%nat /\
  out = mkDataFrame (columns df) (staged_rows (columns df) (rows df)).
Proof.
  intros H.
  destruct (required_or_missing df) as [Hreq|(c & Hc & Hnot)].
  2:{ destruct (clean_missing df Hc Hnot) as (missing & _ & E).
      pose proof (f_equal snd E) as Es. cbn [snd] in Es.
      rewrite Es in H. discriminate H. }
  destruct (Nat.eq_dec (occurrences "Amount" (columns df)) 1) as [Ha|Ha].
  2:{ pose proof (f_equal snd (clean_run_repeated_amount df Hreq Ha)) as Es.
      cbn [snd] in Es. rewrite Es in H. discriminate H. }
  destruct (Nat.eq_dec (occurrences "Class" (columns df)) 1) as [Hl|Hl].
  2:{ pose proof (f_equal snd (clean_run_repeated_class df Hreq Ha Hl)) as Es.
      cbn [snd] in Es. rewrite Es in H. discriminate H. }
  split; [exact Hreq|]. split; [exact Ha|]. split; [exact Hl|].
  pose proof (f_equal snd (clean_run df Hreq Ha Hl)) as R. cbn [snd] in R.
  rewrite R in H. injection H as <-. reflexivity.
Qed.

(** C3, as amended: [clean] fails with the error that names the
    missing columns (the specification's SchemaError, a [ValueError] in
    the source) if and only if a required column -- Time, Amount,
    Class, V1..V28 -- is absent.  When all are present and neither the
    Amount nor the Class label is repeated among the columns, it raises
    nothing and returns the table whose rows are obtained by dropping,
    in this order, the rows with a missing value, the duplicates of an
    earlier row, the rows with amount outside [0, 50000] and the rows
    whose label is neither 0 nor 1.  When all are present and the
    Amount or the Class label is repeated, it raises the [ValueError]
    for duplicate labels. *)
Theorem clean_contract :
  forall df : DataFrame,
    REQUIRED_COLUMNS
    = ["Time"; "Amount"; "Class"]%string
      ++ map (fun i => ("V" ++ NilZero.string_of_uint (Nat.to_uint i))%string)
             (seq 1 28) /\
    ((exists missing, snd (clean df) = inl (ValueError missing))
     <-> (exists c, In c REQUIRED_COLUMNS /\ ~ In c (columns df))) /\
    (forall c, In c REQUIRED_COLUMNS -> ~ In c (columns df) ->
       exists missing,
         In c missing /\ snd (clean df) = inl (ValueError missing)) /\
    ((forall c, In c REQUIRED_COLUMNS -> In c (columns df)) ->
     occurrences "Amount" (columns df) = 1%nat ->
     occurrences "Class" (columns df) = 1%nat ->
       snd (clean df)
       = inr (mkDataFrame (columns df)
                (filter (label_is_binary (columns df))
                   (filter (amount_in_range (columns df))
                      (drop_duplicates_from []
                         (filter no_missing_value (rows df))))))) /\
    ((forall c, In c REQUIRED_COLUMNS -> In c (columns df)) ->
     occurrences "Amount" (columns df) <> 1%nat \/
     occurrences "Class" (columns df) <> 1%nat ->
       snd (clean df) = inl DuplicateLabels).
Proof.
  intros df.
  assert (Hmiss : forall c, In c REQUIRED_COLUMNS -> ~ In c (columns df) ->
            exists missing,
              In c missing /\ snd (clean df) = inl (ValueError missing)).
  { intros c Hreq Hnot.
    destruct (clean_missing df Hreq Hnot) as (missing & Hin & E).
    exists missing. split; [exact Hin|]. now rewrite E. }
  assert (Hdup : (forall c, In c REQUIRED_COLUMNS -> In c (columns df)) ->
            occurrences "Amount" (columns df) <> 1%nat \/
            occurrences "Class" (columns df) <> 1%nat ->
            snd (clean df) = inl DuplicateLabels).
  { intros Hreq Hrep.
    destruct (Nat.eq_dec (occurrences "Amount" (columns df)) 1) as [Ha|Ha].
    - destruct Hrep as [Hrep|Hrep]; [contradiction|].
      now rewrite (clean_run_repeated_class df Hreq Ha Hrep).
    - now rewrite (clean_run_repeated_amount df Hreq Ha). }
  split; [reflexivity|]. split; [|split; [exact Hmiss|split; [|exact Hdup]]].
  - split.
    + intros (missing & He).
      destruct (required_or_missing df) as [Hreq|Hm]; [|exact Hm].
      exfalso.
      destruct (Nat.eq_dec (occurrences "Amount" (columns df)) 1) as [Ha|Ha].
      * destruct (Nat.eq_dec (occurrences "Class" (columns df)) 1)
          as [Hl|Hl].
        -- pose proof (f_equal snd (clean_run df Hreq Ha Hl)) as R.
           cbn [snd] in R. rewrite R in He. discriminate He.
        -- rewrite (Hdup Hreq (or_intror Hl)) in He. discriminate He.
      * rewrite (Hdup Hreq (or_introl Ha)) in He. discriminate He.
    + intros (c & Hreq & Hnot).
      destruct (Hmiss c Hreq Hnot) as (missing & _ & E). eauto.
  - intros Hreq Ha Hl.
    pose proof (f_equal snd (clean_run df Hreq Ha Hl)) as R.
    cbn [snd] in R. exact R.
Qed.

Lemma clean_contract_witness :
  (exists missing,
      In "Class"%string missing /\
      snd (clean raw_frame_without_label) = inl (ValueError missing)) /\
  snd (clean raw_frame)
  = inr (mkDataFrame REQUIRED_COLUMNS
           [ raw_row (F64.of_Z 0) (F64.of_Z 100) (F64.of_Z 0) F64.zero;
             raw_row (F64.of_Z 4) (F64.of_Z 4000) (F64.of_Z 1) F64.zero ]) /\
  snd (clean raw_frame_repeated_class) = inl DuplicateLabels.
Proof.
  split; [|split].
  - apply (proj1 (proj2 (proj2 (clean_contract raw_frame_without_label)))).
    + vm_compute. tauto.
    + vm_compute. intros H.
      repeat (destruct H as [H|H]; [discriminate H|]). exact H.
  - rewrite (proj1 (proj2 (proj2 (proj2 (clean_contract raw_frame))))).
    + vm_compute. reflexivity.
    + intros c Hc. exact Hc.
    + reflexivity.
    + reflexivity.
  - apply (proj2 (proj2 (proj2 (proj2
             (clean_contract raw_frame_repeated_class))))).
    + intros c Hc. cbn [columns raw_frame_repeated_class].
      apply in_or_app. now left.
    + right. vm_compute. lia.
Defined.

(** The claim as the specification states it fails: a table with
    every required column and a second column labelled Amount, or a
    second column labelled Class, makes [clean] raise. *)
Lemma clean_contract_counterexample :
  (forall c, In c REQUIRED_COLUMNS ->
             In c (columns raw_frame_repeated_amount)) /\
  clean raw_frame_repeated_amount
  = ([DroppedNulls 1; RemovedDuplicates 1], inl DuplicateLabels) /\
  (forall c, In c REQUIRED_COLUMNS ->
             In c (columns raw_frame_repeated_class)) /\
  clean raw_frame_repeated_class
  = ([DroppedNulls 1; RemovedDuplicates 1; FilteredAmounts 1],
     inl DuplicateLabels).
Proof.
  split; [|split; [|split]].
  - intros c Hc. cbn [columns raw_frame_repeated_amount].
    apply in_or_app. now left.
  - vm_compute. reflexivity.
  - intros c Hc. cbn [columns raw_frame_repeated_class].
    apply in_or_app. now left.
  - vm_compute. reflexivity.
Qed.

(** C8: [clean] is idempotent.  Whenever a run of [clean] returns --
    as it does on every table that passes the schema check and labels
    one column Amount and one Class -- a second run on the returned
    table removes no row (it prints neither a drop nor a filter
    message) and returns that table unchanged. *)
Theorem clean_idempotent :
  forall df : DataFrame,
    ((forall c, In c REQUIRED_COLUMNS -> In c (columns df)) ->
     occurrences "Amount" (columns df) = 1%nat ->
     occurrences "Class" (columns df) = 1%nat ->
     exists (printed : list Event) (out : DataFrame),
       clean df = (printed, inr out)) /\
    (forall (printed : list Event) (out : DataFrame),
        clean df = (printed, inr out) ->
        clean out
        = ([ValidationComplete (List.length (rows out))], inr out)).
Proof.
  intros df. split.
  - intros Hreq Ha Hl. eexists _, _. apply (clean_run df Hreq Ha Hl).
  - intros printed out H.
    destruct (clean_returned df (out := out)) as (Hreq & Ha & Hl & ->);
      [now rewrite H|].
    set (cols := columns df).
    set (staged := staged_rows cols (rows df)).
    destruct (staged_rows_fixed cols (rows df)) as (F1 & F2 & F3 & F4).
    fold staged in F1, F2, F3, F4.
    pose proof (clean_run (mkDataFrame cols staged) Hreq Ha Hl) as R.
    cbv zeta in R. cbn [rows columns] in R.
    rewrite F1, F2, F3, F4 in R.
    unfold removal_event in R. rewrite Nat.sub_diag in R. exact R.
Qed.

Lemma clean_idempotent_witness :
  exists out : DataFrame,
    snd (clean raw_frame) = inr out /\
    clean out = ([ValidationComplete (List.length (rows out))], inr out).
Proof.
  destruct (proj1 (clean_idempotent raw_frame)) as (printed & out & E).
  - intros c Hc. exact Hc.
  - reflexivity.
  - reflexivity.
  - exists out. split; [now rewrite E|].
    exact (proj2 (clean_idempotent raw_frame) printed out E).
Defined.

End GovernanceFacts.

(** ** Sorting and grouping *)

Section SortingFacts.

Variable A : Type.
Variable leb : A -> A -> bool.

Lemma insert_sorted_perm (x : A) (l : list A) :
  Permutation (insert_sorted leb x l) (x :: l).
Proof.
  induction l as [|y l IH]; simpl; [apply Permutation_refl|].
  destruct (leb x y); [apply Permutation_refl|].
  eapply perm_trans; [apply perm_skip, IH|apply perm_swap].
Qed.

Lemma isort_perm (l : list A) : Permutation (isort leb l) l.
Proof.
  induction l as [|x l IH]; simpl; [apply perm_nil|].
  eapply perm_trans; [apply insert_sorted_perm|apply perm_skip, IH].
Qed.

Hypothesis leb_total : forall a b, leb a b = true \/ leb b a = true.
Hypothesis leb_trans :
  forall a b c, leb a b = true -> leb b c = true -> leb a c = true.

Lemma insert_sorted_sorted (x : A) (l : list A) :
  StronglySorted (fun a b => leb a b = true) l ->
  StronglySorted (fun a b => leb a b = true) (insert_sorted leb x l).
Proof.
  induction 1 as [|y l Hs IH Hall]; simpl.
  - constructor; constructor.
  - destruct (leb x y) eqn:E.
    + constructor; [now constructor|]. constructor; [exact E|].
      eapply Forall_impl; [|exact Hall]. intros z Hz. eapply leb_trans; eauto.
    + constructor; [exact IH|].
      assert (Hyx : leb y x = true) by (destruct (leb_total x y); congruence).
      eapply Permutation_Forall;
        [apply Permutation_sym, insert_sorted_perm|].
      constructor; assumption.
Qed.

Lemma isort_sorted (l : list A) :
  StronglySorted (fun a b => leb a b = true) (isort leb l).
Proof.
  induction l as [|x l IH]; simpl; [constructor|].
  now apply insert_sorted_sorted.
Qed.

End SortingFacts.

Lemma StronglySorted_map_In (A B : Type) (R : A -> A -> Prop)
      (R' : B -> B -> Prop) (f : A -> B) (l : list A) :
  (forall a b, In a l -> In b l -> R a b -> R' (f a) (f b)) ->
  StronglySorted R l -> StronglySorted R' (map f l).
Proof.
  intros H Hs. induction Hs as [|x l Hs IH Hall]; simpl; [constructor|].
  constructor.
  - apply IH. intros a b Ha Hb. apply H; now right.
  - rewrite Forall_forall in *. intros y Hy. apply in_map_iff in Hy.
    destruct Hy as (b & <- & Hb). apply H; [now left|now right|].
    now apply Hall.
Qed.

Section GroupByFacts.

Variables K R : Type.
Variable K_eq_dec : forall x y : K, {x = y} + {x <> y}.
Variable K_leb : K -> K -> bool.
Variable key : R -> K.

Lemma groupby_keys (rs : list R) :
  map fst (groupby K_eq_dec K_leb key rs)
  = isort K_leb (nodup K_eq_dec (map key rs)).
Proof. unfold groupby. rewrite map_map. simpl. apply map_id. Qed.

Lemma groupby_keys_NoDup (rs : list R) :
  NoDup (map fst (groupby K_eq_dec K_leb key rs)).
Proof.
  rewrite groupby_keys.
  eapply Permutation_NoDup; [apply Permutation_sym, isort_perm|].
  apply NoDup_nodup.
Qed.

Lemma groupby_keys_In (rs : list R) (k : K) :
  In k (map fst (groupby K_eq_dec K_leb key rs))
  <-> exists r, In r rs /\ key r = k.
Proof.
  rewrite groupby_keys. split.
  - intros H. apply (Permutation_in _ (isort_perm K_leb _)) in H.
    apply nodup_In in H. apply in_map_iff in H.
    destruct H as (r & E & Hr). now exists r.
  - intros (r & Hr & E).
    apply (Permutation_in _ (Permutation_sym (isort_perm K_leb _))).
    apply nodup_In. apply in_map_iff. now exists r.
Qed.

Lemma groupby_In (rs : list R) (g : K * list R) :
  In g (groupby K_eq_dec K_leb key rs) ->
  snd g = filter (fun r => if K_eq_dec (key r) (fst g) then true else false) rs.
Proof.
  unfold groupby. intros H. apply in_map_iff in H.
  destruct H as (k & <- & _). reflexivity.
Qed.

End GroupByFacts.

(** ** Order on strings *)





(** ** Stable sorting of the grouped table *)



Section StableRanking.

Import RiskMetrics.






Lemma filter_split_perm (A : Type) (p q : A -> bool) (l : list A) :
  (forall x, q x = negb (p x)) ->
  Permutation (filter p l ++ filter q l) l.
Proof.
  intros Hq. induction l as [|x l IH]; [constructor|]. cbn [filter].
  rewrite Hq. destruct (p x); cbn [negb app].
  - now constructor.
  - apply Permutation_sym, Permutation_cons_app, Permutation_sym, IH.
Qed.

Lemma stable_sort_descending_perm (l : list MerchantAgg) :
  Permutation (stable_sort_descending l) l.
Proof.
  unfold stable_sort_descending.
  eapply Permutation_trans;
    [apply Permutation_app_tail, isort_perm|].
  apply filter_split_perm. intros x. unfold has_avg_risk, lacks_avg_risk.
  now destruct (F64.is_nan (agg_avg_risk x)).
Qed.



End StableRanking.



(** ** Metrics *)

Section MetricsFacts.

Import RiskMetrics.

Variable mean : list float -> float.

Lemma merchant_ranking_unfold
      (sort : list MerchantAgg -> list MerchantAgg) (df : ScoredFrame) :
  merchant_ranking mean sort df
  = map ranking_row (sort (map (merchant_agg mean) (merchant_groups df))).
Proof. unfold merchant_ranking. rewrite map_map. reflexivity. Qed.




Lemma sorted_distinct_increasing (A : Type) (f : A -> Z) (l : list A) :
  StronglySorted (fun a b => (f a <=? f b)%Z = true) l ->
  NoDup (map f l) ->
  StronglySorted (fun a b => (f a < f b)%Z) l.
Proof.
  induction 1 as [|x l Hs IH Hall]; simpl; intros Hnd; [constructor|].
  inversion Hnd as [|y ys Hnotin Hnd']; subst. constructor; [now apply IH|].
  rewrite Forall_forall in *. intros y Hy.
  pose proof (Hall y Hy) as Hle. apply Z.leb_le in Hle.
  assert (f x <> f y).
  { intros E. apply Hnotin. rewrite E. now apply in_map. }
  lia.
Qed.

Lemma trend_point_In (df : ScoredFrame) (p : TrendPoint) :
  In p (map (trend_point mean) (date_groups df)) ->
  let g := rows_of_date df (tr_date p) in
  tr_avg_risk p = mean (map final_risk_score g) /\
  tr_fraud_count p = sum (map (fun r => Class_ (base r)) g) /\
  tr_transaction_count p = count (map final_risk_score g).
Proof.
  intros H. apply in_map_iff in H. destruct H as (g & <- & Hg).
  pose proof (groupby_In _ _ _ _ _ Hg) as Eg.
  unfold trend_point, rows_of_date. simpl. rewrite Eg.
  repeat split; reflexivity.
Qed.

(** C6, as the code has it: [daily_risk_trend] is total; without the
    timestamp column it returns the columns date, avg_risk,
    fraud_count, transaction_count and no rows; with it, it returns one
    row per distinct calendar date, in strictly ascending date order,
    holding the date's mean risk rounded to 4 decimals, its fraud count
    and its number of (non-missing) scores, which is its transaction
    count when no score is missing. *)
Theorem daily_risk_trend_contract :
  forall df : ScoredFrame,
    let trend := daily_risk_trend mean df in
    trend_columns trend
    = ["date"; "avg_risk"; "fraud_count"; "transaction_count"]%string /\
    (scored_has_transaction_time df = false -> trend_rows trend = []) /\
    (scored_has_transaction_time df = true ->
       StronglySorted (fun p q => (tr_date p < tr_date q)%Z)
                      (trend_rows trend) /\
       (forall d, In d (map tr_date (trend_rows trend))
                  <-> exists r, In r (scored df)
                                /\ dt_date (transaction_time (base r)) = d) /\
       (forall p, In p (trend_rows trend) ->
          let g := rows_of_date df (tr_date p) in
          tr_avg_risk p = F64.round (mean (map final_risk_score g)) 4 /\
          tr_fraud_count p = sum (map (fun r => Class_ (base r)) g) /\
          tr_transaction_count p = count (map final_risk_score g) /\
          (Forall (fun r => F64.is_nan (final_risk_score r) = false) g ->
             tr_transaction_count p = Z.of_nat (List.length g)))).
Proof.
  intros df trend. unfold trend, daily_risk_trend.
  destruct (scored_has_transaction_time df); simpl;
    [|repeat split; try reflexivity; discriminate].
  split; [reflexivity|]. split; [discriminate|]. intros _.
  set (points := map (trend_point mean) (date_groups df)).
  set (rounded := fun p => mkTrendPoint (tr_date p) (F64.round (tr_avg_risk p) 4)
                             (tr_fraud_count p) (tr_transaction_count p)).
  assert (Pp : Permutation (sort_by_date points) points)
    by apply isort_perm.
  assert (Hdates : map tr_date (map rounded (sort_by_date points))
                   = map tr_date (sort_by_date points)).
  { rewrite map_map. reflexivity. }
  assert (Hkeys : map tr_date points = map fst (date_groups df)).
  { unfold points. rewrite map_map. reflexivity. }
  assert (Pd : Permutation (map tr_date (sort_by_date points))
                           (map fst (date_groups df))).
  { rewrite <- Hkeys. now apply Permutation_map. }
  split; [|split].
  - apply StronglySorted_map_In
      with (R := fun p q => (tr_date p < tr_date q)%Z); [tauto|].
    apply sorted_distinct_increasing.
    + apply (isort_sorted (fun a b => (tr_date a <=? tr_date b)%Z)).
      * intros a b. rewrite !Z.leb_le. lia.
      * intros a b c. rewrite !Z.leb_le. lia.
    + eapply Permutation_NoDup; [apply Permutation_sym, Pd|].
      apply groupby_keys_NoDup.
  - intros d. rewrite Hdates. split.
    + intros H. apply (Permutation_in _ Pd) in H.
      now apply groupby_keys_In in H.
    + intros H. apply (Permutation_in _ (Permutation_sym Pd)).
      now apply groupby_keys_In.
  - intros p Hp. apply in_map_iff in Hp. destruct Hp as (q & <- & Hq).
    apply (Permutation_in _ Pp) in Hq.
    destruct (trend_point_In df q Hq) as (Er & Ef & Ec).
    unfold rounded. cbn [tr_date tr_avg_risk tr_fraud_count
                         tr_transaction_count].
    rewrite <- Er. split; [reflexivity|]. split; [exact Ef|].
    split; [exact Ec|].
    intros Hnan. rewrite Ec. unfold count. rewrite filter_fixed.
    + now rewrite length_map.
    + intros x Hx. apply in_map_iff in Hx. destruct Hx as (r & <- & Hr).
      rewrite Forall_forall in Hnan. now rewrite (Hnan r Hr).
Qed.

End MetricsFacts.

Section MetricsExamples.

Import RiskMetrics.



Lemma daily_risk_trend_contract_witness :
  trend_rows (daily_risk_trend naive_mean untimed_frame) = [] /\
  StronglySorted (fun p q => (tr_date p < tr_date q)%Z)
    (trend_rows (daily_risk_trend naive_mean two_day_frame)) /\
  map tr_date (trend_rows (daily_risk_trend naive_mean two_day_frame))
  = [19723%Z; 19724%Z].
Proof.
  destruct (daily_risk_trend_contract naive_mean untimed_frame)
    as (_ & Hempty & _).
  destruct (daily_risk_trend_contract naive_mean two_day_frame)
    as (_ & _ & Hrows).
  destruct (Hrows eq_refl) as (Hsorted & _).
  split; [exact (Hempty eq_refl)|].
  split; [exact Hsorted|vm_compute; reflexivity].
Defined.

(** C6 as stated fails: for a single transaction whose score is the
    double nearest to 1/3, the trend row holds 0.3333, not the mean
    0.3333333333333333 of that day's scores. *)
Lemma daily_risk_trend_counterexample :
  exists p : TrendPoint,
    trend_rows (daily_risk_trend naive_mean one_third_frame) = [p] /\
    naive_mean (map final_risk_score (rows_of_date one_third_frame (tr_date p)))
    = F64.decimal 1 3 /\
    tr_avg_risk p = F64.decimal 3333 10000 /\
    (tr_avg_risk p
     =? naive_mean
          (map final_risk_score
               (rows_of_date one_third_frame (tr_date p))))%f64 = false.
Proof.
  eexists. split; [vm_compute; reflexivity|].
  repeat split; vm_compute; reflexivity.
Qed.

End MetricsExamples.

(** ** Insight agent *)

Section AgentFacts.

Import Agent.

Variable format_fixed : nat -> float -> string.
Variable format_grouped : Z -> string.
Variable mean : list float -> float.


End AgentFacts.


(** ** Enrichment *)

Section SchemaFacts.

Import Schema.

Lemma assign_names_In (name c : string) (values : list cell)
      (cols : list (string * list cell)) :
  In c (map fst (assign name values cols))
  <-> In c (map fst cols) \/ c = name.
Proof.
  unfold assign. destruct (existsb (labelled name) cols) eqn:E.
  - rewrite map_map.
    rewrite (map_ext _ fst);
      [|intros x; now destruct (labelled name x)].
    split; [now left|]. intros [H| ->]; [exact H|].
    apply existsb_exists in E. destruct E as (x & Hx & Hl).
    apply String.eqb_eq in Hl. subst name. now apply in_map.
  - rewrite map_app, in_app_iff. cbn [map In fst]. intuition.
Qed.

Lemma assign_names_fresh (name : string) (values : list cell)
      (cols : list (string * list cell)) :
  ~ In name (map fst cols) ->
  map fst (assign name values cols) = map fst cols ++ [name].
Proof.
  intros Hnot. unfold assign.
  destruct (existsb (labelled name) cols) eqn:E.
  - exfalso. apply Hnot. apply existsb_exists in E.
    destruct E as (x & Hx & Hl). apply String.eqb_eq in Hl. subst name.
    now apply in_map.
  - now rewrite map_app.
Qed.

(** Assigning to [name] leaves the columns of every other label as
    they are, in their order. *)
Lemma filter_assign_other (q : string -> bool) (name : string)
      (values : list cell) (cols : list (string * list cell)) :
  q name = false ->
  filter (fun c => q (fst c)) (assign name values cols)
  = filter (fun c => q (fst c)) cols.
Proof.
  intros Hq. unfold assign. destruct (existsb (labelled name) cols).
  - induction cols as [|x cols IH]; [reflexivity|]. cbn [map].
    destruct (labelled name x) eqn:E.
    + unfold labelled in E. apply String.eqb_eq in E.
      cbn [filter fst]. rewrite <- E, Hq. exact IH.
    + cbn [filter]. now rewrite IH.
  - rewrite filter_app. cbn [filter fst]. rewrite Hq. apply app_nil_r.
Qed.

(** After assigning to [name], every column of that label holds the
    values. *)
Lemma filter_assign_same (name : string) (values : list cell)
      (cols : list (string * list cell)) :
  forall c, In c (filter (labelled name) (assign name values cols)) ->
            snd c = values.
Proof.
  intros c Hc. apply filter_In in Hc. destruct Hc as (Hin & Hl).
  unfold assign in Hin. destruct (existsb (labelled name) cols) eqn:Ex.
  - apply in_map_iff in Hin. destruct Hin as (x & <- & _).
    destruct (labelled name x) eqn:E; [reflexivity|].
    rewrite E in Hl. discriminate Hl.
  - apply in_app_iff in Hin. destruct Hin as [Hin|[<-|[]]]; [|reflexivity].
    exfalso.
    assert (X : existsb (labelled name) cols = true)
      by (apply existsb_exists; eauto).
    congruence.
Qed.

Lemma copy_columns (df : Governance.DataFrame) :
  columns (copy df) = Governance.columns df.
Proof.
  unfold columns, copy. simpl. rewrite map_map. simpl.
  generalize 0%nat. induction (Governance.columns df) as [|c cs IH];
    intros s; simpl; [reflexivity|]. f_equal. apply IH.
Qed.

(** The columns of a label in the copy: none when the label is absent,
    the column at the label's position when it occurs once, at least
    two when it is repeated. *)
Lemma copy_columns_labelled (df : Governance.DataFrame) (c : string) :
  let col k := map (fun row => Num (Governance.cell k row))
                   (Governance.rows df) in
  (~ In c (Governance.columns df) -> columns_labelled c (copy df) = []) /\
  (forall k, Governance.occurrences c (Governance.columns df) = 1%nat ->
             Governance.index_of c (Governance.columns df) = Some k ->
             columns_labelled c (copy df) = [col k]) /\
  ((1 < Governance.occurrences c (Governance.columns df))%nat ->
   exists x y rest, columns_labelled c (copy df) = x :: y :: rest).
Proof.
  intros col. unfold columns_labelled, copy. cbn [data].
  set (F := fun kn : nat * string =>
              (snd kn,
               map (fun row => Num (Governance.cell (fst kn) row))
                   (Governance.rows df))).
  set (G := fun s cols =>
              map snd (filter (labelled c)
                         (map F (combine (seq s (List.length cols)) cols)))).
  change (map snd _) with (G 0%nat (Governance.columns df)).
  assert (Step : forall s x cols,
             G s (x :: cols)
             = if String.eqb c x then col s :: G (S s) cols
               else G (S s) cols).
  { intros s x cols. unfold G. cbn [List.length seq combine map filter].
    unfold labelled at 1. cbn [F fst snd]. now destruct (String.eqb c x). }
  assert (Absent : forall cols s, ~ In c cols -> G s cols = []).
  { induction cols as [|x cols IH]; intros s Hnot; [reflexivity|].
    rewrite Step. destruct (String.eqb c x) eqn:E.
    - apply String.eqb_eq in E. subst x. exfalso. apply Hnot. now left.
    - apply IH. intros H. apply Hnot. now right. }
  assert (Once : forall cols s k,
             Governance.occurrences c cols = 1%nat ->
             Governance.index_of c cols = Some k ->
             G s cols = [col (s + k)%nat]).
  { induction cols as [|x cols IH]; intros s k Ho Hk; [discriminate Hk|].
    rewrite Step. unfold Governance.occurrences in *.
    cbn [count_occ Governance.index_of] in Ho, Hk.
    destruct (String.eqb c x) eqn:E.
    - apply String.eqb_eq in E. subst x.
      destruct (string_dec c c) as [_|N]; [|contradiction].
      injection Hk as <-. rewrite Nat.add_0_r. f_equal. apply Absent.
      apply (count_occ_not_In string_dec). lia.
    - apply String.eqb_neq in E.
      destruct (string_dec x c) as [->|_]; [contradiction|].
      destruct (Governance.index_of c cols) as [k'|] eqn:Ek;
        [|discriminate Hk].
      injection Hk as <-. rewrite (IH (S s) k' Ho eq_refl).
      now rewrite Nat.add_succ_r. }
  assert (Present : forall cols s,
             (0 < Governance.occurrences c cols)%nat ->
             exists x rest, G s cols = x :: rest).
  { induction cols as [|x cols IH]; intros s Ho;
      [unfold Governance.occurrences in Ho; cbn in Ho; lia|].
    rewrite Step. destruct (String.eqb c x) eqn:E; [eauto|].
    apply IH. apply String.eqb_neq in E.
    unfold Governance.occurrences in *. cbn [count_occ] in Ho.
    destruct (string_dec x c) as [->|_]; [contradiction|exact Ho]. }
  assert (Twice : forall cols s,
             (1 < Governance.occurrences c cols)%nat ->
             exists x y rest, G s cols = x :: y :: rest).
  { induction cols as [|x cols IH]; intros s Ho;
      [unfold Governance.occurrences in Ho; cbn in Ho; lia|].
    rewrite Step. unfold Governance.occurrences in *. cbn [count_occ] in Ho.
    destruct (String.eqb c x) eqn:E.
    - apply String.eqb_eq in E. subst x.
      destruct (string_dec c c) as [_|N]; [|contradiction].
      destruct (Present cols (S s)) as (y & rest & Ey);
        [unfold Governance.occurrences; lia|].
      rewrite Ey. eauto.
    - apply String.eqb_neq in E.
      destruct (string_dec x c) as [->|_]; [contradiction|].
      now apply IH. }
  split; [apply Absent|]. split; [|apply Twice].
  intros k Ho Hk. now rewrite (Once _ 0%nat k Ho Hk).
Qed.

Variable Generator : Type.
Variable default_rng : Z -> Generator.
Variable choice : Generator -> list string -> nat -> list string * Generator.
Variable to_timedelta_seconds : float -> Conversion.

(** The two passes over the offset column. *)
Lemma each_to_timedelta (xs : list float) :
  each (to_timedelta to_timedelta_seconds) (map Num xs)
  = if forallb (offset_in_bounds to_timedelta_seconds) xs
    then inr (map (fun x => match to_timedelta_seconds x with
                            | Nanoseconds d => Some d
                            | _ => None
                            end) xs)
    else inl Governance.OutOfBoundsTimedelta.
Proof.
  induction xs as [|x xs IH]; [reflexivity|].
  cbn [map each forallb]. rewrite IH.
  set (rest := forallb (offset_in_bounds to_timedelta_seconds) xs).
  unfold to_timedelta, offset_in_bounds.
  destruct (to_timedelta_seconds x); destruct rest; reflexivity.
Qed.

Lemma each_add_to_base (xs : list float) :
  forallb (offset_in_bounds to_timedelta_seconds) xs = true ->
  each add_to_base
       (map (fun x => match to_timedelta_seconds x with
                      | Nanoseconds d => Some d
                      | _ => None
                      end) xs)
  = if forallb (offset_in_range to_timedelta_seconds) xs
    then inr (map (stamp_of_offset to_timedelta_seconds) xs)
    else inl Governance.OverflowError.
Proof.
  induction xs as [|x xs IH]; [reflexivity|].
  cbn [map each forallb]. intros Hb. apply andb_true_iff in Hb.
  destruct Hb as (Hx & Hb). rewrite (IH Hb).
  set (rest := forallb (offset_in_range to_timedelta_seconds) xs).
  set (stamps := map (stamp_of_offset to_timedelta_seconds) xs).
  unfold add_to_base, offset_in_range, stamp_of_offset, offset_in_bounds
    in Hx |- *.
  destruct (to_timedelta_seconds x) as [d| |]; cbv zeta.
  - destruct ((INT64_MIN <=? BASE_DATETIME + d)%Z
              && (BASE_DATETIME + d <=? INT64_MAX)%Z);
      destruct rest; reflexivity.
  - destruct rest; reflexivity.
  - discriminate Hx.
Qed.

(** The table with the two identifier columns, before the timestamp
    column is added. *)
Lemma enrich_schema_ids (df : Governance.DataFrame) :
  let n := List.length (Governance.rows df) in
  enrich_schema default_rng choice to_timedelta_seconds df
  = _add_transaction_time to_timedelta_seconds
      (setitem "customer_id"
         (map Str (fst (customer_draw default_rng choice n)))
         (setitem "merchant_id"
            (map Str (fst (merchant_draw default_rng choice n)))
            (copy df))).
Proof.
  intros n. unfold enrich_schema, _assign_merchant_ids,
    _assign_customer_ids, customer_draw, merchant_draw.
  change (nrows (copy df)) with n.
  destruct (choice (default_rng RANDOM_SEED) merchants n) as [ids1 rng1].
  cbn [nrows setitem fst snd].
  change (nrows (copy df)) with n.
  destruct (choice rng1 customers n) as [ids2 rng2]. reflexivity.
Qed.

Lemma time_columns_kept (df : Governance.DataFrame) (m c : list cell) :
  columns_labelled "Time"
    (setitem "customer_id" c (setitem "merchant_id" m (copy df)))
  = columns_labelled "Time" (copy df).
Proof.
  unfold columns_labelled, setitem, labelled. cbn [data].
  now rewrite !(filter_assign_other (String.eqb "Time")) by reflexivity.
Qed.

(** What [enrich_schema] does, by the number of columns labelled
    Time and the offsets in the column. *)
Lemma enrich_schema_run (df : Governance.DataFrame) :
  let n := List.length (Governance.rows df) in
  let ids := setitem "customer_id"
               (map Str (fst (customer_draw default_rng choice n)))
               (setitem "merchant_id"
                  (map Str (fst (merchant_draw default_rng choice n)))
                  (copy df)) in
  (~ In "Time"%string (Governance.columns df) ->
     enrich_schema default_rng choice to_timedelta_seconds df
     = inl (Governance.KeyError "Time")) /\
  ((1 < Governance.occurrences "Time" (Governance.columns df))%nat ->
     enrich_schema default_rng choice to_timedelta_seconds df
     = inl Governance.TypeError) /\
  (forall k,
      Governance.occurrences "Time" (Governance.columns df) = 1%nat ->
      Governance.index_of "Time" (Governance.columns df) = Some k ->
      let offsets := map (Governance.cell k) (Governance.rows df) in
      enrich_schema default_rng choice to_timedelta_seconds df
      = if forallb (offset_in_bounds to_timedelta_seconds) offsets
        then if forallb (offset_in_range to_timedelta_seconds) offsets
             then inr (setitem "transaction_time"
                         (map (stamp_of_offset to_timedelta_seconds) offsets)
                         ids)
             else inl Governance.OverflowError
        else inl Governance.OutOfBoundsTimedelta).
Proof.
  intros n ids. rewrite enrich_schema_ids. fold n. fold ids.
  unfold _add_transaction_time. unfold ids at 1 3 5.
  rewrite !time_columns_kept.
  destruct (copy_columns_labelled df "Time") as (Habsent & Honce & Htwice).
  split; [|split].
  - intros Hnot. now rewrite (Habsent Hnot).
  - intros Hrep. destruct (Htwice Hrep) as (x & y & rest & E).
    now rewrite E.
  - intros k Ho Hk. cbv zeta.
    set (offsets := map (Governance.cell k) (Governance.rows df)).
    rewrite (Honce k Ho Hk).
    rewrite <- (map_map (Governance.cell k) Num). fold offsets.
    rewrite each_to_timedelta.
    destruct (forallb (offset_in_bounds to_timedelta_seconds) offsets)
      eqn:Eb; [|reflexivity].
    rewrite (each_add_to_base offsets Eb).
    now destruct (forallb (offset_in_range to_timedelta_seconds) offsets).
Qed.

(** What a run of [enrich_schema] that returns tells about its
    input, and the table it returns. *)
Lemma enrich_schema_returned (df : Governance.DataFrame) (out : DataFrame) :
  enrich_schema default_rng choice to_timedelta_seconds df = inr out ->
  let n := List.length (Governance.rows df) in
  exists k,
    Governance.occurrences "Time" (Governance.columns df) = 1%nat /\
    Governance.index_of "Time" (Governance.columns df) = Some k /\
    forallb (offset_in_range to_timedelta_seconds)
            (map (Governance.cell k) (Governance.rows df)) = true /\
    out = setitem "transaction_time"
            (map (stamp_of_offset to_timedelta_seconds)
                 (map (Governance.cell k) (Governance.rows df)))
            (setitem "customer_id"
               (map Str (fst (customer_draw default_rng choice n)))
               (setitem "merchant_id"
                  (map Str (fst (merchant_draw default_rng choice n)))
                  (copy df))).
Proof.
  intros H n. destruct (enrich_schema_run df) as (Habsent & Htwice & Honce).
  destruct (in_dec string_dec "Time"%string (Governance.columns df))
    as [Hin|Hnot]; [|rewrite (Habsent Hnot) in H; discriminate H].
  destruct (index_of_In _ _ Hin) as (k & Hk).
  pose proof (proj1 (count_occ_In string_dec _ _) Hin) as Hpos.
  fold (Governance.occurrences "Time" (Governance.columns df)) in Hpos.
  destruct (Nat.eq_dec
              (Governance.occurrences "Time" (Governance.columns df)) 1)
    as [Ho|Ho]; [|rewrite Htwice in H by lia; discriminate H].
  exists k. split; [exact Ho|]. split; [exact Hk|].
  rewrite (Honce k Ho Hk) in H. cbv zeta in H.
  destruct (forallb (offset_in_bounds to_timedelta_seconds)
                    (map (Governance.cell k) (Governance.rows df)));
    [|discriminate H].
  destruct (forallb (offset_in_range to_timedelta_seconds)
                    (map (Governance.cell k) (Governance.rows df)));
    [|discriminate H].
  split; [reflexivity|]. now injection H as <-.
Qed.

Lemma offset_in_range_bounds (x : float) :
  offset_in_range to_timedelta_seconds x = true ->
  offset_in_bounds to_timedelta_seconds x = true.
Proof.
  unfold offset_in_range, offset_in_bounds.
  now destruct (to_timedelta_seconds x).
Qed.

(** C9: [enrich_schema] returns on every table that labels one
    column Time and whose offsets the library converts to durations
    that, added to the reference instant, are timestamps.  Whenever it
    returns, the table has the rows of the input and its columns are
    those of the input and the three columns merchant_id, customer_id
    and transaction_time -- exactly these three appended, in this
    order, when the input has none of them.  The merchant column holds
    one identifier per row out of the pool of 20, the customer column
    one out of the pool of 200, as drawn by the generator seeded with
    42; transaction_time holds, for each row, the reference instant
    2024-01-01 00:00:00 plus the row's Time offset taken as seconds;
    every other column is the column of the input, cell by cell.  Two
    tables with the same number of rows receive the same merchant and
    customer columns. *)
Theorem enrich_schema_contract :
  forall df : Governance.DataFrame,
    let n := List.length (Governance.rows df) in
    let merchant_ids := fst (merchant_draw default_rng choice n) in
    let customer_ids := fst (customer_draw default_rng choice n) in
    List.length merchant_ids = n ->
    Forall (fun m => In m merchants) merchant_ids ->
    List.length customer_ids = n ->
    Forall (fun c => In c customers) customer_ids ->
    (forall k,
        Governance.occurrences "Time" (Governance.columns df) = 1%nat ->
        Governance.index_of "Time" (Governance.columns df) = Some k ->
        Forall (fun row => offset_in_range to_timedelta_seconds
                             (Governance.cell k row) = true)
               (Governance.rows df) ->
        exists out : DataFrame,
          enrich_schema default_rng choice to_timedelta_seconds df
          = inr out) /\
    (forall out : DataFrame,
        enrich_schema default_rng choice to_timedelta_seconds df = inr out ->
        nrows out = n /\
        (forall c, In c (columns out)
                   <-> In c (Governance.columns df)
                       \/ In c ENRICHED_COLUMNS) /\
        ((forall c, In c ENRICHED_COLUMNS -> ~ In c (Governance.columns df)) ->
           columns out = Governance.columns df ++ ENRICHED_COLUMNS) /\
        List.length merchants = 20%nat /\
        List.length customers = 200%nat /\
        (exists ids,
            (forall v, In v (columns_labelled "merchant_id" out) ->
                       v = map Str ids) /\
            List.length ids = n /\ Forall (fun m => In m merchants) ids) /\
        (exists ids,
            (forall v, In v (columns_labelled "customer_id" out) ->
                       v = map Str ids) /\
            List.length ids = n /\ Forall (fun c => In c customers) ids) /\
        (exists k,
            Governance.index_of "Time" (Governance.columns df) = Some k /\
            forall v, In v (columns_labelled "transaction_time" out) ->
              v = map (fun row =>
                         match to_timedelta_seconds (Governance.cell k row)
                         with
                         | Nanoseconds seconds =>
                             Stamp (1704067200 * 1000000000 + seconds)%Z
                         | _ => NaT
                         end)
                      (Governance.rows df)) /\
        filter not_enriched (data out)
        = filter not_enriched (data (copy df)) /\
        (forall (df' : Governance.DataFrame) (out' : DataFrame),
            List.length (Governance.rows df') = n ->
            enrich_schema default_rng choice to_timedelta_seconds df'
            = inr out' ->
            (forall v', In v' (columns_labelled "merchant_id" out') ->
                        v' = map Str merchant_ids) /\
            (forall v', In v' (columns_labelled "customer_id" out') ->
                        v' = map Str customer_ids))).
Proof.
  intros df n merchant_ids customer_ids Hlm Hm Hlc Hc.
  assert (Ids : forall (df0 : Governance.DataFrame) (t : list cell),
             List.length (Governance.rows df0) = n ->
             let out0 :=
               setitem "transaction_time" t
                 (setitem "customer_id" (map Str customer_ids)
                    (setitem "merchant_id" (map Str merchant_ids)
                       (copy df0))) in
             (forall v, In v (columns_labelled "merchant_id" out0) ->
                        v = map Str merchant_ids) /\
             (forall v, In v (columns_labelled "customer_id" out0) ->
                        v = map Str customer_ids) /\
             (forall v, In v (columns_labelled "transaction_time" out0) ->
                        v = t)).
  { intros df0 t _ out0. subst out0.
    unfold columns_labelled, setitem. cbn [data].
    split; [|split]; intros v Hv; apply in_map_iff in Hv;
      destruct Hv as (c & <- & Hc0).
    - unfold labelled in Hc0.
      rewrite !(filter_assign_other (String.eqb "merchant_id")) in Hc0
        by reflexivity.
      exact (filter_assign_same _ _ _ c Hc0).
    - unfold labelled in Hc0.
      rewrite (filter_assign_other (String.eqb "customer_id")) in Hc0
        by reflexivity.
      exact (filter_assign_same _ _ _ c Hc0).
    - exact (filter_assign_same _ _ _ c Hc0). }
  split.
  - intros k Ho Hk Hrange.
    destruct (enrich_schema_run df) as (_ & _ & Honce).
    rewrite (Honce k Ho Hk). cbv zeta.
    assert (Er : forallb (offset_in_range to_timedelta_seconds)
                         (map (Governance.cell k) (Governance.rows df))
                 = true).
    { apply forallb_forall. intros x Hx. apply in_map_iff in Hx.
      destruct Hx as (row & <- & Hrow).
      rewrite Forall_forall in Hrange. now apply Hrange. }
    assert (Eb : forallb (offset_in_bounds to_timedelta_seconds)
                         (map (Governance.cell k) (Governance.rows df))
                 = true).
    { apply forallb_forall. intros x Hx. apply offset_in_range_bounds.
      rewrite forallb_forall in Er. now apply Er. }
    rewrite Eb, Er. eauto.
  - intros out Hout.
    destruct (enrich_schema_returned df Hout) as (k & Ho & Hk & _ & ->).
    fold n. fold merchant_ids. fold customer_ids.
    destruct (Ids df
                (map (stamp_of_offset to_timedelta_seconds)
                     (map (Governance.cell k) (Governance.rows df)))
                eq_refl) as (I1 & I2 & I3).
    split; [reflexivity|].
    split; [|split; [|split; [|split; [|split; [|split; [|split;
                                                          [|split]]]]]]].
    + intros c. unfold columns. cbn [setitem data].
      rewrite !assign_names_In.
      change (map fst (data (copy df))) with (columns (copy df)).
      rewrite copy_columns. unfold ENRICHED_COLUMNS. simpl. intuition.
    + intros Hfresh. unfold columns. cbn [setitem data].
      change (map fst (data (copy df))) with (columns (copy df)).
      assert (F1 : ~ In "merchant_id"%string (columns (copy df))).
      { rewrite copy_columns. apply Hfresh. simpl. tauto. }
      pose proof (assign_names_fresh "merchant_id" (map Str merchant_ids)
                    (data (copy df)) F1) as E1.
      assert (F2 : ~ In "customer_id"%string
                     (map fst (assign "merchant_id" (map Str merchant_ids)
                                 (data (copy df))))).
      { rewrite E1, in_app_iff. fold (columns (copy df)).
        rewrite copy_columns. intros [H|[H|[]]]; [|discriminate H].
        revert H. apply Hfresh. simpl. tauto. }
      pose proof (assign_names_fresh "customer_id" (map Str customer_ids)
                    _ F2) as E2.
      rewrite assign_names_fresh.
      * rewrite E2, E1. fold (columns (copy df)). rewrite copy_columns.
        rewrite <- !app_assoc. reflexivity.
      * rewrite E2, E1, !in_app_iff. fold (columns (copy df)).
        rewrite copy_columns.
        intros [[H|[H|[]]]|[H|[]]]; try discriminate H.
        revert H. apply Hfresh. simpl. tauto.
    + reflexivity.
    + reflexivity.
    + exists merchant_ids. split; [exact I1|]. split; assumption.
    + exists customer_ids. split; [exact I2|]. split; assumption.
    + exists k. split; [exact Hk|]. intros v Hv. rewrite (I3 v Hv).
      rewrite map_map. reflexivity.
    + unfold not_enriched. cbn [setitem data].
      rewrite !(filter_assign_other
                  (fun c => negb (existsb (String.eqb c) ENRICHED_COLUMNS)))
        by reflexivity.
      reflexivity.
    + intros df' out' Hn' Hout'.
      destruct (enrich_schema_returned df' Hout') as (k' & _ & _ & _ & ->).
      rewrite Hn'. fold merchant_ids. fold customer_ids.
      destruct (Ids df'
                  (map (stamp_of_offset to_timedelta_seconds)
                       (map (Governance.cell k') (Governance.rows df')))
                  Hn') as (J1 & J2 & _).
      split; assumption.
Qed.

End SchemaFacts.

Lemma forallb_pool (pool ids : list string) :
  forallb (fun x => existsb (String.eqb x) pool) ids = true ->
  Forall (fun x => In x pool) ids.
Proof.
  intros H. apply Forall_forall. intros x Hx.
  rewrite forallb_forall in H. specialize (H x Hx).
  apply existsb_exists in H. destruct H as (y & Hy & E).
  apply String.eqb_eq in E. now subst y.
Qed.

Lemma enrich_schema_contract_witness :
  exists out : Schema.DataFrame,
    Schema.enrich_schema Schema.counter_rng Schema.cyclic_choice
      Schema.whole_seconds cleaned_frame = inr out /\
    Schema.columns out
    = Governance.columns cleaned_frame ++ Schema.ENRICHED_COLUMNS /\
    Schema.columns_labelled "transaction_time" out
    = [[Schema.Stamp 1704067203000000000%Z;
        Schema.Stamp 1704074400000000000%Z]].
Proof.
  destruct (enrich_schema_contract Schema.counter_rng Schema.cyclic_choice
              Schema.whole_seconds cleaned_frame) as (Hreturns & Hout).
  - vm_compute. reflexivity.
  - apply forallb_pool. vm_compute. reflexivity.
  - vm_compute. reflexivity.
  - apply forallb_pool. vm_compute. reflexivity.
  - destruct (Hreturns 0%nat) as (out & E).
    + vm_compute. reflexivity.
    + vm_compute. reflexivity.
    + apply Forall_forall.
      apply (proj1 (forallb_forall
                      (fun row => Schema.offset_in_range Schema.whole_seconds
                                    (Governance.cell 0 row))
                      (Governance.rows cleaned_frame))).
      vm_compute. reflexivity.
    + exists out. split; [exact E|].
      destruct (Hout out E) as (_ & _ & Hcols & _).
      split.
      * apply Hcols. vm_compute.
        intros c [<-|[<-|[<-|[]]]] H;
          repeat (destruct H as [H|H]; [discriminate H|]); exact H.
      * assert (E' : Schema.enrich_schema Schema.counter_rng
                       Schema.cyclic_choice Schema.whole_seconds
                       cleaned_frame
                     = inr out) by exact E.
        vm_compute in E'. injection E' as <-. vm_compute. reflexivity.
Defined.

(* ================================================================== *)
(** * Part II, continued: properties of the remaining functions        *)
(* ================================================================== *)

(** ** Subsequences *)

Lemma Subsequence_refl (A : Type) (l : list A) : Subsequence l l.
Proof. induction l; constructor; assumption. Qed.

Lemma Subsequence_trans (A : Type) (l1 l2 l3 : list A) :
  Subsequence l1 l2 -> Subsequence l2 l3 -> Subsequence l1 l3.
Proof.
  intros H12 H23. revert l1 H12.
  induction H23 as [|x l2 l3 H23 IH|x l2 l3 H23 IH]; intros l1 H12.
  - exact H12.
  - constructor. now apply IH.
  - inversion H12; subst.
    + apply Subsequence_skip. now apply IH.
    + apply Subsequence_keep. now apply IH.
Qed.

Lemma Subsequence_filter (A : Type) (p : A -> bool) (l : list A) :
  Subsequence (filter p l) l.
Proof.
  induction l as [|x l IH]; simpl; [constructor|].
  destruct (p x); constructor; assumption.
Qed.

Lemma Subsequence_length (A : Type) (l1 l2 : list A) :
  Subsequence l1 l2 -> (List.length l1 <= List.length l2)%nat.
Proof. induction 1; simpl; lia. Qed.

(** ** Governance: the cleaned table *)

Section GovernanceMore.

Import Governance GovernanceLog.

Lemma Subsequence_drop_duplicates (seen rs : list (list float)) :
  Subsequence (drop_duplicates_from seen rs) rs.
Proof.
  revert seen. induction rs as [|r rs IH]; intros seen; simpl;
    [constructor|].
  destruct (existsb (row_eqb r) seen); constructor; apply IH.
Qed.

Lemma staged_rows_Subsequence (cols : list string) (rs : list (list float)) :
  Subsequence (staged_rows cols rs) rs.
Proof.
  unfold staged_rows.
  eapply Subsequence_trans; [apply Subsequence_filter|].
  eapply Subsequence_trans; [apply Subsequence_filter|].
  eapply Subsequence_trans; [apply Subsequence_drop_duplicates|].
  apply Subsequence_filter.
Qed.

(** A successful run is a run on a table with every required column,
    and returns the staged rows. *)
Lemma clean_success (df out : DataFrame) :
  snd (clean df) = inr out ->
  (forall c, In c REQUIRED_COLUMNS -> In c (columns df)) /\
  out = mkDataFrame (columns df) (staged_rows (columns df) (rows df)).
Proof.
  intros H. destruct (clean_returned df H) as (Hreq & _ & _ & E).
  now split.
Qed.

Lemma distinct_from_unseen (seen rs : list (list float)) :
  distinct_from seen rs ->
  Forall (fun r => existsb (row_eqb r) seen = false) rs.
Proof.
  revert seen. induction rs as [|r rs IH]; intros seen; simpl;
    [constructor|].
  intros [E H]. constructor; [exact E|].
  apply IH. apply distinct_from_weaken with (seen := r :: seen);
    [|exact H].
  intros x Hx. now right.
Qed.

Lemma distinct_from_pairs (seen rs : list (list float)) :
  distinct_from seen rs ->
  ForallOrdPairs (fun r r' => row_eqb r' r = false) rs.
Proof.
  revert seen. induction rs as [|r rs IH]; intros seen; simpl;
    [constructor|].
  intros [_ H]. constructor; [|now apply (IH (r :: seen))].
  apply distinct_from_unseen in H.
  eapply Forall_impl; [|exact H]. intros r' Hr'. simpl in Hr'.
  now apply orb_false_iff in Hr'.
Qed.

Lemma f64_eqb_compat (x y c : float) :
  (x =? y)%f64 = true ->
  (c <=? x)%f64 = (c <=? y)%f64 /\
  (x <=? c)%f64 = (y <=? c)%f64 /\
  (x =? c)%f64 = (y =? c)%f64.
Proof.
  f64_unfold.
  float_cases x; float_cases y; float_cases c; simpl;
    try (intros H; discriminate H); try (intros _; repeat split; reflexivity);
    intros H; cmp_cases; repeat split; try reflexivity; try discriminate;
    try lia.
Qed.

Lemma cell_eqb_refl (x : float) : cell_eqb x x = true.
Proof.
  unfold cell_eqb. f64_unfold.
  float_cases x; simpl; try reflexivity; cmp_cases.
Qed.

Lemma row_eqb_refl (r : list float) : row_eqb r r = true.
Proof.
  induction r as [|x r IH]; simpl; [reflexivity|].
  now rewrite cell_eqb_refl, IH.
Qed.

Lemma row_eqb_cell (r r' : list float) (k : nat) :
  row_eqb r r' = true -> cell_eqb (cell k r) (cell k r') = true.
Proof.
  revert r' k. induction r as [|x r IH]; intros [|y r'] k; simpl;
    try discriminate.
  - intros _. unfold cell. destruct k; reflexivity.
  - intros H. apply andb_true_iff in H. destruct H as [Hxy Hr].
    destruct k as [|k]; [exact Hxy|]. apply (IH r' k Hr).
Qed.

(** Rows that [drop_duplicates] takes for equal pass or fail the amount
    and label checks together. *)
Lemma row_eqb_checks (cols : list string) (r r' : list float) :
  row_eqb r r' = true ->
  amount_in_range cols r = amount_in_range cols r' /\
  label_is_binary cols r = label_is_binary cols r'.
Proof.
  intros H. unfold amount_in_range, label_is_binary, column_cell.
  assert (C : forall k c,
             (c <=? cell k r)%f64 = (c <=? cell k r')%f64 /\
             (cell k r <=? c)%f64 = (cell k r' <=? c)%f64 /\
             (cell k r =? c)%f64 = (cell k r' =? c)%f64).
  { intros k c. pose proof (row_eqb_cell r r' k H) as E.
    unfold cell_eqb in E. apply orb_true_iff in E.
    destruct E as [E|E]; [|now apply f64_eqb_compat].
    apply andb_true_iff in E. destruct E as [E1 E2].
    destruct (cell k r); try discriminate E1.
    destruct (cell k r'); try discriminate E2.
    repeat split; reflexivity. }
  split.
  - destruct (index_of "Amount" cols) as [k|]; [|reflexivity].
    destruct (C k F64.zero) as (-> & _ & _).
    destruct (C k (F64.of_Z 50000)) as (_ & -> & _). reflexivity.
  - destruct (index_of "Class" cols) as [k|]; [|reflexivity].
    destruct (C k (F64.of_Z 0)) as (_ & _ & ->).
    destruct (C k (F64.of_Z 1)) as (_ & _ & ->). reflexivity.
Qed.

(** Every row has an equal row among those seen or among those kept. *)
Lemma drop_duplicates_from_represents (seen rs : list (list float))
      (r : list float) :
  In r rs ->
  existsb (row_eqb r) seen = true \/
  exists r', In r' (drop_duplicates_from seen rs) /\ row_eqb r r' = true.
Proof.
  revert seen. induction rs as [|x rs IH]; intros seen; simpl; [tauto|].
  intros [->|Hin].
  - destruct (existsb (row_eqb r) seen) eqn:E; [now left|].
    right. exists r. split; [now left|apply row_eqb_refl].
  - destruct (existsb (row_eqb x) seen) eqn:E.
    + apply IH, Hin.
    + destruct (IH (x :: seen) Hin) as [H|(r' & Hr' & Hrr')].
      * simpl in H. apply orb_true_iff in H. destruct H as [H|H].
        -- right. exists x. split; [now left|exact H].
        -- now left.
      * right. exists r'. split; [now right|exact Hrr'].
Qed.

(** X1: every row of a cleaned table has no missing value, an amount
    within [0, 50000] and a label equal to 0 or 1, and no row equals an
    earlier row; the columns are those of the input. *)
Theorem clean_output_invariants :
  forall df out : DataFrame,
    snd (clean df) = inr out ->
    columns out = columns df /\
    Forall (fun r => no_missing_value r = true
                     /\ amount_in_range (columns out) r = true
                     /\ label_is_binary (columns out) r = true)
           (rows out) /\
    ForallOrdPairs (fun r r' => row_eqb r' r = false) (rows out).
Proof.
  intros df out H. destruct (clean_success df H) as (_ & ->).
  cbn [columns rows]. split; [reflexivity|]. split.
  - rewrite Forall_forall. intros r Hr. unfold staged_rows in Hr.
    apply filter_In in Hr. destruct Hr as [Hr L].
    apply filter_In in Hr. destruct Hr as [Hr A].
    apply drop_duplicates_from_In in Hr.
    apply filter_In in Hr. tauto.
  - apply distinct_from_pairs with (seen := []).
    unfold staged_rows. do 2 apply distinct_from_filter.
    apply drop_duplicates_from_distinct.
Qed.

Lemma clean_output_invariants_witness :
  exists out : DataFrame,
    snd (clean raw_frame) = inr out /\
    Forall (fun r => no_missing_value r = true
                     /\ amount_in_range (columns out) r = true
                     /\ label_is_binary (columns out) r = true)
           (rows out).
Proof.
  eexists. split; [vm_compute; reflexivity|].
  refine (proj1 (proj2 (clean_output_invariants raw_frame _))).
  vm_compute. reflexivity.
Defined.

(** X2: cleaning only removes rows: the rows of the cleaned table are
    rows of the input, in their original order, so there are no more
    of them than in the input. *)
Theorem clean_only_removes_rows :
  forall df out : DataFrame,
    snd (clean df) = inr out ->
    Subsequence (rows out) (rows df) /\
    (List.length (rows out) <= List.length (rows df))%nat.
Proof.
  intros df out H. destruct (clean_success df H) as (_ & ->).
  cbn [rows]. split; [apply staged_rows_Subsequence|].
  apply Subsequence_length, staged_rows_Subsequence.
Qed.

Lemma clean_only_removes_rows_witness :
  exists out : DataFrame,
    snd (clean raw_frame) = inr out /\
    Subsequence (rows out) (rows raw_frame).
Proof.
  eexists. split; [vm_compute; reflexivity|].
  refine (proj1 (clean_only_removes_rows raw_frame _)).
  vm_compute. reflexivity.
Defined.

(** X3: cleaning loses no valid record: an input row without
    missing value, with amount in [0, 50000] and label 0 or 1, has an
    equal row in the cleaned table (itself, or the earlier row of which
    it is a duplicate). *)
Theorem clean_keeps_valid_rows :
  forall (df out : DataFrame) (r : list float),
    snd (clean df) = inr out ->
    In r (rows df) ->
    no_missing_value r = true ->
    amount_in_range (columns df) r = true ->
    label_is_binary (columns df) r = true ->
    exists r', In r' (rows out) /\ row_eqb r r' = true.
Proof.
  intros df out r H Hin Hn Ha Hl.
  destruct (clean_success df H) as (_ & ->). cbn [rows].
  assert (H1 : In r (filter no_missing_value (rows df)))
    by (apply filter_In; tauto).
  destruct (drop_duplicates_from_represents [] _ _ H1)
    as [E|(r' & Hr' & Hrr')]; [discriminate E|].
  exists r'. split; [|exact Hrr'].
  destruct (row_eqb_checks (columns df) r r' Hrr') as (Ea & El).
  unfold staged_rows. apply filter_In. split; [|congruence].
  apply filter_In. split; [exact Hr'|congruence].
Qed.

Lemma clean_keeps_valid_rows_witness :
  exists r',
    In r' [ raw_row (F64.of_Z 0) (F64.of_Z 100) (F64.of_Z 0) F64.zero;
            raw_row (F64.of_Z 4) (F64.of_Z 4000) (F64.of_Z 1) F64.zero ] /\
    row_eqb (raw_row (F64.of_Z 0) (F64.of_Z 100) (F64.of_Z 0) F64.zero) r'
    = true.
Proof.
  refine (clean_keeps_valid_rows raw_frame
            (out := mkDataFrame REQUIRED_COLUMNS _)
            (raw_row (F64.of_Z 0) (F64.of_Z 100) (F64.of_Z 0) F64.zero)
            _ _ _ _ _).
  - vm_compute. reflexivity.
  - vm_compute. right. left. reflexivity.
  - vm_compute. reflexivity.
  - vm_compute. reflexivity.
  - vm_compute. reflexivity.
Defined.

Lemma index_of_absent (c : string) (cols : list string) :
  ~ In c cols -> index_of c cols = None.
Proof.
  induction cols as [|c' cols IH]; simpl; [reflexivity|]. intros H.
  destruct (String.eqb c c') eqn:E.
  - apply String.eqb_eq in E. subst. exfalso. apply H. now left.
  - rewrite IH; [reflexivity|]. intros Hin. apply H. now right.
Qed.

(** X4: used on its own, the amount filter raises [KeyError] for
    Amount when the table has no column of that label and the
    [ValueError] for duplicate labels when the label is repeated; with
    one such column it returns the same columns with a selection of the
    rows, in order.  The label filter does the same for Class, and
    prints nothing. *)
Theorem stage_filters_missing_column :
  forall df : DataFrame,
    (~ In "Amount"%string (columns df) ->
       _filter_invalid_amounts df = ([], inl (KeyError "Amount"))) /\
    (occurrences "Amount" (columns df) = 1%nat ->
       exists printed out,
         _filter_invalid_amounts df = (printed, inr out) /\
         columns out = columns df /\ Subsequence (rows out) (rows df)) /\
    (In "Amount"%string (columns df) ->
     occurrences "Amount" (columns df) <> 1%nat ->
       _filter_invalid_amounts df = ([], inl DuplicateLabels)) /\
    (~ In "Class"%string (columns df) ->
       _filter_invalid_labels df = ([], inl (KeyError "Class"))) /\
    (occurrences "Class" (columns df) = 1%nat ->
       exists out,
         _filter_invalid_labels df = ([], inr out) /\
         columns out = columns df /\ Subsequence (rows out) (rows df)) /\
    (In "Class"%string (columns df) ->
     occurrences "Class" (columns df) <> 1%nat ->
       _filter_invalid_labels df = ([], inl DuplicateLabels)).
Proof.
  intros df. split; [|split; [|split; [|split; [|split]]]].
  - intros H. unfold _filter_invalid_amounts, getitem.
    now rewrite (index_of_absent _ _ H).
  - intros H. rewrite (_filter_invalid_amounts_run df H).
    eexists _, _. split; [reflexivity|]. split; [reflexivity|].
    apply Subsequence_filter.
  - intros Hin H. exact (_filter_invalid_amounts_repeated df Hin H).
  - intros H. unfold _filter_invalid_labels, getitem.
    now rewrite (index_of_absent _ _ H).
  - intros H. rewrite (_filter_invalid_labels_run df H).
    eexists. split; [reflexivity|]. split; [reflexivity|].
    apply Subsequence_filter.
  - intros Hin H. exact (_filter_invalid_labels_repeated df Hin H).
Qed.

Lemma stage_filters_missing_column_witness :
  _filter_invalid_labels raw_frame_without_label
  = ([], inl (KeyError "Class")) /\
  (exists printed out,
      _filter_invalid_amounts raw_frame = (printed, inr out) /\
      columns out = columns raw_frame /\
      Subsequence (rows out) (rows raw_frame)) /\
  _filter_invalid_amounts raw_frame_repeated_amount
  = ([], inl DuplicateLabels).
Proof.
  destruct (stage_filters_missing_column raw_frame_without_label)
    as (_ & _ & _ & Hl & _).
  destruct (stage_filters_missing_column raw_frame) as (_ & Ha & _).
  destruct (stage_filters_missing_column raw_frame_repeated_amount)
    as (_ & _ & Hd & _).
  split; [|split].
  - apply Hl. vm_compute. intros H.
    repeat (destruct H as [H|H]; [discriminate H|]). exact H.
  - apply Ha. reflexivity.
  - apply Hd.
    + cbn [columns raw_frame_repeated_amount]. apply in_or_app. right.
      now left.
    + vm_compute. lia.
Defined.

Lemma removal_event_spec (mk : nat -> Event) (before after : nat) :
  (forall n, is_completion (mk n) = false) ->
  (forall n, removed_rows (mk n) = n) ->
  Forall (fun e => is_completion e = false /\ (1 <= removed_rows e)%nat)
         (removal_event mk before after) /\
  total_removed (removal_event mk before after) = (before - after)%nat.
Proof.
  intros Hc Hr. unfold removal_event.
  destruct (before - after =? 0)%nat eqn:E; simpl.
  - apply Nat.eqb_eq in E. split; [constructor|].
    unfold total_removed. simpl. lia.
  - apply Nat.eqb_neq in E. split.
    + constructor; [|constructor]. rewrite Hc, Hr. split; [reflexivity|lia].
    + unfold total_removed. simpl. rewrite Hr. lia.
Qed.

Lemma total_removed_app (l1 l2 : list Event) :
  total_removed (l1 ++ l2) = (total_removed l1 + total_removed l2)%nat.
Proof.
  unfold total_removed. induction l1 as [|e l1 IH]; simpl; [reflexivity|].
  rewrite IH. lia.
Qed.

Lemma clean_returns (df out : DataFrame) (printed : list Event) :
  clean df = (printed, inr out) ->
  let r1 := filter no_missing_value (rows df) in
  let r2 := drop_duplicates_from [] r1 in
  let r3 := filter (amount_in_range (columns df)) r2 in
  let r4 := filter (label_is_binary (columns df)) r3 in
  printed
  = removal_event DroppedNulls (List.length (rows df)) (List.length r1)
    ++ removal_event RemovedDuplicates (List.length r1) (List.length r2)
    ++ removal_event FilteredAmounts (List.length r2) (List.length r3)
    ++ [ValidationComplete (List.length r4)]
  /\ rows out = r4.
Proof.
  intros H.
  destruct (clean_returned df (out := out)) as (Hreq & Ha & Hl & Eout);
    [now rewrite H|].
  pose proof (clean_run df Hreq Ha Hl) as R. cbv zeta in R.
  pose proof (f_equal fst R) as Rf. pose proof (f_equal fst H) as Hf.
  cbn [fst] in Rf, Hf. cbv zeta. split.
  - rewrite <- Hf. exact Rf.
  - rewrite Eout. reflexivity.
Qed.

(** What a run of [clean] that raises has printed. *)
Lemma clean_raised (df : DataFrame) (printed : list Event) (e : Exception) :
  clean df = (printed, inl e) ->
  let r1 := filter no_missing_value (rows df) in
  let r2 := drop_duplicates_from [] r1 in
  let r3 := filter (amount_in_range (columns df)) r2 in
  (printed = [] /\ exists missing, e = ValueError missing) \/
  (e = DuplicateLabels /\
   (printed
    = removal_event DroppedNulls (List.length (rows df)) (List.length r1)
      ++ removal_event RemovedDuplicates (List.length r1) (List.length r2)
    \/
    printed
    = removal_event DroppedNulls (List.length (rows df)) (List.length r1)
      ++ removal_event RemovedDuplicates (List.length r1) (List.length r2)
      ++ removal_event FilteredAmounts (List.length r2) (List.length r3))).
Proof.
  intros H. cbv zeta.
  pose proof (f_equal fst H) as Hf. pose proof (f_equal snd H) as Hs.
  cbn [fst snd] in Hf, Hs.
  destruct (required_or_missing df) as [Hreq|(c & Hc & Hnot)].
  2:{ destruct (clean_missing df Hc Hnot) as (missing & _ & E).
      rewrite E in Hf, Hs. cbn [fst snd] in Hf, Hs. left.
      split; [now symmetry|]. exists missing. congruence. }
  right.
  destruct (Nat.eq_dec (occurrences "Amount" (columns df)) 1) as [Ha|Ha].
  2:{ pose proof (clean_run_repeated_amount df Hreq Ha) as E. cbv zeta in E.
      rewrite E in Hf, Hs. cbn [fst snd] in Hf, Hs.
      split; [congruence|]. left. now symmetry. }
  destruct (Nat.eq_dec (occurrences "Class" (columns df)) 1) as [Hl|Hl].
  2:{ pose proof (clean_run_repeated_class df Hreq Ha Hl) as E.
      cbv zeta in E. rewrite E in Hf, Hs. cbn [fst snd] in Hf, Hs.
      split; [congruence|]. right. now symmetry. }
  pose proof (f_equal snd (clean_run df Hreq Ha Hl)) as R. cbn [snd] in R.
  rewrite R in Hs. discriminate Hs.
Qed.

(** X5: a run of [clean] that raises the schema error prints
    nothing, and a run that raises for any reason prints removal
    messages only, each reporting at least one row and together no more
    rows than the input has.  A run that returns prints removal
    messages followed by one completion message that reports the
    number of rows returned; each removal message reports at least one
    row, and the rows reported as removed together with the rows
    returned are no more than the rows of the input. *)
Theorem clean_prints :
  forall (df : DataFrame) (printed : list Event),
    (forall missing, clean df = (printed, inl (ValueError missing)) ->
       printed = []) /\
    (forall e, clean df = (printed, inl e) ->
       Forall (fun ev => is_completion ev = false
                         /\ (1 <= removed_rows ev)%nat) printed /\
       (total_removed printed <= List.length (rows df))%nat) /\
    (forall out, clean df = (printed, inr out) ->
       exists removals,
         printed
         = removals ++ [ValidationComplete (List.length (rows out))] /\
         Forall (fun e => is_completion e = false
                          /\ (1 <= removed_rows e)%nat) removals /\
         (total_removed printed + List.length (rows out)
          <= List.length (rows df))%nat).
Proof.
  intros df printed.
  remember (filter no_missing_value (rows df)) as r1 eqn:E1.
  remember (drop_duplicates_from [] r1) as r2 eqn:E2.
  remember (filter (amount_in_range (columns df)) r2) as r3 eqn:E3.
  remember (filter (label_is_binary (columns df)) r3) as r4 eqn:E4.
  assert (L1 : (List.length r1 <= List.length (rows df))%nat)
    by (rewrite E1; apply Subsequence_length, Subsequence_filter).
  assert (L2 : (List.length r2 <= List.length r1)%nat)
    by (rewrite E2; apply Subsequence_length, Subsequence_drop_duplicates).
  assert (L3 : (List.length r3 <= List.length r2)%nat)
    by (rewrite E3; apply Subsequence_length, Subsequence_filter).
  assert (L4 : (List.length r4 <= List.length r3)%nat)
    by (rewrite E4; apply Subsequence_length, Subsequence_filter).
  destruct (removal_event_spec DroppedNulls (List.length (rows df))
              (List.length r1)) as (F1 & T1); try reflexivity.
  destruct (removal_event_spec RemovedDuplicates (List.length r1)
              (List.length r2)) as (F2 & T2); try reflexivity.
  destruct (removal_event_spec FilteredAmounts (List.length r2)
              (List.length r3)) as (F3 & T3); try reflexivity.
  split; [|split].
  - intros missing H.
    destruct (clean_raised df H) as [(Hp & _)|(He & _)];
      [exact Hp|discriminate He].
  - intros e H. pose proof (clean_raised df H) as R. cbv zeta in R.
    rewrite <- E1, <- E2, <- E3 in R.
    destruct R as [(-> & _)|(_ & [->| ->])].
    + split; [constructor|]. unfold total_removed. simpl. lia.
    + split; [apply Forall_app; now split|].
      rewrite total_removed_app, T1, T2. lia.
    + split; [apply Forall_app; split; [exact F1|];
              apply Forall_app; now split|].
      rewrite !total_removed_app, T1, T2, T3. lia.
  - intros out H. destruct (clean_returns df H) as (Hp & Ho).
    cbv zeta in Hp, Ho. rewrite <- E1, <- E2, <- E3, <- E4 in Hp, Ho.
    rewrite Ho.
    exists (removal_event DroppedNulls (List.length (rows df))
              (List.length r1)
            ++ removal_event RemovedDuplicates (List.length r1)
                 (List.length r2)
            ++ removal_event FilteredAmounts (List.length r2)
                 (List.length r3)).
    split; [rewrite Hp, <- !app_assoc; reflexivity|]. split.
    + apply Forall_app. split; [exact F1|].
      apply Forall_app. split; assumption.
    + rewrite Hp, !total_removed_app, T1, T2, T3.
      unfold total_removed. simpl. lia.
Qed.

Lemma clean_prints_witness :
  (exists removals,
      [DroppedNulls 1; RemovedDuplicates 1; FilteredAmounts 1;
       ValidationComplete 2]
      = removals ++ [ValidationComplete 2] /\
      Forall (fun e => is_completion e = false /\ (1 <= removed_rows e)%nat)
             removals) /\
  Forall (fun e => is_completion e = false /\ (1 <= removed_rows e)%nat)
         [DroppedNulls 1; RemovedDuplicates 1; FilteredAmounts 1].
Proof.
  split.
  - destruct (proj2 (proj2 (clean_prints raw_frame
                       [DroppedNulls 1; RemovedDuplicates 1;
                        FilteredAmounts 1; ValidationComplete 2]))
                (mkDataFrame REQUIRED_COLUMNS
                   [ raw_row (F64.of_Z 0) (F64.of_Z 100) (F64.of_Z 0)
                             F64.zero;
                     raw_row (F64.of_Z 4) (F64.of_Z 4000) (F64.of_Z 1)
                             F64.zero ]))
      as (removals & E & F & _).
    + vm_compute. reflexivity.
    + exists removals. split; assumption.
  - apply (proj1 (proj2 (clean_prints raw_frame_repeated_class
                           [DroppedNulls 1; RemovedDuplicates 1;
                            FilteredAmounts 1]))
             DuplicateLabels).
    vm_compute. reflexivity.
Defined.

End GovernanceMore.

(* ------------------------------------------------------------------ *)
(** ** rule_engine.py: the table as a whole                            *)
(* ------------------------------------------------------------------ *)

Section RuleEngineMore.

Import RuleEngine RuleRow.

Lemma combine_map_self (A B : Type) (f : A -> B) (l : list A) :
  combine l (map f l) = map (fun x => (x, f x)) l.
Proof. induction l as [|x l IH]; simpl; [reflexivity|]. now rewrite IH. Qed.

Lemma row_score_ext (df df' : TxnFrame) (t : Txn) :
  has_transaction_time df = has_transaction_time df' ->
  customer_frequency df t = customer_frequency df' t ->
  row_score df t = row_score df' t.
Proof. intros Hh Hf. unfold row_score. now rewrite Hh, Hf. Qed.

(** X6: the score of a row does not depend on where the row stands in
    the table: two tables with the same rows in different orders (and
    the same columns) pair every row with the same score, and
    [apply_rules] returns one score per row. *)
Theorem apply_rules_row_order :
  forall df df' : TxnFrame,
    has_transaction_time df = has_transaction_time df' ->
    Permutation (txns df) (txns df') ->
    List.length (apply_rules df) = List.length (txns df) /\
    Permutation (combine (txns df) (apply_rules df))
                (combine (txns df') (apply_rules df')).
Proof.
  intros df df' Hh Hp. rewrite !apply_rules_rowwise. split.
  - apply length_map.
  - rewrite !combine_map_self.
    assert (E : forall t, row_score df t = row_score df' t).
    { intros t. apply row_score_ext; [exact Hh|].
      unfold customer_frequency, value_counts. f_equal.
      apply Permutation_count_occ. now apply Permutation_map. }
    rewrite (map_ext _ (fun t => (t, row_score df' t)));
      [|intros t; now rewrite E].
    now apply Permutation_map.
Qed.

Lemma apply_rules_row_order_witness :
  Permutation
    (combine (txns two_customer_frame) (apply_rules two_customer_frame))
    (combine (txns two_customer_frame_reordered)
             (apply_rules two_customer_frame_reordered)).
Proof.
  apply (apply_rules_row_order two_customer_frame two_customer_frame_reordered).
  - reflexivity.
  - cbn [txns two_customer_frame two_customer_frame_reordered].
    apply Permutation_sym, (Permutation_cons_app [_; _] []), Permutation_refl.
Defined.

(** X7: appending rows to a table never lowers the score of a row
    that was there, and leaves it unchanged when none of the new rows
    belongs to the row's customer. *)
Theorem apply_rules_append :
  forall (df : TxnFrame) (more : list Txn) (i : nat) (t : Txn),
    nth_error (txns df) i = Some t ->
    exists s s' : float,
      nth_error (apply_rules df) i = Some s /\
      nth_error (apply_rules (append_rows df more)) i = Some s' /\
      (s <=? s')%f64 = true /\
      (~ In (customer_id t) (map customer_id more) -> s' = s).
Proof.
  intros df more i t Ht.
  assert (Ht' : nth_error (txns (append_rows df more)) i = Some t).
  { cbn [append_rows txns]. rewrite nth_error_app1; [exact Ht|].
    apply nth_error_Some. congruence. }
  exists (row_score df t), (row_score (append_rows df more) t).
  split; [now apply apply_rules_nth|].
  split; [now apply apply_rules_nth|].
  assert (Ef : customer_frequency (append_rows df more) t
               = (customer_frequency df t
                  + Z.of_nat (count_occ string_dec (map customer_id more)
                                (customer_id t)))%Z).
  { unfold customer_frequency, value_counts. cbn [append_rows txns].
    rewrite map_app, count_occ_app. lia. }
  unfold row_score. cbn [append_rows has_transaction_time]. rewrite Ef. split.
  - apply rule_score_mono_frequency. lia.
  - intros Hnot. apply (count_occ_not_In string_dec) in Hnot.
    rewrite Hnot, Z.add_0_r. reflexivity.
Qed.

Lemma apply_rules_append_witness :
  exists s s' : float,
    nth_error (apply_rules nine_row_frame) 0 = Some s /\
    nth_error
      (apply_rules (append_rows nine_row_frame [noon_row "CUST_0001" 100])) 0
    = Some s' /\
    (s <=? s')%f64 = true.
Proof.
  destruct (apply_rules_append nine_row_frame [noon_row "CUST_0001" 100] 0
              (t := noon_row "CUST_0001" 5000))
    as (s & s' & H1 & H2 & H3 & _).
  - reflexivity.
  - exists s, s'. split; [exact H1|]. split; [exact H2|exact H3].
Defined.

(** X8: the velocity signal is a property of the customer: two rows of
    the same customer get the same velocity score, and a table of
    fewer than ten rows gets no velocity score at all. *)
Theorem velocity_is_per_customer :
  forall df : TxnFrame,
    (forall (i j : nat) (t t' : Txn),
        nth_error (txns df) i = Some t ->
        nth_error (txns df) j = Some t' ->
        customer_id t = customer_id t' ->
        nth_error (_score_customer_velocity df) i
        = nth_error (_score_customer_velocity df) j) /\
    ((List.length (txns df) < 10)%nat ->
       _score_customer_velocity df
       = Series.full (List.length (txns df)) F64.zero).
Proof.
  intros df. rewrite _score_customer_velocity_rowwise. split.
  - intros i j t t' Hi Hj E.
    rewrite (map_nth_error _ _ _ Hi), (map_nth_error _ _ _ Hj).
    unfold customer_frequency. now rewrite E.
  - intros Hlen. rewrite series_full_map. apply map_ext. intros t.
    unfold velocity_component, customer_frequency, value_counts.
    pose proof (count_occ_bound string_dec (customer_id t)
                  (map customer_id (txns df))) as B.
    rewrite length_map in B.
    destruct (Z.geb_spec
                (Z.of_nat (count_occ string_dec (map customer_id (txns df))
                             (customer_id t)))
                HIGH_VELOCITY_CUTOFF) as [G|G]; [|reflexivity].
    unfold HIGH_VELOCITY_CUTOFF in G. lia.
Qed.

Lemma velocity_is_per_customer_witness :
  nth_error (_score_customer_velocity two_customer_frame) 0
  = nth_error (_score_customer_velocity two_customer_frame) 2 /\
  _score_customer_velocity nine_row_frame = Series.full 9 F64.zero.
Proof.
  destruct (velocity_is_per_customer two_customer_frame) as (Hsame & _).
  destruct (velocity_is_per_customer nine_row_frame) as (_ & Hfew).
  split.
  - apply (Hsame 0%nat 2%nat (noon_row "CUST_0001" 100)
                 (noon_row "CUST_0001" 5000)); reflexivity.
  - apply Hfew. vm_compute. lia.
Defined.

(** X9: for a table without the [transaction_time] column the
    off-hours rule scores every row zero, the rule score is the sum of
    the amount score and the velocity score, and no score exceeds
    0.8. *)
Theorem apply_rules_without_timestamp :
  forall df : TxnFrame,
    has_transaction_time df = false ->
    _score_off_hours df = Series.full (List.length (txns df)) F64.zero /\
    apply_rules df
    = Series.add (_score_amount df) (_score_customer_velocity df) /\
    (forall s, In s (apply_rules df) -> (s <=? F64.decimal 8 10)%f64 = true).
Proof.
  intros df Hno.
  assert (E : forall t,
             row_score df t
             = (amount_component (Amount t)
                + velocity_component (customer_frequency df t))%f64
             /\ (row_score df t <=? F64.decimal 8 10)%f64 = true).
  { intros t. unfold row_score. rewrite Hno.
    rule_components false (Amount t) (customer_frequency df t)
                    (dt_hour (transaction_time t));
      try (unfold off_hours_component in Ho; simpl in Ho; discriminate Ho);
      vm_compute; split; reflexivity. }
  split; [|split].
  - unfold _score_off_hours. now rewrite Hno.
  - rewrite apply_rules_rowwise, _score_amount_rowwise,
      _score_customer_velocity_rowwise, series_add_map.
    apply map_ext. intros t. apply E.
  - intros s Hs. rewrite apply_rules_rowwise in Hs.
    apply in_map_iff in Hs. destruct Hs as (t & <- & _). apply E.
Qed.

Lemma apply_rules_without_timestamp_witness :
  apply_rules nine_row_frame
  = Series.add (_score_amount nine_row_frame)
               (_score_customer_velocity nine_row_frame).
Proof.
  apply (apply_rules_without_timestamp nine_row_frame). reflexivity.
Defined.

End RuleEngineMore.

(* ------------------------------------------------------------------ *)
(** ** risk_engine.py: [score_transactions]                            *)
(* ------------------------------------------------------------------ *)

Section ScoringFacts.

Import RiskEngine Scoring.

Lemma series_add_length (a b : Series.t) :
  List.length a = List.length b ->
  List.length (Series.add a b) = List.length a.
Proof.
  revert b. induction a as [|x a IH]; intros [|y b] H; simpl in *;
    try discriminate; [reflexivity|]. f_equal. apply IH. congruence.
Qed.

Lemma _compute_hybrid_score_length (rule ml : Series.t) :
  List.length rule = List.length ml ->
  List.length (_compute_hybrid_score rule ml) = List.length rule.
Proof.
  intros H. unfold _compute_hybrid_score, Series.clip, Series.scale.
  rewrite length_map, series_add_length; rewrite !length_map; congruence.
Qed.

Lemma _compute_hybrid_score_cons (r m : float) (rule ml : Series.t) :
  _compute_hybrid_score (r :: rule) (m :: ml)
  = hybrid_of r m :: _compute_hybrid_score rule ml.
Proof. reflexivity. Qed.

(** With one value per row in each series, the returned rows are the
    rows of the table, each with its two inputs, their hybrid score
    and the label of that score. *)
Lemma attach_rowwise (rows : list Txn) (rule ml : Series.t) :
  List.length rule = List.length rows ->
  List.length ml = List.length rows ->
  attach rows rule ml (_compute_hybrid_score rule ml)
         (_assign_risk_label (_compute_hybrid_score rule ml))
  = map (fun x : Txn * (float * float) =>
           let '(t, (r, m)) := x in
           mkScoredTxn t r m (hybrid_of r m) (label_of (hybrid_of r m)))
        (combine rows (combine rule ml)).
Proof.
  revert rule ml.
  induction rows as [|t rows IH]; intros [|r rule] [|m ml] Hr Hm;
    simpl in Hr, Hm; try discriminate; [reflexivity|].
  rewrite _compute_hybrid_score_cons.
  unfold attach in *. cbn [_assign_risk_label map combine].
  f_equal. apply IH; congruence.
Qed.

Lemma combine_columns (rows : list Txn) (rule ml : Series.t) :
  List.length rule = List.length rows ->
  List.length ml = List.length rows ->
  map fst (combine rows (combine rule ml)) = rows /\
  map (fun x : Txn * (float * float) => fst (snd x))
      (combine rows (combine rule ml)) = rule /\
  map (fun x : Txn * (float * float) => snd (snd x))
      (combine rows (combine rule ml)) = ml /\
  map (fun x : Txn * (float * float) => hybrid_of (fst (snd x)) (snd (snd x)))
      (combine rows (combine rule ml)) = _compute_hybrid_score rule ml.
Proof.
  revert rule ml.
  induction rows as [|t rows IH]; intros [|r rule] [|m ml] Hr Hm;
    simpl in Hr, Hm; try discriminate; [repeat split|].
  destruct (IH rule ml) as (H1 & H2 & H3 & H4); [congruence|congruence|].
  rewrite _compute_hybrid_score_cons. cbn [combine map fst snd].
  rewrite H1, H2, H3, H4. repeat split.
Qed.

Lemma score_transactions_aligned (df : TxnFrame) (rule ml : Series.t) :
  List.length rule = List.length (txns df) ->
  List.length ml = List.length (txns df) ->
  score_transactions df rule ml
  = Returned
      (mkScoredFrame (has_transaction_time df)
         (map (fun x : Txn * (float * float) =>
                 let '(t, (r, m)) := x in
                 mkScoredTxn t r m (hybrid_of r m) (label_of (hybrid_of r m)))
              (combine (txns df) (combine rule ml)))).
Proof.
  intros Hr Hm. unfold score_transactions. cbv zeta.
  rewrite Hr, Hm, !Nat.eqb_refl. cbn [negb].
  rewrite attach_rowwise by assumption.
  destruct (0 <? List.length (txns df))%nat eqn:E; cbn [orb andb];
    [reflexivity|].
  destruct (List.length (txns df) =? 0)%nat eqn:E0; cbn [andb];
    [reflexivity|].
  apply Nat.ltb_ge in E. apply Nat.eqb_neq in E0. lia.
Qed.

Lemma score_transactions_returned (df : TxnFrame) (rule ml : Series.t)
      (out : ScoredFrame) :
  score_transactions df rule ml = Returned out ->
  List.length rule = List.length (txns df) /\
  List.length ml = List.length (txns df).
Proof.
  unfold score_transactions. cbv zeta.
  destruct ((0 <? List.length (txns df))%nat
            || ((List.length rule =? 0)%nat && (List.length ml =? 0)%nat)).
  - destruct (List.length rule =? List.length (txns df))%nat eqn:Er;
      cbn [negb]; [|discriminate].
    destruct (List.length ml =? List.length (txns df))%nat eqn:Em;
      cbn [negb]; [|discriminate].
    intros _. apply Nat.eqb_eq in Er, Em. now split.
  - destruct (0 <? List.length rule)%nat; [|discriminate].
    destruct (negb (List.length ml =? List.length rule)%nat); discriminate.
Qed.

(** X10: [score_transactions] returns the table with its risk
    columns whenever each series has one value per row: the rows keep
    their order and their original columns, the two inputs are stored
    as passed, and the score and label columns are those of
    [_compute_hybrid_score] and [_assign_risk_label].  For a table with
    at least one row it returns only then: a series of another length
    raises the length mismatch [ValueError], for the rule series
    first.  A table without rows takes its rows from the series: with
    two series of the same length, not zero, the call returns a table
    of that many rows whose original columns are missing and whose risk
    columns are the two series, their hybrid score and its labels. *)
Theorem score_transactions_lengths :
  forall (df : TxnFrame) (rule ml : Series.t),
    let n := List.length (txns df) in
    (List.length rule = n -> List.length ml = n ->
       exists out : ScoredFrame,
         score_transactions df rule ml = Returned out /\
         scored_has_transaction_time out = has_transaction_time df /\
         map base (scored out) = txns df /\
         map rule_risk (scored out) = rule /\
         map ml_probability (scored out) = ml /\
         map final_risk_score (scored out) = _compute_hybrid_score rule ml /\
         map risk_label (scored out)
         = _assign_risk_label (_compute_hybrid_score rule ml)) /\
    (txns df <> [] ->
       (List.length rule = n /\ List.length ml = n
        <-> exists out, score_transactions df rule ml = Returned out) /\
       (forall has_time risk,
           score_transactions df rule ml <> Reindexed has_time risk) /\
       (List.length rule <> n ->
          score_transactions df rule ml
          = Raised (LengthMismatch (List.length rule) n)) /\
       (List.length rule = n -> List.length ml <> n ->
          score_transactions df rule ml
          = Raised (LengthMismatch (List.length ml) n))) /\
    (txns df = [] -> rule <> [] -> List.length ml = List.length rule ->
       score_transactions df rule ml
       = Reindexed (has_transaction_time df)
           (mkRiskColumns rule ml (_compute_hybrid_score rule ml)
              (_assign_risk_label (_compute_hybrid_score rule ml)))).
Proof.
  intros df rule ml n. subst n.
  assert (Hret : List.length rule = List.length (txns df) ->
                 List.length ml = List.length (txns df) ->
                 exists out : ScoredFrame,
                   score_transactions df rule ml = Returned out /\
                   scored_has_transaction_time out = has_transaction_time df /\
                   map base (scored out) = txns df /\
                   map rule_risk (scored out) = rule /\
                   map ml_probability (scored out) = ml /\
                   map final_risk_score (scored out)
                   = _compute_hybrid_score rule ml /\
                   map risk_label (scored out)
                   = _assign_risk_label (_compute_hybrid_score rule ml)).
  { intros Hr Hm. eexists. split; [apply score_transactions_aligned;
                                    assumption|].
    cbn [scored scored_has_transaction_time]. split; [reflexivity|].
    destruct (combine_columns (txns df) rule ml Hr Hm)
      as (H1 & H2 & H3 & H4).
    rewrite !map_map.
    split; [rewrite <- H1 at 2; apply map_ext; now intros (t & r & m)|].
    split; [rewrite <- H2 at 2; apply map_ext; now intros (t & r & m)|].
    split; [rewrite <- H3 at 2; apply map_ext; now intros (t & r & m)|].
    split; [rewrite <- H4; apply map_ext; now intros (t & r & m)|].
    rewrite <- H4. unfold _assign_risk_label. rewrite map_map.
    apply map_ext. now intros (t & r & m). }
  split; [exact Hret|]. split.
  - intros Hne.
    assert (Hpos : (0 <? List.length (txns df))%nat = true).
    { destruct (txns df); [congruence|reflexivity]. }
    split; [|split; [|split]].
    + split.
      * intros (Hr & Hm). destruct (Hret Hr Hm) as (out & E & _). eauto.
      * intros (out & E). exact (score_transactions_returned _ _ _ E).
    + intros has_time risk. unfold score_transactions. cbv zeta.
      rewrite Hpos. cbn [orb].
      destruct (negb (List.length rule =? List.length (txns df))%nat);
        [discriminate|].
      destruct (negb (List.length ml =? List.length (txns df))%nat);
        discriminate.
    + intros Hr. unfold score_transactions. cbv zeta.
      rewrite Hpos. cbn [orb]. apply Nat.eqb_neq in Hr. now rewrite Hr.
    + intros Hr Hm. unfold score_transactions. cbv zeta.
      rewrite Hpos. cbn [orb]. rewrite Hr, Nat.eqb_refl. cbn [negb].
      apply Nat.eqb_neq in Hm. now rewrite Hm.
  - intros Hnil Hrule Hm. unfold score_transactions. cbv zeta.
    rewrite Hnil, Hm. cbn [List.length Nat.ltb Nat.leb orb].
    destruct rule as [|r rule]; [congruence|].
    cbn [List.length Nat.eqb andb Nat.ltb Nat.leb].
    now rewrite Nat.eqb_refl.
Qed.

Lemma score_transactions_lengths_witness :
  (exists out : ScoredFrame,
      score_transactions two_customer_frame
        (RuleEngine.apply_rules two_customer_frame)
        [F64.zero; F64.decimal 1 2; F64.of_Z 1]
      = Returned out /\
      map risk_label (scored out) = ["LOW"; "MEDIUM"; "HIGH"]%string) /\
  score_transactions two_customer_frame [F64.zero] []
  = Raised (LengthMismatch 1 3) /\
  score_transactions (mkTxnFrame true []) [F64.of_Z 1] [F64.of_Z 1]
  = Reindexed true
      (mkRiskColumns [F64.of_Z 1] [F64.of_Z 1] [F64.of_Z 1] ["HIGH"%string]).
Proof.
  destruct (score_transactions_lengths two_customer_frame
              (RuleEngine.apply_rules two_customer_frame)
              [F64.zero; F64.decimal 1 2; F64.of_Z 1])
    as (Hret & _).
  destruct (score_transactions_lengths two_customer_frame [F64.zero] [])
    as (_ & Hrows & _).
  destruct (score_transactions_lengths (mkTxnFrame true [])
              [F64.of_Z 1] [F64.of_Z 1]) as (_ & _ & Hempty).
  split; [|split].
  - destruct Hret as (out & E & _ & _ & _ & _ & _ & Hl);
      [reflexivity|reflexivity|].
    exists out. split; [exact E|]. rewrite Hl. vm_compute. reflexivity.
  - destruct Hrows as (_ & _ & Hraise & _); [discriminate|].
    apply Hraise. vm_compute. lia.
  - rewrite Hempty; [|reflexivity|discriminate|reflexivity].
    vm_compute. reflexivity.
Defined.

Lemma clip1_range (lower upper x : float) :
  (lower <=? upper)%f64 = true ->
  F64.is_nan (Series.clip1 lower upper x) = true \/
  ((lower <=? Series.clip1 lower upper x)%f64 = true /\
   (Series.clip1 lower upper x <=? upper)%f64 = true).
Proof.
  intros Hlu. destruct (f64_leb_not_nan _ _ Hlu) as (Nl & Nu).
  unfold Series.clip1. destruct (F64.is_nan x) eqn:Nx; [now left|]. right.
  cbv zeta. destruct (x >=? lower)%f64 eqn:G.
  - destruct (x <=? upper)%f64 eqn:L.
    + split; [exact G|exact L].
    + split; [exact Hlu|now apply f64_leb_refl].
  - rewrite Hlu. split; [now apply f64_leb_refl|exact Hlu].
Qed.

Lemma label_of_nan (s : float) :
  F64.is_nan s = true -> label_of s = "LOW"%string.
Proof. destruct s; try discriminate. intros _. reflexivity. Qed.

Lemma label_of_values (s : float) :
  In (label_of s) ["HIGH"; "MEDIUM"; "LOW"]%string.
Proof.
  unfold label_of. cbn [np_select].
  destruct (s >=? THRESHOLD_HIGH)%f64; [now left|].
  destruct (s >=? THRESHOLD_MEDIUM)%f64; [right; now left|].
  right; right; now left.
Qed.

(** X11: in a table returned by [score_transactions] every row is
    coherent: its score is the clamped weighted sum of its own two
    inputs, its label is the tier of its own score, the score is
    either missing or between 0 and 1, a missing score is labelled
    LOW, and no label other than HIGH, MEDIUM and LOW occurs. *)
Theorem score_transactions_rows :
  forall (df : TxnFrame) (rule ml : Series.t) (out : ScoredFrame),
    score_transactions df rule ml = Returned out ->
    Forall
      (fun r =>
         final_risk_score r = hybrid_of (rule_risk r) (ml_probability r) /\
         risk_label r = label_of (final_risk_score r) /\
         (F64.is_nan (final_risk_score r) = true \/
          ((F64.zero <=? final_risk_score r)%f64 = true /\
           (final_risk_score r <=? F64.of_Z 1)%f64 = true)) /\
         (F64.is_nan (final_risk_score r) = true ->
          risk_label r = "LOW"%string) /\
         In (risk_label r) ["HIGH"; "MEDIUM"; "LOW"]%string)
      (scored out).
Proof.
  intros df rule ml out H.
  destruct (score_transactions_returned _ _ _ H) as (Hr & Hm).
  rewrite (score_transactions_aligned df rule ml Hr Hm) in H.
  injection H as <-. cbn [scored]. apply Forall_forall. intros row Hin.
  apply in_map_iff in Hin. destruct Hin as ((t & r & m) & <- & _).
  cbn [final_risk_score rule_risk ml_probability risk_label].
  split; [reflexivity|]. split; [reflexivity|]. split; [|split].
  - apply clip1_range. vm_compute. reflexivity.
  - apply label_of_nan.
  - apply label_of_values.
Qed.

Lemma score_transactions_rows_witness :
  Forall
    (fun r => risk_label r = label_of (final_risk_score r) /\
              In (risk_label r) ["HIGH"; "MEDIUM"; "LOW"]%string)
    (map (fun x : Txn * (float * float) =>
            let '(t, (r, m)) := x in
            mkScoredTxn t r m (hybrid_of r m) (label_of (hybrid_of r m)))
         (combine (txns nine_row_frame)
            (combine (RuleEngine.apply_rules nine_row_frame)
                     (Series.full 9 F64.nan)))).
Proof.
  assert (E : score_transactions nine_row_frame
                (RuleEngine.apply_rules nine_row_frame)
                (Series.full 9 F64.nan)
              = Returned
                  (mkScoredFrame false
                     (map (fun x : Txn * (float * float) =>
                             let '(t, (r, m)) := x in
                             mkScoredTxn t r m (hybrid_of r m)
                               (label_of (hybrid_of r m)))
                          (combine (txns nine_row_frame)
                             (combine (RuleEngine.apply_rules nine_row_frame)
                                      (Series.full 9 F64.nan)))))).
  { vm_compute. reflexivity. }
  pose proof (score_transactions_rows _ _ _ E) as F. cbn [scored] in F.
  eapply Forall_impl; [|exact F]. intros r (_ & Hl & _ & _ & Hv).
  split; assumption.
Defined.

(** X12: the rule engine alone never raises a row above LOW: scored
    with the rule scores of its own table and a model probability of 0
    in every row, every returned row has a final score of at most 0.35
    and the label LOW. *)
Theorem rules_alone_stay_low :
  forall df : TxnFrame,
    exists out : ScoredFrame,
      score_transactions df (RuleEngine.apply_rules df)
        (Series.full (List.length (txns df)) F64.zero)
      = Returned out /\
      List.length (scored out) = List.length (txns df) /\
      Forall (fun r => (final_risk_score r <=? RULE_WEIGHT)%f64 = true /\
                       risk_label r = "LOW"%string)
             (scored out).
Proof.
  intros df.
  assert (Hr : List.length (RuleEngine.apply_rules df)
               = List.length (txns df))
    by (rewrite apply_rules_rowwise; apply length_map).
  assert (Hm : List.length (Series.full (List.length (txns df)) F64.zero)
               = List.length (txns df)) by apply repeat_length.
  eexists. split; [apply score_transactions_aligned; assumption|].
  cbn [scored]. split.
  - rewrite length_map, length_combine, length_combine, Hr, Hm. lia.
  - apply Forall_forall. intros row Hin. apply in_map_iff in Hin.
    destruct Hin as ((t & r & m) & <- & Hin).
    apply in_combine_r in Hin.
    pose proof (in_combine_l _ _ _ _ Hin) as Hrule.
    pose proof (in_combine_r _ _ _ _ Hin) as Hml.
    apply repeat_spec in Hml. subst m.
    rewrite apply_rules_rowwise in Hrule. apply in_map_iff in Hrule.
    destruct Hrule as (t' & <- & _). unfold RuleRow.row_score.
    cbn [final_risk_score risk_label].
    destruct (rule_score_values (has_transaction_time df) (Amount t')
                (RuleRow.customer_frequency df t')
                (dt_hour (transaction_time t'))) as (Hv & _).
    unfold rule_values in Hv. cbn [In] in Hv.
    repeat (destruct Hv as [<-|Hv]; [vm_compute; split; reflexivity|]).
    contradiction.
Qed.

End ScoringFacts.

(* ------------------------------------------------------------------ *)
(** ** risk_metrics.py: counts, the flagged listing and totals         *)
(* ------------------------------------------------------------------ *)

Section MetricsMore.

Import RiskMetrics RiskMetricsMore.

Lemma sum_cons (x : Z) (xs : list Z) : sum (x :: xs) = (x + sum xs)%Z.
Proof. reflexivity. Qed.

Lemma sum_perm (xs ys : list Z) : Permutation xs ys -> sum xs = sum ys.
Proof.
  induction 1 as [|x xs ys _ IH|x y xs|xs ys zs _ IH1 _ IH2];
    rewrite ?sum_cons; try lia; reflexivity.
Qed.

Lemma sum_map_add (A : Type) (f g : A -> Z) (l : list A) :
  sum (map (fun x => (f x + g x)%Z) l) = (sum (map f l) + sum (map g l))%Z.
Proof.
  induction l as [|x l IH]; [reflexivity|].
  cbn [map]. rewrite !sum_cons, IH. lia.
Qed.

Lemma count_true_filter (A : Type) (p : A -> bool) (l : list A) :
  count_true (map p l) = Z.of_nat (List.length (filter p l)).
Proof.
  unfold count_true. induction l as [|x l IH]; [reflexivity|].
  cbn [map filter]. rewrite sum_cons, IH.
  destruct (p x); cbn [List.length]; lia.
Qed.

Lemma filter_length_le (A : Type) (p : A -> bool) (l : list A) :
  (List.length (filter p l) <= List.length l)%nat.
Proof.
  induction l as [|x l IH]; [apply Nat.le_refl|].
  cbn [filter]. destruct (p x); cbn [List.length]; lia.
Qed.

Lemma filter_length_impl (A : Type) (p q : A -> bool) (l : list A) :
  (forall x, p x = true -> q x = true) ->
  (List.length (filter p l) <= List.length (filter q l))%nat.
Proof.
  intros Hpq. induction l as [|x l IH]; [apply Nat.le_refl|].
  cbn [filter]. destruct (p x) eqn:Ep.
  - rewrite (Hpq x Ep). cbn [List.length]. lia.
  - destruct (q x); cbn [List.length]; lia.
Qed.

Lemma f64_geb_nan_threshold (x t : float) :
  F64.is_nan t = true -> (x >=? t)%f64 = false.
Proof. destruct t; try discriminate. intros _. now destruct x. Qed.

Lemma f64_geb_not_nan (x t : float) :
  (x >=? t)%f64 = true -> F64.is_nan x = false.
Proof. intros H. apply (f64_leb_not_nan t x H). Qed.

(** X13: [high_risk_count] is the number of rows whose score is at
    least the threshold; it lies between 0 and the number of rows,
    does not grow when the threshold is raised, does not count rows
    whose score is missing, and is 0 for a missing threshold. *)
Theorem high_risk_count_bounds :
  forall (df : ScoredFrame) (threshold : float),
    high_risk_count df threshold
    = Z.of_nat
        (List.length
           (filter (fun r => (final_risk_score r >=? threshold)%f64)
                   (scored df))) /\
    (0 <= high_risk_count df threshold <= Z.of_nat (List.length (scored df)))%Z /\
    (high_risk_count df threshold
     <= count (map final_risk_score (scored df)))%Z /\
    (forall higher : float,
        (threshold <=? higher)%f64 = true ->
        (high_risk_count df higher <= high_risk_count df threshold)%Z) /\
    (F64.is_nan threshold = true -> high_risk_count df threshold = 0%Z).
Proof.
  intros df t. unfold high_risk_count. rewrite count_true_filter.
  split; [reflexivity|]. split; [|split; [|split]].
  - pose proof (filter_length_le
                  (fun r => (final_risk_score r >=? t)%f64) (scored df)).
    lia.
  - unfold count.
    replace (List.length
               (filter (fun x => negb (F64.is_nan x))
                       (map final_risk_score (scored df))))
      with (List.length
              (filter (fun r => negb (F64.is_nan (final_risk_score r)))
                      (scored df))).
    + apply inj_le, filter_length_impl. intros r H.
      now rewrite (f64_geb_not_nan _ _ H).
    + clear. induction (scored df) as [|r l IH]; [reflexivity|].
      cbn [map filter]. destruct (negb (F64.is_nan (final_risk_score r)));
        cbn [List.length]; now rewrite IH.
  - intros higher Hle. rewrite count_true_filter.
    apply inj_le, filter_length_impl. intros r H.
    exact (f64_leb_trans _ _ _ Hle H).
  - intros Hnan. rewrite (filter_ext _ (fun _ => false)).
    + clear. induction (scored df) as [|r l IH]; [reflexivity|exact IH].
    + intros r. now apply f64_geb_nan_threshold.
Qed.

Lemma high_risk_count_bounds_witness :
  (high_risk_count mixed_score_frame (F64.decimal 3 4)
   <= high_risk_count mixed_score_frame (F64.decimal 1 4))%Z /\
  high_risk_count mixed_score_frame F64.nan = 0%Z.
Proof.
  destruct (high_risk_count_bounds mixed_score_frame (F64.decimal 1 4))
    as (_ & _ & _ & Hanti & _).
  destruct (high_risk_count_bounds mixed_score_frame F64.nan)
    as (_ & _ & _ & _ & Hnan).
  split.
  - apply Hanti. vm_compute. reflexivity.
  - apply Hnan. reflexivity.
Defined.

Lemma display_columns (df : ScoredFrame) :
  filter (in_columns df) DISPLAY_COLS
  = if scored_has_transaction_time df then DISPLAY_COLS
    else List.tl DISPLAY_COLS.
Proof.
  unfold DISPLAY_COLS. cbn [filter in_columns String.eqb Ascii.eqb
                             Bool.eqb existsb orb List.tl].
  now destruct (scored_has_transaction_time df).
Qed.

Lemma descending_without_nan (A : Type) (f : A -> float) (l : list A) :
  Forall (fun r => F64.is_nan (f r) = false) l ->
  StronglySorted (fun a b => (f a <? f b)%f64 = false) l ->
  StronglySorted (fun a b => (f b <=? f a)%f64 = true) l.
Proof.
  intros Hn Hs. induction Hs as [|a l Hs IH Ha]; [constructor|].
  inversion Hn as [|? ? Na Nl]; subst. constructor; [now apply IH|].
  rewrite Forall_forall in *. intros b Hb.
  destruct (f b <=? f a)%f64 eqn:E; [reflexivity|].
  specialize (Ha b Hb). cbn beta in Ha.
  pose proof (f64_not_geb_ltb (f a) (f b) Na (Nl b Hb) E) as Hlt. congruence.
Qed.

Lemma flagged_listing
      (sort : list ScoredTxn -> list ScoredTxn) (df : ScoredFrame)
      (threshold : float) :
  let flagged :=
    filter (fun r => (final_risk_score r >=? threshold)%f64) (scored df) in
  Permutation (sort flagged) flagged ->
  (forall r, In r (sort flagged)
             <-> In r (scored df)
                 /\ (final_risk_score r >=? threshold)%f64 = true) /\
  Z.of_nat (List.length (sort flagged)) = high_risk_count df threshold /\
  Forall (fun r => F64.is_nan (final_risk_score r) = false) (sort flagged).
Proof.
  intros flagged Hp. split; [|split].
  - intros r. split.
    + intros H. apply (Permutation_in _ Hp) in H.
      now apply filter_In in H.
    + intros H. apply (Permutation_in _ (Permutation_sym Hp)).
      now apply filter_In.
  - unfold high_risk_count. rewrite count_true_filter.
    now rewrite (Permutation_length Hp).
  - apply Forall_forall. intros r H. apply (Permutation_in _ Hp) in H.
    apply filter_In in H. destruct H as (_ & H).
    exact (f64_geb_not_nan _ _ H).
Qed.

(** X14: [high_risk_transactions] lists exactly the rows whose score
    is at least the threshold, as many as [high_risk_count] counts,
    none with a missing score, each score at least the scores after
    it; its columns are the display columns in their fixed order,
    without [transaction_time] when the table lacks it.  The sorting
    routine is assumed to permute its input and to put no larger score
    after a smaller one. *)
Theorem high_risk_transactions_listing :
  forall (sort : list ScoredTxn -> list ScoredTxn) (df : ScoredFrame)
         (threshold : float),
    let flagged :=
      filter (fun r => (final_risk_score r >=? threshold)%f64) (scored df) in
    Permutation (sort flagged) flagged ->
    StronglySorted
      (fun a b => (final_risk_score a <? final_risk_score b)%f64 = false)
      (sort flagged) ->
    let listing := high_risk_transactions sort df threshold in
    (forall r, In r (listing_rows listing)
               <-> In r (scored df)
                   /\ (final_risk_score r >=? threshold)%f64 = true) /\
    Z.of_nat (List.length (listing_rows listing))
    = high_risk_count df threshold /\
    Forall (fun r => F64.is_nan (final_risk_score r) = false)
           (listing_rows listing) /\
    StronglySorted
      (fun a b => (final_risk_score b <=? final_risk_score a)%f64 = true)
      (listing_rows listing) /\
    listing_columns listing
    = (if scored_has_transaction_time df then DISPLAY_COLS
       else List.tl DISPLAY_COLS).
Proof.
  intros sort df t flagged Hp Hs listing.
  destruct (flagged_listing sort df t Hp) as (Hin & Hlen & Hnan).
  subst listing. unfold high_risk_transactions.
  cbn [listing_rows listing_columns]. fold flagged.
  split; [exact Hin|]. split; [exact Hlen|]. split; [exact Hnan|].
  split; [now apply descending_without_nan|apply display_columns].
Qed.

Lemma high_risk_transactions_listing_witness :
  map final_risk_score
      (listing_rows
         (high_risk_transactions stable_by_score mixed_score_frame
            (F64.decimal 1 4)))
  = [F64.decimal 3 4; F64.decimal 1 4] /\
  Z.of_nat
    (List.length
       (listing_rows
          (high_risk_transactions stable_by_score mixed_score_frame
             (F64.decimal 1 4))))
  = high_risk_count mixed_score_frame (F64.decimal 1 4).
Proof.
  destruct (high_risk_transactions_listing stable_by_score mixed_score_frame
              (F64.decimal 1 4)) as (_ & Hlen & _).
  - apply isort_perm.
  - vm_compute. repeat constructor.
  - split; [vm_compute; reflexivity|exact Hlen].
Defined.

Lemma label_of_high (s : float) :
  String.eqb (Scoring.label_of s) "HIGH" = (s >=? DEFAULT_THRESHOLD)%f64.
Proof.
  unfold Scoring.label_of. cbn [RiskEngine.np_select].
  change RiskEngine.THRESHOLD_HIGH with DEFAULT_THRESHOLD.
  destruct (s >=? DEFAULT_THRESHOLD)%f64; [reflexivity|].
  now destruct (s >=? RiskEngine.THRESHOLD_MEDIUM)%f64.
Qed.

Lemma label_counts_total (rows : list ScoredTxn) :
  Forall (fun r => In (risk_label r) ["HIGH"; "MEDIUM"; "LOW"]%string) rows ->
  (label_count "HIGH" rows + label_count "MEDIUM" rows
   + label_count "LOW" rows)%Z
  = Z.of_nat (List.length rows).
Proof.
  unfold label_count. induction 1 as [|r rows Hr _ IH]; [reflexivity|].
  cbn [filter List.length]. cbn [In] in Hr.
  destruct Hr as [<-|[<-|[<-|[]]]]; cbn [String.eqb Ascii.eqb Bool.eqb];
    cbn [List.length]; lia.
Qed.

(** X15: on a table returned by [score_transactions], the default
    [high_risk_count] is the number of rows labelled HIGH, and the
    rows labelled HIGH, MEDIUM and LOW together are all the rows. *)
Theorem high_risk_count_counts_high_labels :
  forall (df : TxnFrame) (rule ml : Series.t) (out : ScoredFrame),
    Scoring.score_transactions df rule ml = Scoring.Returned out ->
    high_risk_count out DEFAULT_THRESHOLD = label_count "HIGH" (scored out) /\
    (label_count "HIGH" (scored out) + label_count "MEDIUM" (scored out)
     + label_count "LOW" (scored out))%Z
    = Z.of_nat (List.length (txns df)).
Proof.
  intros df rule ml out H.
  destruct (score_transactions_returned _ _ _ H) as (Hr & Hm).
  rewrite (score_transactions_aligned df rule ml Hr Hm) in H.
  injection H as <-. cbn [scored]. split.
  - unfold high_risk_count, label_count. rewrite count_true_filter.
    do 2 f_equal. apply filter_ext_in. intros row Hin.
    apply in_map_iff in Hin. destruct Hin as ((t & r & m) & <- & _).
    cbn [final_risk_score risk_label]. now rewrite label_of_high.
  - rewrite label_counts_total.
    + rewrite length_map, !length_combine, Hr, Hm. lia.
    + apply Forall_forall. intros row Hin.
      apply in_map_iff in Hin. destruct Hin as ((t & r & m) & <- & _).
      cbn [risk_label]. apply label_of_values.
Qed.

Lemma high_risk_count_counts_high_labels_witness :
  high_risk_count scored_two_customer_frame DEFAULT_THRESHOLD
  = label_count "HIGH" (scored scored_two_customer_frame) /\
  label_count "HIGH" (scored scored_two_customer_frame) = 1%Z.
Proof.
  split; [|reflexivity].
  apply (high_risk_count_counts_high_labels
           two_customer_frame
           (RuleEngine.apply_rules two_customer_frame)
           [F64.zero; F64.decimal 1 2; F64.of_Z 1]).
  vm_compute. reflexivity.
Defined.

End MetricsMore.

(** *** Grouping splits the rows: totals over the groups are totals
    over the table *)

Section GroupTotals.

Import RiskMetrics.

Variables K R : Type.
Variable K_eq_dec : forall x y : K, {x = y} + {x <> y}.
Variable K_leb : K -> K -> bool.
Variable key : R -> K.
Variable f : R -> Z.

Lemma sum_indicator_absent (k0 : K) (v : Z) (keys : list K) :
  ~ In k0 keys ->
  sum (map (fun k => if K_eq_dec k0 k then v else 0%Z) keys) = 0%Z.
Proof.
  induction keys as [|k keys IH]; [reflexivity|]. intros Hnot.
  cbn [map]. rewrite sum_cons. destruct (K_eq_dec k0 k) as [->|_].
  - exfalso. apply Hnot. now left.
  - rewrite IH; [reflexivity|]. intros H. apply Hnot. now right.
Qed.

Lemma sum_indicator (k0 : K) (v : Z) (keys : list K) :
  NoDup keys -> In k0 keys ->
  sum (map (fun k => if K_eq_dec k0 k then v else 0%Z) keys) = v.
Proof.
  induction 1 as [|k keys Hk Hnd IH]; [intros []|]. intros Hin.
  cbn [map]. rewrite sum_cons. destruct (K_eq_dec k0 k) as [->|Hne].
  - rewrite sum_indicator_absent by exact Hk. lia.
  - destruct Hin as [->|Hin]; [congruence|]. rewrite IH by exact Hin. lia.
Qed.

Lemma partition_sum (keys : list K) (rs : list R) :
  NoDup keys -> (forall r, In r rs -> In (key r) keys) ->
  sum (map (fun k =>
              sum (map f (filter (fun r => if K_eq_dec (key r) k
                                           then true else false) rs)))
           keys)
  = sum (map f rs).
Proof.
  intros Hnd. induction rs as [|r rs IH]; intros Hin.
  - cbn [filter map]. clear. induction keys as [|k keys IH];
      [reflexivity|]. cbn [map]. now rewrite sum_cons, IH.
  - rewrite (map_ext _
               (fun k =>
                  ((if K_eq_dec (key r) k then f r else 0)
                   + sum (map f (filter (fun r' => if K_eq_dec (key r') k
                                                   then true else false)
                                        rs)))%Z)).
    + rewrite sum_map_add, IH, sum_indicator.
      * reflexivity.
      * exact Hnd.
      * apply Hin. now left.
      * intros r' Hr'. apply Hin. now right.
    + intros k. cbn [filter]. destruct (K_eq_dec (key r) k); reflexivity.
Qed.

Lemma groupby_total (rs : list R) :
  sum (map (fun g => sum (map f (snd g))) (groupby K_eq_dec K_leb key rs))
  = sum (map f rs).
Proof.
  unfold groupby. rewrite map_map. cbn [snd].
  apply partition_sum.
  - apply (Permutation_NoDup (Permutation_sym (isort_perm K_leb _))).
    apply NoDup_nodup.
  - intros r Hr.
    apply (Permutation_in _ (Permutation_sym (isort_perm K_leb _))).
    apply nodup_In. now apply in_map.
Qed.

Lemma groupby_length (rs : list R) :
  (List.length (groupby K_eq_dec K_leb key rs) <= List.length rs)%nat.
Proof.
  unfold groupby. rewrite length_map.
  rewrite (Permutation_length (isort_perm K_leb _)).
  rewrite <- (length_map key rs). apply NoDup_incl_length.
  - apply NoDup_nodup.
  - intros k Hk. now apply nodup_In in Hk.
Qed.

End GroupTotals.

Section MetricsTotals.

Import RiskMetrics RiskMetricsMore.

Variable mean : list float -> float.

Lemma count_as_sum (A : Type) (g : A -> float) (l : list A) :
  count (map g l)
  = sum (map (fun r => if F64.is_nan (g r) then 0%Z else 1%Z) l).
Proof.
  unfold count. induction l as [|x l IH]; [reflexivity|].
  cbn [map filter]. rewrite sum_cons, <- IH.
  destruct (F64.is_nan (g x)); cbn [negb List.length]; lia.
Qed.

Lemma merchant_agg_totals (df : ScoredFrame) :
  let grouped := map (merchant_agg mean) (merchant_groups df) in
  sum (map agg_fraud_count grouped)
  = sum (map (fun r => Class_ (base r)) (scored df)) /\
  sum (map agg_total_transactions grouped)
  = count (map final_risk_score (scored df)) /\
  (List.length grouped <= List.length (scored df))%nat.
Proof.
  cbv zeta. unfold merchant_groups. rewrite !map_map.
  cbn [agg_fraud_count agg_total_transactions merchant_agg]. split; [|split].
  - apply groupby_total.
  - rewrite count_as_sum.
    rewrite (map_ext _ (fun g => sum (map (fun r =>
                                             if F64.is_nan (final_risk_score r)
                                             then 0%Z else 1%Z) (snd g))));
      [apply groupby_total|].
    intros g. apply count_as_sum.
  - rewrite length_map. apply groupby_length.
Qed.

(** X16: the merchant ranking accounts for every transaction once:
    the fraud counts of its rows add up to the number of fraud labels
    of the table, the transaction counts add up to the number of rows
    with a score, and there are no more ranking rows than table rows.
    The sorting routine is assumed to permute the grouped table. *)
Theorem merchant_ranking_totals :
  forall (sort : list MerchantAgg -> list MerchantAgg) (df : ScoredFrame),
    Permutation (sort (map (merchant_agg mean) (merchant_groups df)))
                (map (merchant_agg mean) (merchant_groups df)) ->
    let ranking := merchant_ranking mean sort df in
    sum (map mr_fraud_count ranking)
    = sum (map (fun r => Class_ (base r)) (scored df)) /\
    sum (map mr_total_transactions ranking)
    = count (map final_risk_score (scored df)) /\
    (List.length ranking <= List.length (scored df))%nat.
Proof.
  intros sort df Hp ranking. subst ranking.
  rewrite merchant_ranking_unfold.
  destruct (merchant_agg_totals df) as (Hf & Ht & Hl). cbv zeta in *.
  rewrite !map_map, length_map. cbn [mr_fraud_count mr_total_transactions
                                       ranking_row].
  split; [|split].
  - rewrite <- Hf. apply sum_perm. now apply Permutation_map.
  - rewrite <- Ht. apply sum_perm. now apply Permutation_map.
  - now rewrite (Permutation_length Hp).
Qed.

(** X17: the daily trend accounts for every transaction once: for a
    table with the [transaction_time] column the daily fraud counts
    add up to the number of fraud labels of the table and the daily
    transaction counts to the number of rows with a score, and there
    are no more days than rows; without the column all totals are
    zero. *)
Theorem daily_risk_trend_totals :
  forall df : ScoredFrame,
    let trend := trend_rows (daily_risk_trend mean df) in
    (scored_has_transaction_time df = true ->
       sum (map tr_fraud_count trend)
       = sum (map (fun r => Class_ (base r)) (scored df)) /\
       sum (map tr_transaction_count trend)
       = count (map final_risk_score (scored df)) /\
       (List.length trend <= List.length (scored df))%nat) /\
    (scored_has_transaction_time df = false ->
       sum (map tr_fraud_count trend) = 0%Z /\
       sum (map tr_transaction_count trend) = 0%Z).
Proof.
  intros df trend. subst trend. unfold daily_risk_trend. cbv zeta. split.
  - intros Ht. rewrite Ht. cbn [negb trend_rows].
    pose proof (isort_perm (fun a b => (tr_date a <=? tr_date b)%Z)
                  (map (trend_point mean) (date_groups df))) as Hp.
    fold (sort_by_date (map (trend_point mean) (date_groups df))) in Hp.
    rewrite length_map.
    rewrite (map_map _ tr_fraud_count), (map_map _ tr_transaction_count).
    cbn [tr_fraud_count tr_transaction_count].
    change (fun x : TrendPoint => tr_fraud_count x) with tr_fraud_count.
    change (fun x : TrendPoint => tr_transaction_count x)
      with tr_transaction_count.
    split; [|split].
    + rewrite (sum_perm (Permutation_map tr_fraud_count Hp)).
      rewrite map_map. cbn [tr_fraud_count trend_point].
      apply groupby_total.
    + rewrite (sum_perm (Permutation_map tr_transaction_count Hp)).
      rewrite map_map. cbn [tr_transaction_count trend_point].
      rewrite count_as_sum.
      rewrite (map_ext _ (fun g => sum (map (fun r =>
                                               if F64.is_nan
                                                    (final_risk_score r)
                                               then 0%Z else 1%Z) (snd g))));
        [apply groupby_total|].
      intros g. apply count_as_sum.
    + rewrite (Permutation_length Hp), length_map. apply groupby_length.
  - intros Ht. rewrite Ht. split; reflexivity.
Qed.

End MetricsTotals.

Lemma merchant_ranking_totals_witness :
  RiskMetrics.sum
    (map RiskMetrics.mr_total_transactions
         (RiskMetrics.merchant_ranking RiskMetrics.naive_mean
            RiskMetrics.stable_sort_descending mixed_score_frame))
  = 2%Z.
Proof.
  destruct (merchant_ranking_totals RiskMetrics.naive_mean
              RiskMetrics.stable_sort_descending mixed_score_frame)
    as (_ & Ht & _).
  - apply stable_sort_descending_perm.
  - rewrite Ht. reflexivity.
Defined.

Lemma daily_risk_trend_totals_witness :
  RiskMetrics.sum
    (map RiskMetrics.tr_fraud_count
         (RiskMetrics.trend_rows
            (RiskMetrics.daily_risk_trend RiskMetrics.naive_mean
               two_day_frame)))
  = 1%Z /\
  RiskMetrics.sum
    (map RiskMetrics.tr_fraud_count
         (RiskMetrics.trend_rows
            (RiskMetrics.daily_risk_trend RiskMetrics.naive_mean
               untimed_frame)))
  = 0%Z.
Proof.
  destruct (daily_risk_trend_totals RiskMetrics.naive_mean two_day_frame)
    as (Hyes & _).
  destruct (daily_risk_trend_totals RiskMetrics.naive_mean untimed_frame)
    as (_ & Hno).
  split.
  - destruct Hyes as (Hf & _); [reflexivity|]. rewrite Hf. reflexivity.
  - apply Hno. reflexivity.
Defined.

(* ------------------------------------------------------------------ *)
(** ** agent.py, analytics_service.py and the insight panel            *)
(* ------------------------------------------------------------------ *)

Lemma groupby_count (K R : Type) (K_eq_dec : forall x y : K, {x = y} + {x <> y})
      (K_leb : K -> K -> bool) (key : R -> K) (rs : list R) :
  List.length (groupby K_eq_dec K_leb key rs)
  = List.length (nodup K_eq_dec (map key rs)).
Proof.
  unfold groupby. rewrite length_map.
  apply Permutation_length, isort_perm.
Qed.

Lemma groupby_nil_iff (K R : Type)
      (K_eq_dec : forall x y : K, {x = y} + {x <> y})
      (K_leb : K -> K -> bool) (key : R -> K) (rs : list R) :
  groupby K_eq_dec K_leb key rs = [] <-> rs = [].
Proof.
  split.
  - intros H. destruct rs as [|r rs]; [reflexivity|]. exfalso.
    assert (Hin : In (key r) (map fst (groupby K_eq_dec K_leb key (r :: rs)))).
    { apply groupby_keys_In. exists r. split; [now left|reflexivity]. }
    rewrite H in Hin. exact Hin.
  - intros ->. reflexivity.
Qed.

Section InsightFacts.

Import Agent RiskMetrics RiskMetricsMore AnalyticsService Dashboard.

Variable format_fixed : nat -> float -> string.
Variable format_grouped : Z -> string.
Variable mean : list float -> float.

Lemma render_ai_panel_widgets (insights : list string) :
  map fst (render_ai_panel insights) = map widget_of insights.
Proof.
  unfold render_ai_panel, widget_of. rewrite map_map. apply map_ext.
  intros insight. destruct (String.prefix "ALERT" insight); [reflexivity|].
  now destruct (String.prefix "WARNING" insight).
Qed.

(** X18: the panel makes one call per insight, in order, and the
    component it chooses depends on the kind of insight as follows.
    The fraud-rate insight is shown as an error exactly above 0.05 and
    as a warning exactly above 0.01 up to 0.05; the average-risk
    insight as an error exactly above 0.70 and as a warning exactly
    above 0.40 up to 0.70; a missing value gives the informational
    component; the top-merchant insight is always informational and
    the trend insight is never an error. *)
Theorem insight_severity :
  (forall insights : list string,
      map fst (render_ai_panel insights) = map widget_of insights) /\
  (forall x : float,
      widget_of (_insight_fraud_rate format_fixed x)
      = if (x >? F64.decimal 5 100)%f64 then st_error
        else if (x >? F64.decimal 1 100)%f64 then st_warning
        else st_info) /\
  (forall x : float,
      widget_of (_insight_avg_risk format_fixed x)
      = if (x >? F64.decimal 70 100)%f64 then st_error
        else if (x >? F64.decimal 40 100)%f64 then st_warning
        else st_info) /\
  widget_of (_insight_fraud_rate format_fixed F64.nan) = st_info /\
  widget_of (_insight_avg_risk format_fixed F64.nan) = st_info /\
  (forall ranking : list MerchantRank,
      widget_of (_insight_top_merchant format_fixed format_grouped ranking)
      = st_info) /\
  (forall trend : TrendFrame,
      widget_of (_insight_risk_trend format_fixed mean trend) <> st_error).
Proof.
  split; [exact render_ai_panel_widgets|].
  split; [|split; [|split; [|split; [|split]]]].
  - intros x. unfold _insight_fraud_rate.
    destruct (x >? F64.decimal 5 100)%f64; [reflexivity|].
    destruct (x >? F64.decimal 1 100)%f64; reflexivity.
  - intros x. unfold _insight_avg_risk.
    destruct (x >? F64.decimal 70 100)%f64; [reflexivity|].
    destruct (x >? F64.decimal 40 100)%f64; reflexivity.
  - reflexivity.
  - reflexivity.
  - intros [|top ranking]; reflexivity.
  - intros trend. unfold _insight_risk_trend. cbv zeta.
    destruct (trend_is_empty trend
              || (List.length (trend_rows trend) <? 2)%nat);
      [discriminate|].
    match goal with |- context [if ?c then _ else _] => destruct c end;
      [discriminate|].
    match goal with |- context [if ?c then _ else _] => destruct c end;
      discriminate.
Qed.

Variable mean_int : list Z -> float.
Variable sort_by_avg_risk_descending : list MerchantAgg -> list MerchantAgg.
Variable sort_by_score_descending : list ScoredTxn -> list ScoredTxn.

Lemma trend_row_count (df : ScoredFrame) :
  scored_has_transaction_time df = true ->
  List.length (trend_rows (daily_risk_trend mean df))
  = List.length
      (nodup Z.eq_dec
         (map (fun r => dt_date (transaction_time (base r))) (scored df))).
Proof.
  intros Ht. unfold daily_risk_trend. cbv zeta. rewrite Ht.
  cbn [negb trend_rows]. rewrite length_map. unfold sort_by_date.
  rewrite (Permutation_length (isort_perm _ _)), length_map.
  apply groupby_count.
Qed.

Lemma trend_fallback_iff (trend : TrendFrame) :
  trend_columns trend = TREND_COLUMNS ->
  _insight_risk_trend format_fixed mean trend
  = "Insufficient time-series data for trend analysis."%string
  <-> (List.length (trend_rows trend) < 2)%nat.
Proof.
  intros Hc. unfold _insight_risk_trend, trend_is_empty. cbv zeta.
  rewrite Hc. cbn [TREND_COLUMNS List.length Nat.eqb orb].
  destruct (List.length (trend_rows trend)) as [|[|n]] eqn:E.
  - cbn [Nat.eqb orb]. split; [lia|reflexivity].
  - cbn [Nat.eqb Nat.ltb Nat.leb orb]. split; [lia|reflexivity].
  - cbn [Nat.eqb Nat.ltb Nat.leb orb]. split; [|lia].
    match goal with |- context [if ?c then _ else _] => destruct c end;
      [discriminate|].
    match goal with |- context [if ?c then _ else _] => destruct c end;
      discriminate.
Qed.

(** X19: the insights [get_ai_insights] computes for a table are four,
    in the order fraud rate, average risk, top merchant, trend.  The
    top-merchant insight is the no-data message exactly when the table
    has no rows, and the trend insight is the insufficient-data message
    exactly when the table lacks the [transaction_time] column or its
    rows fall on fewer than two calendar dates.  The sorting routine of
    the ranking is assumed to permute the grouped table. *)
Theorem get_ai_insights_fallbacks :
  forall (df : ScoredFrame) (threshold : float),
    Permutation
      (sort_by_avg_risk_descending
         (map (merchant_agg mean) (merchant_groups df)))
      (map (merchant_agg mean) (merchant_groups df)) ->
    let insights :=
      get_ai_insights format_fixed format_grouped mean mean_int
        sort_by_avg_risk_descending sort_by_score_descending df threshold in
    insights
    = [ _insight_fraud_rate format_fixed
          (fraud_rate mean_int df);
        _insight_avg_risk format_fixed (avg_risk mean df);
        _insight_top_merchant format_fixed format_grouped
          (merchant_ranking mean sort_by_avg_risk_descending df);
        _insight_risk_trend format_fixed mean (daily_risk_trend mean df) ] /\
    (nth 2 insights EmptyString
     = "No merchant data available for analysis."%string
     <-> scored df = []) /\
    (nth 3 insights EmptyString
     = "Insufficient time-series data for trend analysis."%string
     <-> scored_has_transaction_time df = false \/
         (List.length
            (nodup Z.eq_dec
               (map (fun r => dt_date (transaction_time (base r)))
                    (scored df))) < 2)%nat).
Proof.
  intros df threshold Hp insights. subst insights.
  unfold get_ai_insights, generate_insights, compute_all, as_metrics.
  cbn [Agent.fraud_rate Agent.avg_risk Agent.merchant_ranking
       Agent.daily_risk_trend get p_fraud_rate p_avg_risk
       p_merchant_ranking p_daily_risk_trend nth].
  split; [reflexivity|]. split.
  - rewrite merchant_ranking_unfold.
    split.
    + intros H.
      destruct (sort_by_avg_risk_descending
                  (map (merchant_agg mean) (merchant_groups df)))
        as [|a l] eqn:E; [|discriminate H].
      apply Permutation_nil in Hp. apply map_eq_nil in Hp.
      unfold merchant_groups in Hp. now apply groupby_nil_iff in Hp.
    + intros E. unfold merchant_groups in *. rewrite E in *.
      cbn [groupby map nodup isort fold_right] in *.
      apply Permutation_sym, Permutation_nil in Hp. now rewrite Hp.
  - rewrite trend_fallback_iff
      by (unfold daily_risk_trend; cbv zeta;
          now destruct (negb (scored_has_transaction_time df))).
    destruct (scored_has_transaction_time df) eqn:Ht.
    + rewrite (trend_row_count df Ht). split; [now right|].
      intros [H|H]; [discriminate|exact H].
    + unfold daily_risk_trend. cbv zeta. rewrite Ht.
      cbn [negb trend_rows List.length]. split; [now left|lia].
Qed.

End InsightFacts.

Lemma get_ai_insights_fallbacks_witness :
  nth 2 (AnalyticsService.get_ai_insights Agent.blank_fixed
           Agent.blank_grouped RiskMetrics.naive_mean
           RiskMetricsMore.naive_mean_int RiskMetrics.stable_sort_descending
           RiskMetricsMore.stable_by_score no_rows_frame
           RiskMetricsMore.DEFAULT_THRESHOLD) EmptyString
  = "No merchant data available for analysis."%string /\
  nth 3 (AnalyticsService.get_ai_insights Agent.blank_fixed
           Agent.blank_grouped RiskMetrics.naive_mean
           RiskMetricsMore.naive_mean_int RiskMetrics.stable_sort_descending
           RiskMetricsMore.stable_by_score one_in_three_frame
           RiskMetricsMore.DEFAULT_THRESHOLD) EmptyString
  = "Insufficient time-series data for trend analysis."%string.
Proof.
  destruct (get_ai_insights_fallbacks Agent.blank_fixed Agent.blank_grouped
              RiskMetrics.naive_mean RiskMetricsMore.naive_mean_int
              RiskMetrics.stable_sort_descending
              RiskMetricsMore.stable_by_score no_rows_frame
              RiskMetricsMore.DEFAULT_THRESHOLD) as (_ & Hm & _).
  { apply stable_sort_descending_perm. }
  destruct (get_ai_insights_fallbacks Agent.blank_fixed Agent.blank_grouped
              RiskMetrics.naive_mean RiskMetricsMore.naive_mean_int
              RiskMetrics.stable_sort_descending
              RiskMetricsMore.stable_by_score one_in_three_frame
              RiskMetricsMore.DEFAULT_THRESHOLD) as (_ & _ & Ht).
  { apply stable_sort_descending_perm. }
  split.
  - apply Hm. reflexivity.
  - apply Ht. right. vm_compute. lia.
Defined.

(* ------------------------------------------------------------------ *)
(** ** schema.py: the offset column and the wall-clock time            *)
(* ------------------------------------------------------------------ *)

Section SchemaMore.

Import Schema.

Variable Generator : Type.
Variable default_rng : Z -> Generator.
Variable choice : Generator -> list string -> nat -> list string * Generator.
Variable to_timedelta_seconds : float -> Conversion.

(** X20: [enrich_schema] raises [KeyError] for Time when the table
    has no column of that label -- which does not happen on a table
    that [clean] returns -- and [TypeError] when the label is repeated.
    With one Time column it raises [OutOfBoundsTimedelta] when some
    offset does not convert to a duration, the overflow error when all
    convert but the reference instant plus some duration is not a
    timestamp, and otherwise returns a table with as many rows as its
    input. *)
Theorem enrich_schema_time_column :
  forall df : Governance.DataFrame,
    (~ In "Time"%string (Governance.columns df) ->
       enrich_schema default_rng choice to_timedelta_seconds df
       = inl (Governance.KeyError "Time")) /\
    ((1 < Governance.occurrences "Time" (Governance.columns df))%nat ->
       enrich_schema default_rng choice to_timedelta_seconds df
       = inl Governance.TypeError) /\
    (forall k,
        Governance.occurrences "Time" (Governance.columns df) = 1%nat ->
        Governance.index_of "Time" (Governance.columns df) = Some k ->
        let offsets := map (Governance.cell k) (Governance.rows df) in
        (forallb (offset_in_bounds to_timedelta_seconds) offsets = false ->
           enrich_schema default_rng choice to_timedelta_seconds df
           = inl Governance.OutOfBoundsTimedelta) /\
        (forallb (offset_in_bounds to_timedelta_seconds) offsets = true ->
         forallb (offset_in_range to_timedelta_seconds) offsets = false ->
           enrich_schema default_rng choice to_timedelta_seconds df
           = inl Governance.OverflowError) /\
        (forallb (offset_in_range to_timedelta_seconds) offsets = true ->
           exists out : DataFrame,
             enrich_schema default_rng choice to_timedelta_seconds df
             = inr out /\
             nrows out = List.length (Governance.rows df))) /\
    (forall raw : Governance.DataFrame,
        snd (Governance.clean raw) = inr df ->
        forall c : string,
          enrich_schema default_rng choice to_timedelta_seconds df
          <> inl (Governance.KeyError c)).
Proof.
  intros df.
  destruct (enrich_schema_run default_rng choice to_timedelta_seconds df)
    as (Habsent & Htwice & Honce).
  split; [exact Habsent|]. split; [exact Htwice|]. split.
  - intros k Ho Hk offsets. subst offsets.
    rewrite (Honce k Ho Hk). cbv zeta. split; [|split].
    + intros Eb. now rewrite Eb.
    + intros Eb Er. now rewrite Eb, Er.
    + intros Er.
      assert (Eb : forallb (offset_in_bounds to_timedelta_seconds)
                           (map (Governance.cell k) (Governance.rows df))
                   = true).
      { apply forallb_forall. intros x Hx.
        apply (offset_in_range_bounds to_timedelta_seconds).
        rewrite forallb_forall in Er. now apply Er. }
      rewrite Eb, Er. eexists. split; reflexivity.
  - intros raw Hclean c.
    destruct (clean_success raw Hclean) as (Hreq & Eout).
    assert (Hin : In "Time"%string (Governance.columns df)).
    { rewrite Eout. cbn [Governance.columns]. apply Hreq.
      vm_compute. tauto. }
    destruct (index_of_In _ _ Hin) as (k & Hk).
    pose proof (proj1 (count_occ_In string_dec _ _) Hin) as Hpos.
    fold (Governance.occurrences "Time" (Governance.columns df)) in Hpos.
    destruct (Nat.eq_dec
                (Governance.occurrences "Time" (Governance.columns df)) 1)
      as [Ho|Ho].
    + rewrite (Honce k Ho Hk). cbv zeta.
      destruct (forallb (offset_in_bounds to_timedelta_seconds) _);
        [|discriminate].
      destruct (forallb (offset_in_range to_timedelta_seconds) _);
        discriminate.
    + rewrite Htwice by lia. discriminate.
Qed.

End SchemaMore.

Lemma enrich_schema_time_column_witness :
  Schema.enrich_schema Schema.counter_rng Schema.cyclic_choice
    Schema.whole_seconds
    (Governance.mkDataFrame ["Amount"; "Class"]%string [])
  = inl (Governance.KeyError "Time") /\
  Schema.enrich_schema Schema.counter_rng Schema.cyclic_choice
    Schema.whole_seconds far_offset_frame
  = inl Governance.OutOfBoundsTimedelta /\
  exists out : Schema.DataFrame,
    Schema.enrich_schema Schema.counter_rng Schema.cyclic_choice
      Schema.whole_seconds cleaned_frame = inr out /\
    Schema.nrows out = 2%nat.
Proof.
  destruct (enrich_schema_time_column Schema.counter_rng Schema.cyclic_choice
              Schema.whole_seconds
              (Governance.mkDataFrame ["Amount"; "Class"]%string []))
    as (Hno & _).
  destruct (enrich_schema_time_column Schema.counter_rng Schema.cyclic_choice
              Schema.whole_seconds far_offset_frame) as (_ & _ & Hfar & _).
  destruct (enrich_schema_time_column Schema.counter_rng Schema.cyclic_choice
              Schema.whole_seconds cleaned_frame) as (_ & _ & Hyes & _).
  split; [|split].
  - apply Hno. cbn [Governance.columns In].
    intros [H|[H|[]]]; discriminate H.
  - apply (proj1 (Hfar 0%nat eq_refl eq_refl)). vm_compute. reflexivity.
  - apply (proj2 (proj2 (Hyes 0%nat eq_refl eq_refl))).
    vm_compute. reflexivity.
Defined.

Lemma hour_of_offset (d : Z) :
  dt_hour (Schema.BASE_DATETIME + d)%Z = ((d / NANOS_PER_HOUR) mod 24)%Z /\
  dt_date (Schema.BASE_DATETIME + d)%Z = (19723 + d / NANOS_PER_DAY)%Z.
Proof.
  unfold dt_hour, dt_date, Schema.BASE_DATETIME, NANOS_PER_HOUR,
    NANOS_PER_DAY.
  change (1704067200 * 1000000000)%Z with (473352 * (3600 * 1000000000))%Z
    at 1.
  change (1704067200 * 1000000000)%Z with (19723 * (86400 * 1000000000))%Z.
  rewrite !Z.div_add_l by lia. split; [|reflexivity].
  change 473352%Z with (19723 * 24)%Z.
  rewrite Z.add_comm, Z_mod_plus_full. reflexivity.
Qed.

Lemma off_hours_of_offset (d : Z) :
  let h := ((d / NANOS_PER_HOUR) mod 24)%Z in
  ((h >=? RuleEngine.OFF_HOURS_START)%Z && (h <=? RuleEngine.OFF_HOURS_END)%Z)
  = (d mod NANOS_PER_DAY <? OFF_HOURS_SPAN)%Z.
Proof.
  cbv zeta. unfold RuleEngine.OFF_HOURS_START, RuleEngine.OFF_HOURS_END,
    OFF_HOURS_SPAN, NANOS_PER_DAY, NANOS_PER_HOUR.
  change (3600 * 1000000000)%Z with 3600000000000%Z.
  change (86400 * 1000000000)%Z with 86400000000000%Z.
  change (6 * 3600000000000)%Z with 21600000000000%Z.
  apply eq_true_iff_eq. rewrite andb_true_iff, Z.geb_le, Z.leb_le, Z.ltb_lt.
  Z.div_mod_to_equations. lia.
Qed.

(** X21: with the wall-clock time that enrichment derives from the
    offset column (the reference instant, midnight of 2024-01-01, plus
    the offset), the off-hours rule scores a row 0.2 exactly when its
    offset falls into the first six hours of a day, for offsets before
    the reference instant as well; the hour is the whole hours of the
    offset modulo 24 and the date advances by the whole days. *)
Theorem off_hours_window :
  forall (df : TxnFrame) (i : nat) (t : Txn) (d : Z),
    has_transaction_time df = true ->
    nth_error (txns df) i = Some t ->
    transaction_time t = (Schema.BASE_DATETIME + d)%Z ->
    nth_error (RuleEngine._score_off_hours df) i
    = Some (if (d mod NANOS_PER_DAY <? OFF_HOURS_SPAN)%Z
            then RuleEngine.f0_2 else F64.zero) /\
    dt_hour (transaction_time t) = ((d / NANOS_PER_HOUR) mod 24)%Z /\
    dt_date (transaction_time t) = (19723 + d / NANOS_PER_DAY)%Z.
Proof.
  intros df i t d Hh Ht Hd. rewrite Hd.
  destruct (hour_of_offset d) as (Hhour & Hdate).
  split; [|split; assumption].
  rewrite _score_off_hours_rowwise, (map_nth_error _ _ _ Ht).
  unfold RuleRow.off_hours_component.
  rewrite Hh, Hd, Hhour. cbn [andb].
  now rewrite off_hours_of_offset.
Qed.

Lemma off_hours_window_witness :
  nth_error
    (RuleEngine._score_off_hours (offset_frame (-1 * NANOS_PER_HOUR))) 0
  = Some F64.zero /\
  nth_error
    (RuleEngine._score_off_hours (offset_frame (29 * NANOS_PER_HOUR))) 0
  = Some RuleEngine.f0_2.
Proof.
  split.
  - apply (@off_hours_window (offset_frame (-1 * NANOS_PER_HOUR)) 0
             (mkTxn (F64.of_Z 100) 0 "MRC_001" "CUST_0001"
                    (Schema.BASE_DATETIME + -1 * NANOS_PER_HOUR)%Z)
             (-1 * NANOS_PER_HOUR)%Z); reflexivity.
  - apply (@off_hours_window (offset_frame (29 * NANOS_PER_HOUR)) 0
             (mkTxn (F64.of_Z 100) 0 "MRC_001" "CUST_0001"
                    (Schema.BASE_DATETIME + 29 * NANOS_PER_HOUR)%Z)
             (29 * NANOS_PER_HOUR)%Z); reflexivity.
Defined.
